(* ===== verification/_CoqProject ===== *)
-Q . S2P
Prelude.v
Json.v
JsonText.v
Host.v
FieldMapper.v
RequestBuilder.v
Submission.v
Execute.v
Webhook.v
LoadOptions.v
NodeDescription.v
Protocol.v
ProtocolSpec.v
