(* ===== verification/Prelude.v ===== *)
(** * gotoHuman for n8n: a verification development

    The program (repository gotohuman/n8n-nodes-gotohuman) is an n8n
    community node, [src/nodes/GotoHuman/GotoHuman.node.ts], with its
    credential type [src/credentials/GotoHumanApi.credentials.ts].  Its
    one operation, "send and wait", posts a review request to the
    gotoHuman API for each input item and suspends the workflow until the
    human's answer comes back on the node's webhook.

    ** Parts of the program and how they interact

    - [execute] loops over the input items.  For each it builds the
      request (parameters, metadata, assignees, the resource-mapper fields
      with JSON text parsed for array/object fields, the webhook URL
      [<resumeUrl>/<nodeId>]), posts it through the host's authenticated
      request helper, classifies the answer by its [statusCode], and takes
      the answer's [timeoutInMillis] as the wait.  Errors abort the
      invocation, or are recorded when "continue on fail" is set.  It then
      calls [putExecutionToWait(now + wait)] and returns its input.
    - [webhook] is the callback receiver: the posted body becomes the
      resumed execution's output through [returnJsonArray].
    - [searchReviewTemplates] and [getMappingFields] feed the editor.
    - The credential adds the header [x-api-key] to every request.

    ** Files, in dependency order

    - [Prelude.v] (this file): the result monad [result] modelling
      [throw], its notation [let? x := m in k] in [gth_scope], string and
      range lemmas, the [gth]/[gth_rw] hint databases, tactics.
    - [Json.v]: JavaScript values ([jsval], the JSON subset with integer
      numbers), the operations the source applies to them (own-property
      read, assignment with the ["__proto__"] accessor, truthiness,
      [typeof], [String(v)]), well-formedness ([wf_jsval]: no repeated
      key), and the interface [JsonCodec] / [JsonCodecLaws] of the JSON
      codec ([jsonParse], [JSON.stringify]).
    - [JsonText.v]: an implementation of that interface, [JSON.stringify]
      and [JSON.parse] over strings (recursive descent with fuel
      [length s + 1]), the round trip [parse (stringify v) = v], the
      well-formedness of parsed values, and the instance of
      [JsonCodecLaws] they give.
    - [Host.v]: request options, the credential type and [authenticate],
      the errors ([node_error]) and their messages, and [host]: the
      services of one invocation (continue-on-fail flag, clock, credential,
      and the network as a function of the item index and the request).
    - [FieldMapper.v], module [FieldMapper]: lines 435-449 of [execute].
    - [RequestBuilder.v], module [RequestBuilder]: lines 401-464, the
      item's parameters ([item_params]), metadata ([resolve_meta],
      [meta_of_pairs]), assignees, update id, webhook URL, the body
      ([build_request], [body_json]).
    - [Submission.v], module [Submission]: lines 465-486, the request
      options, [classify_response] and [response_timeout].
    - [Execute.v], module [Execute]: lines 394-503, one item
      ([process_item]), the loop with its state ([execute_items] on
      [exec_state] = waitMillis, returnData, requests sent) and the
      invocation ([execute]: the requests sent, returnData, and the
      outcome [Suspended deadline output] or [Thrown error]).
    - [Webhook.v], module [Webhook]: the webhook declaration (lines 26-36)
      and handler (505-510).
    - [LoadOptions.v], module [LoadOptions]: lines 316-392.
    - [NodeDescription.v], module [NodeDescription]: [description]
      (lines 6-314): the ten parameter declarations as data (type,
      default, option values, load-options method, display conditions),
      n8n's display semantics and [getNodeParameter] ([shown],
      [get_param]: set value or default, an error for a hidden
      parameter), and the reads of [execute] (lines 401-438) with the
      code's guards ([read_item_params]), which give the [item_params]
      of the Request Builder.
    - [Protocol.v], module [Protocol]: the suspend/resume protocol as a
      labelled transition system of a host running several executions of
      the node.  A state ([sys]) lists the executions (resume URL, node id,
      input items, requests sent, [status]: [Ready], [Waiting], [Failed],
      [Resumed]) with a ghost log of resumptions; the events run a node
      ([EvRun]: [Execute.execute], then [putExecutionToWait], line 499),
      deliver a callback ([EvCallback]: routed by URL to the webhook
      declared at lines 26-36, whose handler [webhook] gives the output),
      or fire a deadline ([EvTimeout]).  [step_fn] is executable, [step]
      the relation (proved equal), [reachable] the runs.
    - [ProtocolSpec.v], module [ProtocolSpec]: the specification's
      Suspend Controller contract as an abstract machine on executions
      by id ([astep]: submission parks until a later time or fails, the
      callback or the deadline resumes once), and the map [abs_sys] of a
      host state to it (no URLs, no requests).

    Every component that parses JSON is a [Section] over a [JsonCodec]
    instance, so its theorems hold for any parser; the witnesses run them
    with the instance of [JsonText.v].

    ** What the theorems show

    - Execute: the loop refines a map over the items ([item_results]):
      with continue-on-fail, or when every item succeeds, every item is
      processed and the wait is the last timeout an answer gave, else 14
      days; otherwise the first error is thrown after the earlier items'
      requests were sent, and no wait is scheduled.  The output is the
      input items.  Item [k] sends at most one request, the authenticated
      POST of the body built from item [k]'s parameters with item [k]'s
      webhook URL, in item order.  The deadline is a valid [Date] when the
      clock and every timeout given are in range; for every clock, a
      timeout past the range is taken as it is and makes the deadline an
      Invalid Date.
    - Submission: status codes 400-599 fail with an [ApiError] carrying
      the code and the body (or the answer as JSON text); 100-399 and
      absent or falsy codes succeed; the textual test is exactly a range
      test on the leading digit ([4 * 10^k <= n < 6 * 10^k]).
    - Field Mapper: the exact fields sent, the failure condition, the
      error naming the field, and the absence of a type check.
    - Request Builder: the members of the body, the metadata modes (JSON
      text taken as any JSON value, key/value pairs with the last value
      winning and "__proto__" dropped), the order of the errors.
    - Webhook and load options: a plain object body is the output as it
      is, an array body is split and a [json] member unwrapped; the
      search sends its request, passes on its error, and filters by
      case-insensitive substring; the field-list request.
    - Protocol: an invariant of every reachable state (waiting URLs
      identify executions, the log holds each resumption once, every
      request sent carries its execution's [<resumeUrl>/<nodeId>], a
      parked execution's output is its input items), by rule induction;
      from it, correlation (the URL in a request resumes that execution
      and no other) and resumption at the deadline with the node's own
      output.  Over the runs with their events ([run]), a resumed
      execution's output is its input items or the webhook's output for a
      body posted to its waiting URL during the run.
    - Refinement: every run of the host is a run of the contract
      (forward simulation, one lemma per rule of [step]).
    - JSON text: [JSON.parse (JSON.stringify v) = v] for well-formed
      values, by induction on [v] with the remaining text as parameter,
      and parsed values are well formed: the laws of [JsonCodecLaws] the
      metadata theorems use.  The parser's fuel decides every text as
      unbounded fuel would ([parse_json_fuel]).
    - Node description: with a template chosen every parameter
      [execute] reads is shown and the reads give the set-or-default
      values, each mode's parameter only in its mode; with the template
      emptied the code reads the hidden [fields] and fails; the defaults
      alone build a valid request.

    ** Bounds and modelling choices

    Numbers are integers ([Z]): status codes, milliseconds and counts are
    integers in the code; [String(n)] is modelled for integers (the form
    JavaScript prints below 10^21).  Strings are Rocq strings of 8-bit
    code units; [toLowerCase] is modelled on them (the ASCII and Latin-1
    capitals).  Entries of the fixed collections the host gives without
    a member have the member's declared default.  JSON object
    keys are printed in insertion order (JavaScript prints array-index
    keys first).  The parser's fuel is [length s + 1]: a printed value [v]
    needs [jsize v + 1] (two units per element or member), and
    [jsize v < length (stringify v)] is proved ([jsize_length]); on any
    text a call that consumes [k] characters needs at most [k] units, so
    [length s + 1] is enough for every input ([parse_json_fuel]).  The
    deadline is [now + waitMillis] as an integer, and
    [time_clip] ([Json.v]) gives the [Date] it makes: the time value
    within [8.64e15] ms of 1970, an Invalid Date outside.

    ** Not modelled

    - The node description's editor text (display names, descriptions,
      placeholders, hints) and the credential type's display name and
      documentation URL: they change no behaviour.
    - The host's persistence, queueing and HTTP serving of executions:
      [Protocol] and [ProtocolSpec] model only the contract the node
      relies on (parking until a deadline, resuming once).
    - The merging of the request options into an HTTP request by the
      host's request helper, and network transport: the node sees only
      the answer or the error ([Host.requestWithAuthentication]).
    - JSON numbers with a fraction or an exponent, and [\u] escapes
      above [\u00ff]: the values are integers and the strings 8-bit, so
      such texts are rejected by the modelled parser; no value the node
      builds contains them.
    - The import statements and class headers of the two source files.

    The components are therefore modelled in full but for the JSON codec,
    the JavaScript value semantics, the node description and the host
    side of the protocol, each partly for the reasons above. *)

From stdpp Require Import base list strings decidable.
From Stdlib Require Import ZArith String Lia.

Declare Scope gth_scope.
Delimit Scope gth_scope with gth.

(** ** Results: a value or a thrown error *)

Inductive result (E A : Type) : Type :=
| Ok (a : A)
| Err (e : E).
Arguments Ok {E A} a.
Arguments Err {E A} e.

Definition res_bind {E A B} (m : result E A) (f : A -> result E B) : result E B :=
  match m with
  | Ok a => f a
  | Err e => Err e
  end.

Definition res_map {E A B} (f : A -> B) (m : result E A) : result E B :=
  match m with
  | Ok a => Ok (f a)
  | Err e => Err e
  end.

Definition is_ok {E A} (m : result E A) : bool :=
  match m with Ok _ => true | Err _ => false end.

Notation "'let?' x ':=' m 'in' k" := (res_bind m (fun x => k))
  (at level 10, x name, m at level 100, k at level 200) : gth_scope.

Open Scope gth_scope.

Create HintDb gth.
Create Rewrite HintDb gth_rw.

Lemma res_bind_Ok {E A B} (a : A) (f : A -> result E B) :
  res_bind (Ok a) f = f a.
Proof. reflexivity. Qed.

Lemma res_bind_Err {E A B} (e : E) (f : A -> result E B) :
  res_bind (Err e) f = Err e.
Proof. reflexivity. Qed.

Lemma res_bind_Ok_inv {E A B} (m : result E A) (f : A -> result E B) b :
  res_bind m f = Ok b -> exists a, m = Ok a /\ f a = Ok b.
Proof. destruct m; simpl; [eauto | discriminate]. Qed.

Lemma res_bind_Err_inv {E A B} (m : result E A) (f : A -> result E B) e :
  res_bind m f = Err e -> m = Err e \/ exists a, m = Ok a /\ f a = Err e.
Proof. destruct m; simpl; [eauto | intros [= ->]; auto]. Qed.

#[export] Hint Rewrite @res_bind_Ok @res_bind_Err : gth_rw.

(** ** Strings *)

Local Open Scope string_scope.

(** stdpp declares [String.append] [simpl never]; these are its two
    defining equations, used for rewriting instead. *)
Lemma string_app_nil_l (s : string) : "" ++ s = s.
Proof. reflexivity. Qed.

Lemma string_app_cons c (s1 s2 : string) : String c s1 ++ s2 = String c (s1 ++ s2).
Proof. reflexivity. Qed.

Lemma string_app_nil_r (s : string) : s ++ "" = s.
Proof. induction s as [|c s IH]; [reflexivity | now rewrite string_app_cons, IH]. Qed.

Lemma string_app_assoc (s1 s2 s3 : string) :
  (s1 ++ s2) ++ s3 = s1 ++ (s2 ++ s3).
Proof. induction s1 as [|c s IH]; [reflexivity | now rewrite !string_app_cons, IH]. Qed.

Lemma string_app_length (s1 s2 : string) :
  String.length (s1 ++ s2) = String.length s1 + String.length s2.
Proof. induction s1 as [|c s IH]; [reflexivity | rewrite string_app_cons; simpl; lia]. Qed.

Lemma string_app_inv_l (s s1 s2 : string) : s ++ s1 = s ++ s2 -> s1 = s2.
Proof. induction s as [|c s IH]; [auto | rewrite !string_app_cons; intros [= H]; auto]. Qed.

#[export] Hint Rewrite string_app_nil_l string_app_cons string_app_nil_r string_app_assoc : gth_rw.

(** ** Options *)

Lemma option_default_Some {A} (d a : A) : default d (Some a) = a.
Proof. reflexivity. Qed.

(** ** Tactics *)

(** [inv_res] splits hypotheses [res_bind m f = Ok b] and
    [res_bind m f = Err e] into the cases they come from. *)
Ltac inv_res :=
  repeat match goal with
  | H : res_bind _ _ = Ok _ |- _ =>
      let a := fresh "a" in let Ha := fresh "Ha" in
      apply res_bind_Ok_inv in H as (a & Ha & H)
  | H : Ok _ = Ok _ |- _ => injection H as H; subst
  | H : Err _ = Err _ |- _ => injection H as H; subst
  | H : Ok _ = Err _ |- _ => discriminate H
  | H : Err _ = Ok _ |- _ => discriminate H
  end.

(** [gth_simpl] rewrites with the development's equations and simplifies. *)
Ltac gth_simpl := repeat (progress (simpl in *; autorewrite with gth_rw in *)).

(** ** Finite ranges of integers, checked by evaluation *)

Fixpoint zrange (lo : Z) (len : nat) : list Z :=
  match len with O => [] | S k => lo :: zrange (lo + 1)%Z k end.

(** A boolean property checked on every integer of [zrange lo len] holds
    on the whole interval [lo, lo + len). *)
Lemma zrange_forallb (f : Z -> bool) lo len :
  forallb f (zrange lo len) = true -> forall n, (lo <= n < lo + Z.of_nat len)%Z -> f n = true.
Proof.
  revert lo. induction len as [|len IH]; intros lo Hall n Hn; simpl in *; [lia|].
  apply andb_true_iff in Hall as [Hlo Hall].
  destruct (Z.eq_dec n lo) as [->|Hne]; [done|]. apply (IH (lo + 1)%Z); [done|lia].
Qed.
