(* ===== verification/Json.v ===== *)
(** * JavaScript values as the node handles them

    The node manipulates untyped JavaScript data: the resource-mapper
    values, the parsed metadata, the body it posts and the response it
    reads.  This file models that data ([jsval]: the JSON subset of
    JavaScript values, with integer numbers), the JavaScript operations the
    source applies to it (property read [v.k] / [v?.k], property
    assignment [o[k] = v], truthiness, [typeof], [String(v)]) and the
    interface [JsonCodec] of the JSON text codec the node calls
    ([jsonParse] of n8n-workflow, [JSON.stringify]), whose implementation
    is in [JsonText.v]. *)

From stdpp Require Import base list strings decidable sets.
From Stdlib Require Import ZArith String Ascii Lia.
From S2P Require Import Prelude.

Local Open Scope string_scope.

(** ** Values *)

Unset Elimination Schemes.
Inductive jsval : Type :=
| JNull
| JBool (b : bool)
| JNum (n : Z)
| JStr (s : string)
| JArr (vs : list jsval)
| JObj (ps : list (string * jsval)).
Set Elimination Schemes.

(** The induction principle for the nested lists of [JArr] and [JObj]. *)
Definition jsval_ind (P : jsval -> Prop)
  (fnull : P JNull) (fbool : forall b, P (JBool b)) (fnum : forall n, P (JNum n))
  (fstr : forall s, P (JStr s))
  (farr : forall vs, Forall P vs -> P (JArr vs))
  (fobj : forall ps, Forall (fun kv => P kv.2) ps -> P (JObj ps)) : forall v, P v :=
  fix F v :=
    match v with
    | JNull => fnull
    | JBool b => fbool b
    | JNum n => fnum n
    | JStr s => fstr s
    | JArr vs => farr vs ((fix G l : Forall P l :=
        match l with [] => List.Forall_nil _ | x :: l' => List.Forall_cons _ _ _ (F x) (G l') end) vs)
    | JObj ps => fobj ps ((fix G l : Forall (fun kv => P kv.2) l :=
        match l with [] => List.Forall_nil _ | x :: l' => List.Forall_cons _ _ _ (F x.2) (G l') end) ps)
    end.

Fixpoint jsval_eq_dec (x y : jsval) {struct x} : {x = y} + {x <> y}.
Proof.
  refine (match x, y with
  | JNull, JNull => left eq_refl
  | JBool a, JBool b => match bool_dec a b with left E => left _ | right N => right _ end
  | JNum a, JNum b => match Z.eq_dec a b with left E => left _ | right N => right _ end
  | JStr a, JStr b => match string_dec a b with left E => left _ | right N => right _ end
  | JArr a, JArr b =>
      match List.list_eq_dec jsval_eq_dec a b with left E => left _ | right N => right _ end
  | JObj a, JObj b =>
      match List.list_eq_dec (fun p q : string * jsval =>
        match string_dec p.1 q.1, jsval_eq_dec p.2 q.2 with
        | left E1, left E2 => left _
        | _, _ => right _
        end) a b with left E => left _ | right N => right _ end
  | _, _ => right _
  end); try congruence.
  all: destruct p, q; simpl in *; congruence.
Defined.

#[export] Instance jsval_eq_decision : EqDecision jsval := jsval_eq_dec.

(** ** Objects: own properties in insertion order *)

Abbreviation jsobj := (list (string * jsval)).

(** [o[k]] on the own properties of an object. *)
Fixpoint js_get (ps : jsobj) (k : string) : option jsval :=
  match ps with
  | [] => None
  | (k', v) :: ps' => if decide (k = k') then Some v else js_get ps' k
  end.

Definition has_own (ps : jsobj) (k : string) : bool := bool_decide (k ∈ ps.*1).

(** [o[k] = v] on an ordinary object whose prototype is [Object.prototype]:
    an own property is overwritten in place; a new key is appended, except
    ["__proto__"], which hits the inherited accessor and adds no own
    property (the accessor ignores primitives and otherwise changes the
    prototype, invisible to [JSON.stringify]). *)
Definition js_set (ps : jsobj) (k : string) (v : jsval) : jsobj :=
  if has_own ps k then map (fun kv => if decide (kv.1 = k) then (k, v) else kv) ps
  else if decide (k = "__proto__") then ps
  else (ps ++ [(k, v)])%list.

(** [v.k] and [v?.k]: the property of an object; [undefined] ([None]) on
    the other values for the property names the node reads. *)
Definition prop (v : jsval) (k : string) : option jsval :=
  match v with JObj ps => js_get ps k | _ => None end.

(** ** Truthiness, [typeof], [||] *)

Definition truthy (v : jsval) : bool :=
  match v with
  | JNull => false
  | JBool b => b
  | JNum n => negb (n =? 0)%Z
  | JStr s => negb (String.eqb s "")
  | JArr _ | JObj _ => true
  end.

(** A possibly [undefined] value: [None] is [undefined], which is falsy. *)
Definition otruthy (o : option jsval) : bool :=
  match o with None => false | Some v => truthy v end.

Definition js_typeof (o : option jsval) : string :=
  match o with
  | None => "undefined"
  | Some (JBool _) => "boolean"
  | Some (JNum _) => "number"
  | Some (JStr _) => "string"
  | Some (JNull | JArr _ | JObj _) => "object"
  end.

(** [a || d] where [d] is a value. *)
Definition js_or (o : option jsval) (d : jsval) : jsval :=
  match o with Some v => if truthy v then v else d | None => d end.

(** ** [String(v)] *)

(** Decimal notation of an integer, as [Number.prototype.toString] writes
    the safe integers: the digits of [n / 10], then the last digit. *)
Definition digit_char (d : Z) : ascii := ascii_of_nat (48 + Z.to_nat d).

Fixpoint nat_digits (fuel : nat) (n : Z) : string :=
  match fuel with
  | O => ""
  | S f => (if (n <? 10)%Z then "" else nat_digits f (n / 10)) ++ String (digit_char (n mod 10)) ""
  end.

(** [n < 2 ^ (log2 n + 1)], so [log2 n + 1] steps reach the first digit. *)
Definition digits_fuel (n : Z) : nat := S (Z.to_nat (Z.log2 n)).

Definition z_to_dec (n : Z) : string :=
  if (n <? 0)%Z then "-" ++ nat_digits (digits_fuel (- n)) (- n)
  else nat_digits (digits_fuel n) n.

(** [l.join(sep)]. *)
Fixpoint sep_each (sep : string) (l : list string) : string :=
  match l with [] => "" | s :: l' => sep ++ s ++ sep_each sep l' end.

Definition str_join (sep : string) (l : list string) : string :=
  match l with [] => "" | s :: l' => s ++ sep_each sep l' end.

(** [String(v)]: arrays are joined with [","], [null] elements giving the
    empty string. *)
Fixpoint js_to_string (v : jsval) : string :=
  match v with
  | JNull => "null"
  | JBool true => "true"
  | JBool false => "false"
  | JNum n => z_to_dec n
  | JStr s => s
  | JArr vs => str_join "," (map (fun x => match x with JNull => "" | _ => js_to_string x end) vs)
  | JObj _ => "[object Object]"
  end.

(** [s.startsWith(c)] for a one-character prefix. *)
Definition starts_with_char (c : ascii) (s : string) : bool :=
  match s with String c' _ => bool_decide (c = c') | EmptyString => false end.

(** ** Dates *)

(** The largest time value of a [Date], [8.64e15] ms. *)
Definition MAX_TIME : Z := 8640000000000000.

(** TimeClip, as [new Date(t)] applies it to an integer [t]: the time
    value, or [None] for an Invalid Date. *)
Definition time_clip (t : Z) : option Z := if (Z.abs t <=? MAX_TIME)%Z then Some t else None.

(** ** Well-formed values: no object has two own properties of one name *)

Fixpoint wf_jsval (v : jsval) : bool :=
  match v with
  | JArr vs => forallb wf_jsval vs
  | JObj ps => bool_decide (NoDup ps.*1) && forallb (fun kv => wf_jsval kv.2) ps
  | _ => true
  end.

(** ** The JSON text codec the node calls *)

(** [json_parse] is n8n-workflow's [jsonParse] ([JSON.parse], [None] when
    it throws); [json_stringify] is [JSON.stringify]. *)
Class JsonCodec := {
  json_parse : string -> option jsval;
  json_stringify : jsval -> string
}.

(** What a client may rely on: the empty text is not JSON, parsing gives
    well-formed values, and parsing a printed value gives it back. *)
Class JsonCodecLaws `{JsonCodec} := {
  json_parse_empty : json_parse "" = None;
  json_parse_wf : forall s v, json_parse s = Some v -> wf_jsval v = true;
  json_parse_stringify : forall v, wf_jsval v = true -> json_parse (json_stringify v) = Some v
}.

(** ** Lemmas on objects *)

Lemma js_get_Some_in ps k v : js_get ps k = Some v -> (k, v) ∈ ps.
Proof.
  induction ps as [|[k' v'] ps IH]; simpl; [discriminate|].
  case_decide; [intros [= <-]; subst; left | intros; right; auto].
Qed.

Lemma js_get_None ps k : js_get ps k = None <-> k ∉ ps.*1.
Proof.
  induction ps as [|[k' v'] ps IH]; simpl; [set_solver|].
  case_decide; subst; [split; [discriminate | set_solver]|].
  rewrite IH. set_solver.
Qed.

Lemma has_own_js_get ps k : has_own ps k = true <-> is_Some (js_get ps k).
Proof.
  unfold has_own. rewrite bool_decide_eq_true.
  destruct (js_get ps k) eqn:E.
  - split; [eauto|]. intros _. apply js_get_Some_in in E.
    apply list_elem_of_fmap. exists (k, j). auto.
  - apply js_get_None in E. split; [done | intros []; discriminate].
Qed.

Lemma js_get_map_set ps k k' v :
  js_get (map (fun kv => if decide (kv.1 = k) then (k, v) else kv) ps) k' =
  if decide (k' = k) then (if has_own ps k then Some v else None) else js_get ps k'.
Proof.
  unfold has_own. induction ps as [|[k1 v1] ps IH]; simpl.
  - repeat case_decide; auto.
  - rewrite IH. repeat (case_decide || case_bool_decide); subst; simpl in *;
      try case_decide; try set_solver.
Qed.

Lemma js_get_app ps qs k :
  js_get (ps ++ qs)%list k = match js_get ps k with Some v => Some v | None => js_get qs k end.
Proof.
  induction ps as [|[k1 v1] ps IH]; simpl; [done|]. case_decide; auto.
Qed.

(** Reading back a property just assigned. *)
Lemma js_set_get_eq ps k v :
  (has_own ps k = true \/ k <> "__proto__") -> js_get (js_set ps k v) k = Some v.
Proof.
  intros Hk. unfold js_set. destruct (has_own ps k) eqn:Ho.
  - rewrite js_get_map_set, Ho. case_decide; done.
  - destruct Hk as [|Hk]; [discriminate|]. case_decide; [done|].
    rewrite js_get_app. assert (js_get ps k = None) as ->.
    { destruct (js_get ps k) eqn:E; auto.
      assert (has_own ps k = true) by (apply has_own_js_get; eauto). congruence. }
    simpl. case_decide; done.
Qed.

Lemma js_set_get_ne ps k k' v : k' <> k -> js_get (js_set ps k v) k' = js_get ps k'.
Proof.
  intros Hne. unfold js_set. destruct (has_own ps k).
  - rewrite js_get_map_set. case_decide; done.
  - case_decide; [done|]. rewrite js_get_app.
    destruct (js_get ps k'); simpl; [done|]. case_decide; done.
Qed.

(** Assigning ["__proto__"] adds no own property. *)
Lemma js_set_proto ps v : has_own ps "__proto__" = false -> js_set ps "__proto__" v = ps.
Proof. intros H. unfold js_set. rewrite H. case_decide; done. Qed.

Lemma js_set_keys ps k v :
  (js_set ps k v).*1 = if has_own ps k then ps.*1
                       else if decide (k = "__proto__") then ps.*1 else (ps.*1 ++ [k])%list.
Proof.
  unfold js_set. destruct (has_own ps k) eqn:Ho.
  - rewrite <- list_fmap_compose. apply list_fmap_ext. intros i [k' v'] _.
    simpl. case_decide; subst; done.
  - case_decide; [done|]. by rewrite fmap_app.
Qed.

Lemma js_set_NoDup ps k v : NoDup ps.*1 -> NoDup (js_set ps k v).*1.
Proof.
  intros Hnd. rewrite js_set_keys. destruct (has_own ps k) eqn:Ho; [done|].
  case_decide; [done|]. apply NoDup_app. split; [done|]. split; [|apply NoDup_singleton].
  unfold has_own in Ho. apply bool_decide_eq_false in Ho. set_solver.
Qed.

#[export] Hint Resolve js_set_NoDup : gth.

Example z_to_dec_404 : z_to_dec 404 = "404".
Proof. reflexivity. Qed.
Example z_to_dec_neg : z_to_dec (-70) = "-70".
Proof. reflexivity. Qed.
Example js_to_string_arr : js_to_string (JArr [JNum 4; JNull; JArr [JBool true; JStr "x"]]) = "4,,true,x".
Proof. reflexivity. Qed.

Lemma wf_JArr vs : wf_jsval (JArr vs) = true <-> Forall (fun v => wf_jsval v = true) vs.
Proof.
  simpl. rewrite forallb_forall, Forall_forall. setoid_rewrite list_elem_of_In. done.
Qed.

Lemma wf_JObj ps :
  wf_jsval (JObj ps) = true <-> NoDup ps.*1 /\ Forall (fun kv => wf_jsval kv.2 = true) ps.
Proof.
  simpl. rewrite andb_true_iff, bool_decide_eq_true, forallb_forall, Forall_forall.
  setoid_rewrite list_elem_of_In. done.
Qed.

(** Assigning a well-formed value keeps an object well formed. *)
Lemma js_set_wf ps k v :
  wf_jsval (JObj ps) = true -> wf_jsval v = true -> wf_jsval (JObj (js_set ps k v)) = true.
Proof.
  rewrite !wf_JObj. intros [Hnd Hall] Hv. split; [auto with gth|].
  unfold js_set. destruct (has_own ps k).
  - apply Forall_fmap. eapply Forall_impl; [exact Hall|]. intros [k' v'] ?. simpl.
    case_decide; done.
  - case_decide; [done|]. apply Forall_app. split; [done|]. by constructor.
Qed.

#[export] Hint Resolve js_set_wf : gth.
