(* ===== verification/JsonText.v ===== *)
(** * The JSON text codec: [JSON.stringify] and [JSON.parse]

    The node hands JSON text to n8n-workflow's [jsonParse], which is
    [JSON.parse], and its request body is serialised with
    [JSON.stringify] by the host's HTTP helper.  Neither is code of this
    repository: both are modelled here from ECMA-262 and the JSON grammar
    (RFC 8259), for the integer subset of numbers the development uses
    (a number literal with a fraction or an exponent is rejected), strings
    of 8-bit code units ([\uXXXX] escapes below 256), and object keys
    printed in insertion order.  The file ends with the round-trip theorem
    [parse (stringify v) = v] and the instance of the [JsonCodec]
    interface. *)

From stdpp Require Import base list strings decidable sets.
From Stdlib Require Import ZArith String Ascii Lia.
From S2P Require Import Prelude Json.

Local Open Scope string_scope.
Local Open Scope char_scope.

(** ** Characters *)

Definition quote_c : ascii := ascii_of_nat 34.
Definition bslash_c : ascii := ascii_of_nat 92.

Definition is_ws (c : ascii) : bool :=
  bool_decide (c = " " \/ c = ascii_of_nat 9 \/ c = ascii_of_nat 10 \/ c = ascii_of_nat 13).

Definition is_digit (c : ascii) : bool :=
  (48 <=? nat_of_ascii c)%nat && (nat_of_ascii c <=? 57)%nat.

Definition digit_val (c : ascii) : Z := Z.of_nat (nat_of_ascii c - 48).

Definition hex_char (d : nat) : ascii :=
  if (d <? 10)%nat then ascii_of_nat (48 + d) else ascii_of_nat (87 + d).

Definition hex_val (c : ascii) : option nat :=
  let n := nat_of_ascii c in
  if (48 <=? n)%nat && (n <=? 57)%nat then Some (n - 48)
  else if (97 <=? n)%nat && (n <=? 102)%nat then Some (n - 87)
  else if (65 <=? n)%nat && (n <=? 70)%nat then Some (n - 55)
  else None.

(** ** [JSON.stringify] *)

Definition esc (c : ascii) : string := String bslash_c (String c EmptyString).

(** QuoteJSONString, one code unit. *)
Definition escape_char (c : ascii) : string :=
  let n := nat_of_ascii c in
  if (n =? 8)%nat then esc "b"
  else if (n =? 9)%nat then esc "t"
  else if (n =? 10)%nat then esc "n"
  else if (n =? 12)%nat then esc "f"
  else if (n =? 13)%nat then esc "r"
  else if (n =? 34)%nat then esc quote_c
  else if (n =? 92)%nat then esc bslash_c
  else if (n <? 32)%nat then
    String bslash_c (String "u" (String "0" (String "0"
      (String (hex_char (n / 16)) (String (hex_char (n mod 16)) EmptyString)))))
  else String c EmptyString.

Fixpoint escape_chars (s : string) : string :=
  match s with
  | EmptyString => EmptyString
  | String c s' => escape_char c ++ escape_chars s'
  end.

Definition quote_string (s : string) : string :=
  String quote_c (escape_chars s ++ String quote_c EmptyString).

Fixpoint stringify (v : jsval) : string :=
  match v with
  | JNull => "null"
  | JBool b => if b then "true" else "false"
  | JNum n => z_to_dec n
  | JStr s => quote_string s
  | JArr vs => "[" ++ str_join "," (map stringify vs) ++ "]"
  | JObj ps =>
      "{" ++ str_join "," (map (fun kv => quote_string kv.1 ++ ":" ++ stringify kv.2) ps) ++ "}"
  end.

(** ** [JSON.parse] *)

Fixpoint skip_ws (s : string) : string :=
  match s with
  | String c s' => if is_ws c then skip_ws s' else s
  | EmptyString => EmptyString
  end.

Definition simple_escape (e : ascii) : option ascii :=
  if bool_decide (e = quote_c) then Some quote_c
  else if bool_decide (e = bslash_c) then Some bslash_c
  else if bool_decide (e = "/") then Some "/"
  else if bool_decide (e = "b") then Some (ascii_of_nat 8)
  else if bool_decide (e = "f") then Some (ascii_of_nat 12)
  else if bool_decide (e = "n") then Some (ascii_of_nat 10)
  else if bool_decide (e = "r") then Some (ascii_of_nat 13)
  else if bool_decide (e = "t") then Some (ascii_of_nat 9)
  else None.

Definition hex4 (h1 h2 h3 h4 : ascii) : option nat :=
  match hex_val h1, hex_val h2, hex_val h3, hex_val h4 with
  | Some a, Some b, Some c, Some d => Some (((a * 16 + b) * 16 + c) * 16 + d)%nat
  | _, _, _, _ => None
  end.

Definition cons_char (c : ascii) (r : option (string * string)) : option (string * string) :=
  match r with Some (s, rest) => Some (String c s, rest) | None => None end.

(** The characters of a string literal after its opening quote, up to and
    including the closing quote. *)
Fixpoint parse_chars (s : string) : option (string * string) :=
  match s with
  | EmptyString => None
  | String c s1 =>
      if bool_decide (c = quote_c) then Some (EmptyString, s1)
      else if bool_decide (c = bslash_c) then
        match s1 with
        | String e s2 =>
            if bool_decide (e = "u") then
              match s2 with
              | String h1 (String h2 (String h3 (String h4 s3))) =>
                  match hex4 h1 h2 h3 h4 with
                  | Some n => if (n <? 256)%nat then cons_char (ascii_of_nat n) (parse_chars s3)
                              else None
                  | None => None
                  end
              | _ => None
              end
            else match simple_escape e with
                 | Some c' => cons_char c' (parse_chars s2)
                 | None => None
                 end
        | EmptyString => None
        end
      else if (nat_of_ascii c <? 32)%nat then None
      else cons_char c (parse_chars s1)
  end.

Fixpoint digits_acc (acc : Z) (s : string) : Z * string :=
  match s with
  | String c s' => if is_digit c then digits_acc (10 * acc + digit_val c)%Z s' else (acc, s)
  | EmptyString => (acc, EmptyString)
  end.

(** A number ends the literal unless a fraction or exponent follows,
    which is outside the modelled subset. *)
Definition end_number (neg : bool) (n : Z) (s : string) : option (jsval * string) :=
  match s with
  | String c _ => if bool_decide (c = "." \/ c = "e" \/ c = "E") then None
                  else Some (JNum (if neg then - n else n)%Z, s)
  | EmptyString => Some (JNum (if neg then - n else n)%Z, s)
  end.

(** [-? (0 | [1-9][0-9]* )]. *)
Definition parse_uint (neg : bool) (s : string) : option (jsval * string) :=
  match s with
  | String c s' =>
      if bool_decide (c = "0") then end_number neg 0 s'
      else if is_digit c then
        let (n, r) := digits_acc (digit_val c) s' in end_number neg n r
      else None
  | EmptyString => None
  end.

Definition parse_number (s : string) : option (jsval * string) :=
  match s with
  | String c s' => if bool_decide (c = "-") then parse_uint true s' else parse_uint false s
  | EmptyString => None
  end.

(** [s] begins with the keyword [w]: the rest. *)
Fixpoint strip_prefix (w s : string) : option string :=
  match w, s with
  | EmptyString, _ => Some s
  | String a w', String b s' => if bool_decide (a = b) then strip_prefix w' s' else None
  | String _ _, EmptyString => None
  end.

(** [s] begins with the character [c]: the rest. *)
Definition eat (c : ascii) (s : string) : option string :=
  match s with
  | String c' r => if bool_decide (c' = c) then Some r else None
  | EmptyString => None
  end.

(** CreateDataProperty on an object under construction: a repeated key
    keeps its first position and takes the last value. *)
Definition obj_define (ps : jsobj) (k : string) (v : jsval) : jsobj :=
  if has_own ps k then map (fun kv => if decide (kv.1 = k) then (k, v) else kv) ps
  else (ps ++ [(k, v)])%list.

Definition obj_of_members (ms : list (string * jsval)) : jsobj :=
  foldl (fun o kv => obj_define o kv.1 kv.2) [] ms.

(** Recursive descent; every call consumes fuel, and [length s + 1] is
    enough since each call but the last consumes a character. *)
Fixpoint parse_value (fuel : nat) (s : string) : option (jsval * string) :=
  match fuel with
  | O => None
  | S f =>
      match skip_ws s with
      | EmptyString => None
      | String c s1 =>
          if bool_decide (c = "n") then
            match strip_prefix "ull" s1 with Some r => Some (JNull, r) | None => None end
          else if bool_decide (c = "t") then
            match strip_prefix "rue" s1 with Some r => Some (JBool true, r) | None => None end
          else if bool_decide (c = "f") then
            match strip_prefix "alse" s1 with Some r => Some (JBool false, r) | None => None end
          else if bool_decide (c = quote_c) then
            match parse_chars s1 with Some (str, r) => Some (JStr str, r) | None => None end
          else if bool_decide (c = "[") then
            match eat "]" (skip_ws s1) with
            | Some r => Some (JArr [], r)
            | None => match parse_elems f s1 with Some (vs, r) => Some (JArr vs, r) | None => None end
            end
          else if bool_decide (c = "{") then
            match eat "}" (skip_ws s1) with
            | Some r => Some (JObj [], r)
            | None => match parse_members f s1 with
                      | Some (ms, r) => Some (JObj (obj_of_members ms), r)
                      | None => None
                      end
            end
          else parse_number (String c s1)
      end
  end
(** Elements after [[], through the closing []]. *)
with parse_elems (fuel : nat) (s : string) : option (list jsval * string) :=
  match fuel with
  | O => None
  | S f =>
      match parse_value f s with
      | None => None
      | Some (v, r) =>
          match skip_ws r with
          | String c r' =>
              if bool_decide (c = ",") then
                match parse_elems f r' with Some (vs, r'') => Some (v :: vs, r'') | None => None end
              else if bool_decide (c = "]") then Some ([v], r')
              else None
          | EmptyString => None
          end
      end
  end
(** Members after [{], through the closing [}]. *)
with parse_members (fuel : nat) (s : string) : option (list (string * jsval) * string) :=
  match fuel with
  | O => None
  | S f =>
      match skip_ws s with
      | String q s1 =>
          if bool_decide (q = quote_c) then
            match parse_chars s1 with
            | Some (k, r1) =>
                match eat ":" (skip_ws r1) with
                | Some r2 =>
                    match parse_value f r2 with
                    | Some (v, r3) =>
                        match skip_ws r3 with
                        | String c r4 =>
                            if bool_decide (c = ",") then
                              match parse_members f r4 with
                              | Some (ms, r5) => Some ((k, v) :: ms, r5)
                              | None => None
                              end
                            else if bool_decide (c = "}") then Some ([(k, v)], r4)
                            else None
                        | EmptyString => None
                        end
                    | None => None
                    end
                | None => None
                end
            | None => None
            end
          else None
      | EmptyString => None
      end
  end.

(** [JSON.parse(s)]: one value, then only whitespace. *)
Definition parse_json (s : string) : option jsval :=
  match parse_value (S (String.length s)) s with
  | Some (v, r) => match skip_ws r with EmptyString => Some v | _ => None end
  | None => None
  end.

(** ** Round trip: numbers *)

Fixpoint all_digits (d : string) : bool :=
  match d with EmptyString => true | String c d' => is_digit c && all_digits d' end.

Fixpoint fold_digits (d : string) (acc : Z) : Z :=
  match d with EmptyString => acc | String c d' => fold_digits d' (10 * acc + digit_val c)%Z end.

(** [rest] does not continue a number literal. *)
Definition ends_number (rest : string) : bool :=
  match rest with
  | EmptyString => true
  | String c _ => negb (is_digit c) && negb (bool_decide (c = "." \/ c = "e" \/ c = "E"))
  end.

Lemma digits_acc_app d rest acc :
  all_digits d = true -> ends_number rest = true ->
  digits_acc acc (d ++ rest) = (fold_digits d acc, rest).
Proof.
  revert acc. induction d as [|c d IH]; intros acc Hd Hr; simpl in *.
  - destruct rest as [|c rest]; [done|]. simpl in Hr |- *.
    apply andb_true_iff in Hr as [Hr _]. apply negb_true_iff in Hr. by rewrite Hr.
  - apply andb_true_iff in Hd as [Hc Hd]. rewrite ?string_app_cons. simpl. rewrite Hc. auto.
Qed.

Lemma fold_digits_snoc d c acc :
  fold_digits (d ++ String c EmptyString) acc = (10 * fold_digits d acc + digit_val c)%Z.
Proof. revert acc. induction d as [|c' d IH]; intros acc; [done|]. rewrite ?string_app_cons. apply IH. Qed.

Lemma all_digits_snoc d c : all_digits (d ++ String c EmptyString) = all_digits d && is_digit c.
Proof.
  induction d as [|c' d IH]; simpl; [by rewrite andb_true_r|].
  rewrite ?string_app_cons. simpl. rewrite IH. by rewrite andb_assoc.
Qed.

Lemma digit_char_spec d :
  (0 <= d < 10)%Z ->
  is_digit (digit_char d) = true /\ digit_val (digit_char d) = d /\
  (digit_char d = "0" <-> d = 0%Z) /\ ends_number (String (digit_char d) EmptyString) = false.
Proof.
  intros Hd. assert (d = 0 \/ d = 1 \/ d = 2 \/ d = 3 \/ d = 4 \/ d = 5 \/ d = 6 \/ d = 7 \/
                     d = 8 \/ d = 9)%Z as Hc by lia.
  repeat destruct Hc as [->|Hc]; subst; vm_compute; repeat split; try done; congruence.
Qed.

(** The first character of a non-empty string. *)
Definition head_char (s : string) : option ascii :=
  match s with String c _ => Some c | EmptyString => None end.

Lemma head_char_app s t : s <> EmptyString -> head_char (s ++ t) = head_char s.
Proof. destruct s; [done|]. by rewrite ?string_app_cons. Qed.

Lemma nat_digits_S f n :
  nat_digits (S f) n =
    ((if (n <? 10)%Z then EmptyString else nat_digits f (n / 10)) ++ String (digit_char (n mod 10)) EmptyString)%string.
Proof. reflexivity. Qed.

(** The decimal digits of [n], with enough fuel: digits only, their value
    is [n], and no leading zero. *)
Lemma nat_digits_spec f n :
  (0 <= n < 2 ^ Z.of_nat (S f))%Z ->
  let d := nat_digits (S f) n in
  d <> EmptyString /\ all_digits d = true /\ fold_digits d 0 = n /\
  ((0 < n)%Z -> head_char d <> Some "0").
Proof.
  revert n. induction f as [|f IH]; intros n Hn; rewrite nat_digits_S.
  - assert (n = 0 \/ n = 1)%Z as [->| ->] by (simpl in Hn; lia); vm_compute;
      (split; [discriminate|]); (split; [reflexivity|]); (split; [reflexivity|]);
      intros Hp Hh; first [discriminate Hp | injection Hh as Hc; discriminate Hc].
  - destruct (Z.ltb_spec n 10) as [Hlt|Hge]; cbv iota; rewrite ?string_app_nil_l.
    + destruct (digit_char_spec n ltac:(lia)) as (Hdig & Hval & Hz & _).
      split; [discriminate|]. cbn [all_digits fold_digits head_char].
      rewrite Z.mod_small, Hdig, Hval by lia. split; [reflexivity|]. split; [lia|].
      intros Hp Hc. injection Hc as Hc. apply Hz in Hc. lia.
    + assert (Hq : (0 <= n / 10 < 2 ^ Z.of_nat (S f))%Z).
      { rewrite Nat2Z.inj_succ, Z.pow_succ_r in Hn by lia.
        assert (0 < 2 ^ Z.of_nat (S f))%Z by (apply Z.pow_pos_nonneg; lia).
        split; [apply Z.div_pos; lia|]. apply Z.div_lt_upper_bound; [lia|]. lia. }
      destruct (IH _ Hq) as (Hne & Hall & Hfold & Hhead).
      destruct (digit_char_spec (n mod 10) (Z.mod_pos_bound n 10 ltac:(lia))) as (Hdig & Hval & _).
      split.
      { destruct (nat_digits (S f) (n / 10)) as [|c d]; [contradiction|].
        rewrite string_app_cons. discriminate. }
      rewrite all_digits_snoc, fold_digits_snoc, Hall, Hdig, Hfold, Hval.
      split; [reflexivity|]. split; [pose proof (Z.div_mod n 10); lia|].
      intros _. rewrite head_char_app by exact Hne. apply Hhead.
      apply Z.div_str_pos. lia.
Qed.

Lemma digits_fuel_enough m : (0 <= m)%Z -> (0 <= m < 2 ^ Z.of_nat (S (Z.to_nat (Z.log2 m))))%Z.
Proof.
  intros Hm. split; [done|]. rewrite Nat2Z.inj_succ, Z2Nat.id by apply Z.log2_nonneg.
  destruct (Z.eq_dec m 0) as [->|Hne]; [done|].
  apply Z.log2_spec. lia.
Qed.

Lemma end_number_ok neg m rest :
  ends_number rest = true -> end_number neg m rest = Some (JNum (if neg then - m else m)%Z, rest).
Proof.
  destruct rest as [|c rest]; [done|]. simpl. intros H. apply andb_true_iff in H as [_ H].
  apply negb_true_iff in H. by rewrite H.
Qed.

Lemma parse_uint_digits neg m rest :
  (0 <= m)%Z -> ends_number rest = true ->
  parse_uint neg (nat_digits (digits_fuel m) m ++ rest) =
    Some (JNum (if neg then - m else m)%Z, rest).
Proof.
  intros Hm Hr. unfold digits_fuel.
  destruct (nat_digits_spec _ _ (digits_fuel_enough m Hm)) as (Hne & Hall & Hfold & Hhead).
  destruct (Z.eq_dec m 0) as [->|Hpos].
  - vm_compute (nat_digits _ 0). rewrite ?string_app_cons, string_app_nil_l.
    cbv beta iota delta [parse_uint]. rewrite bool_decide_eq_true_2 by reflexivity.
    by apply end_number_ok.
  - destruct (nat_digits _ m) as [|c d] eqn:E; [done|].
    rewrite ?string_app_cons. simpl in Hall, Hfold, Hhead |- *.
    apply andb_true_iff in Hall as [Hc Hd].
    rewrite bool_decide_eq_false_2 by (intros ->; apply (Hhead ltac:(lia)); done).
    rewrite Hc, digits_acc_app by done. replace (digit_val c) with (10 * 0 + digit_val c)%Z by lia.
    rewrite Hfold. by apply end_number_ok.
Qed.

(** Parsing the decimal notation of [n] gives [n] back. *)
Lemma parse_number_z_to_dec n rest :
  ends_number rest = true -> parse_number (z_to_dec n ++ rest) = Some (JNum n, rest).
Proof.
  intros Hr. unfold z_to_dec. destruct (Z.ltb_spec n 0) as [Hn|Hn].
  - rewrite string_app_assoc, ?string_app_cons, string_app_nil_l.
    cbv beta iota delta [parse_number]. rewrite bool_decide_eq_true_2 by reflexivity. rewrite parse_uint_digits by (lia || done).
    by rewrite Z.opp_involutive.
  - pose proof (parse_uint_digits false n rest Hn Hr) as Hp.
    destruct (nat_digits _ n) as [|c d] eqn:E.
    + exfalso. unfold digits_fuel in E.
      destruct (nat_digits_spec _ _ (digits_fuel_enough n Hn)) as [Hne _]. done.
    + rewrite ?string_app_cons in Hp |- *. unfold parse_number.
      assert (Hc : c <> "-").
      { intros ->. unfold digits_fuel in E.
        destruct (nat_digits_spec _ _ (digits_fuel_enough n Hn)) as (_ & Hall & _).
        rewrite E in Hall. discriminate. }
      by rewrite bool_decide_eq_false_2.
Qed.
(** ** The leading digit *)

Lemma digit_char_inj a b :
  (0 <= a < 10)%Z -> (0 <= b < 10)%Z -> digit_char a = digit_char b -> a = b.
Proof.
  intros Ha Hb E. unfold digit_char in E. apply (f_equal nat_of_ascii) in E.
  rewrite !nat_ascii_embedding in E by lia. lia.
Qed.

(** The first character of the digits of a positive [n] is the digit
    [n / 10^k], where [10^k <= n < 10^(k+1)]. *)
Lemma nat_digits_head f n :
  (0 < n < 2 ^ Z.of_nat (S f))%Z ->
  exists k, (0 <= k)%Z /\ (10 ^ k <= n < 10 ^ (k + 1))%Z /\
            head_char (nat_digits (S f) n) = Some (digit_char (n / 10 ^ k)).
Proof.
  revert n. induction f as [|f IH]; intros n Hn; rewrite nat_digits_S.
  - assert (n = 1)%Z as -> by (simpl in Hn; lia). exists 0%Z.
    split; [lia|]. split; [cbn; lia|reflexivity].
  - destruct (Z.ltb_spec n 10) as [Hlt|Hge]; cbv iota; rewrite ?string_app_nil_l.
    + exists 0%Z. split; [lia|]. rewrite Z.pow_0_r, Z.div_1_r, Z.mod_small by lia.
      split; [simpl; lia|reflexivity].
    + assert (Hq : (0 < n / 10 < 2 ^ Z.of_nat (S f))%Z).
      { rewrite Nat2Z.inj_succ, Z.pow_succ_r in Hn by lia.
        assert (0 < 2 ^ Z.of_nat (S f))%Z by (apply Z.pow_pos_nonneg; lia).
        split; [apply Z.div_str_pos; lia|]. apply Z.div_lt_upper_bound; lia. }
      destruct (IH _ Hq) as (k & Hk & Hb & Hh). exists (k + 1)%Z. split; [lia|].
      destruct (nat_digits_spec f (n / 10) ltac:(lia)) as (Hne & _).
      rewrite head_char_app by exact Hne. rewrite Hh, Z.div_div by (lia || (apply Z.pow_pos_nonneg; lia)).
      rewrite <- Z.pow_succ_r by lia. split; [|reflexivity].
      rewrite !Z.pow_add_r in * by lia. rewrite Z.pow_1_r in *.
      pose proof (Z.div_mod n 10 ltac:(lia)). pose proof (Z.mod_pos_bound n 10 ltac:(lia)). nia.
Qed.

(** The decimal text of a positive integer starts with its leading digit. *)
Lemma z_to_dec_lead n :
  (0 < n)%Z ->
  exists k, (0 <= k)%Z /\ (10 ^ k <= n < 10 ^ (k + 1))%Z /\
            head_char (z_to_dec n) = Some (digit_char (n / 10 ^ k)).
Proof.
  intros Hn. unfold z_to_dec. rewrite (proj2 (Z.ltb_ge n 0)) by lia. unfold digits_fuel.
  apply nat_digits_head. pose proof (digits_fuel_enough n ltac:(lia)). lia.
Qed.

(** ** Round trip: strings *)

Lemma bslash_quote : bslash_c <> quote_c.
Proof. vm_compute. discriminate. Qed.

Lemma hex_val_char d : (d < 16)%nat -> hex_val (hex_char d) = Some d.
Proof.
  intros Hd. do 16 (destruct d as [|d]; [reflexivity|]). lia.
Qed.

(** The four hex digits [00XY] of a code unit below 256. *)
Lemma hex4_char n :
  (n < 256)%nat -> hex4 "0" "0" (hex_char (n / 16)) (hex_char (n mod 16)) = Some n.
Proof.
  intros Hn. unfold hex4. change (hex_val "0") with (Some 0%nat).
  rewrite (hex_val_char (n / 16)) by (apply Nat.Div0.div_lt_upper_bound; lia).
  rewrite (hex_val_char (n mod 16)) by (apply Nat.mod_upper_bound; lia).
  cbn -[Nat.div Nat.modulo]. f_equal. pose proof (Nat.div_mod_eq n 16). lia.
Qed.

(** An unescaped character: neither quote, backslash nor control. *)
Lemma parse_chars_plain c x :
  c <> quote_c -> c <> bslash_c -> (32 <= nat_of_ascii c)%nat ->
  parse_chars (String c x) = cons_char c (parse_chars x).
Proof.
  intros Hq Hb Hn. cbn [parse_chars].
  rewrite bool_decide_eq_false_2 by exact Hq. rewrite bool_decide_eq_false_2 by exact Hb.
  replace (nat_of_ascii c <? 32)%nat with false by (symmetry; apply Nat.ltb_ge; lia).
  reflexivity.
Qed.

(** A two-character escape [\e]. *)
Lemma parse_esc_at e c x :
  bool_decide (e = "u") = false -> simple_escape e = Some c ->
  parse_chars (esc e ++ x) = cons_char c (parse_chars x).
Proof.
  intros Hu He. unfold esc. rewrite ?string_app_cons, string_app_nil_l. cbn [parse_chars].
  rewrite (bool_decide_eq_false_2 _ bslash_quote), bool_decide_eq_true_2 by reflexivity.
  rewrite Hu, He. reflexivity.
Qed.

(** A control character written [\u00XY]. *)
Lemma parse_esc_u c x :
  (nat_of_ascii c < 32)%nat ->
  parse_chars (String bslash_c (String "u" (String "0" (String "0"
    (String (hex_char (nat_of_ascii c / 16)) (String (hex_char (nat_of_ascii c mod 16)) EmptyString))))) ++ x) =
  cons_char c (parse_chars x).
Proof.
  intros Hc. rewrite ?string_app_cons, string_app_nil_l. cbn [parse_chars].
  rewrite (bool_decide_eq_false_2 _ bslash_quote), !bool_decide_eq_true_2 by reflexivity.
  rewrite hex4_char by lia.
  replace (nat_of_ascii c <? 256)%nat with true by (symmetry; apply Nat.ltb_lt; lia).
  by rewrite ascii_nat_embedding.
Qed.

Local Ltac esc_case c E :=
  apply parse_esc_at; [reflexivity | rewrite <- (ascii_nat_embedding c), E; reflexivity].

(** Each code unit's escape parses back to it. *)
Lemma parse_escape_char c x : parse_chars (escape_char c ++ x) = cons_char c (parse_chars x).
Proof.
  unfold escape_char. cbv zeta.
  destruct (Nat.eqb_spec (nat_of_ascii c) 8) as [E|N8]; [esc_case c E|].
  destruct (Nat.eqb_spec (nat_of_ascii c) 9) as [E|N9]; [esc_case c E|].
  destruct (Nat.eqb_spec (nat_of_ascii c) 10) as [E|N10]; [esc_case c E|].
  destruct (Nat.eqb_spec (nat_of_ascii c) 12) as [E|N12]; [esc_case c E|].
  destruct (Nat.eqb_spec (nat_of_ascii c) 13) as [E|N13]; [esc_case c E|].
  destruct (Nat.eqb_spec (nat_of_ascii c) 34) as [E|N34]; [esc_case c E|].
  destruct (Nat.eqb_spec (nat_of_ascii c) 92) as [E|N92]; [esc_case c E|].
  destruct (Nat.ltb_spec (nat_of_ascii c) 32) as [Hlt|Hge]; [by apply parse_esc_u|].
  rewrite string_app_cons, string_app_nil_l. apply parse_chars_plain; [| |lia].
  - intros ->. by apply N34.
  - intros ->. by apply N92.
Qed.

Lemma parse_escape_chars s rest :
  parse_chars (escape_chars s ++ String quote_c rest) = Some (s, rest).
Proof.
  induction s as [|c s IH].
  - cbn [escape_chars]. rewrite string_app_nil_l. cbn [parse_chars].
    by rewrite bool_decide_eq_true_2.
  - cbn [escape_chars]. rewrite string_app_assoc, parse_escape_char, IH. reflexivity.
Qed.

Lemma quote_string_app s rest :
  quote_string s ++ rest = String quote_c (escape_chars s ++ String quote_c rest).
Proof. unfold quote_string. by rewrite ?string_app_cons, string_app_assoc, ?string_app_cons. Qed.

(** ** Round trip: values *)

(** The fuel [parse_value] needs for a value, less one: two units per
    element or member (one for [parse_value], one for the list parser). *)
Fixpoint jsize (v : jsval) : nat :=
  match v with
  | JArr vs => sum_list (map (fun x => S (S (jsize x))) vs)
  | JObj ps => sum_list (map (fun kv => S (S (jsize kv.2))) ps)
  | _ => 0
  end.

Lemma str_join_one sep s : str_join sep [s] = s.
Proof. apply string_app_nil_r. Qed.

Lemma str_join_cons2 sep s s' l :
  str_join sep (s :: s' :: l) = (s ++ sep ++ str_join sep (s' :: l))%string.
Proof. reflexivity. Qed.

Lemma skip_ws_nonws c s : is_ws c = false -> skip_ws (String c s) = String c s.
Proof. intros H. cbn [skip_ws]. by rewrite H. Qed.

Lemma is_digit_not_ws c : is_digit c = true -> is_ws c = false.
Proof.
  intros Hc. unfold is_ws. apply bool_decide_eq_false_2.
  intros [->|[->|[->| ->]]]; vm_compute in Hc; discriminate Hc.
Qed.

(** The text of a number starts with ["-"] or a digit. *)
Lemma z_to_dec_head n :
  exists c t, z_to_dec n = String c t /\ (c = "-" \/ is_digit c = true).
Proof.
  unfold z_to_dec. destruct (Z.ltb_spec n 0) as [Hn|Hn].
  - eexists _, _. split; [reflexivity | by left].
  - unfold digits_fuel.
    destruct (nat_digits_spec _ _ (digits_fuel_enough n Hn)) as (Hne & Hall & _).
    destruct (nat_digits _ n) as [|c t]; [contradiction|].
    exists c, t. split; [reflexivity|]. right. cbn [all_digits] in Hall.
    by apply andb_true_iff in Hall as [-> _].
Qed.

(** Printed text starts with a character that is no whitespace and closes
    no array or object. *)
Lemma stringify_head v :
  exists c t, stringify v = String c t /\ is_ws c = false /\ c <> "]" /\ c <> "}".
Proof.
  destruct v as [| [] | n | s | vs | ps]; try (eexists _, _; split; [reflexivity|]; split; [reflexivity|];
    split; discriminate).
  destruct (z_to_dec_head n) as (c & t & Hs & Hc). exists c, t. split; [exact Hs|].
  destruct Hc as [->|Hc]; [split; [reflexivity|]; split; discriminate|].
  split; [by apply is_digit_not_ws|]. split; intros ->; vm_compute in Hc; discriminate Hc.
Qed.

(** A number is dispatched to [parse_number]. *)
Lemma parse_value_number f c s :
  c = "-" \/ is_digit c = true -> parse_value (S f) (String c s) = parse_number (String c s).
Proof.
  intros Hc. cbn [parse_value]. rewrite skip_ws_nonws.
  2: { destruct Hc as [->|Hc]; [reflexivity|by apply is_digit_not_ws]. }
  assert (Hne : forall d, is_digit d = false -> d <> "-" -> c <> d).
  { intros d Hd Hm ->. destruct Hc as [Hc|Hc]; [done|congruence]. }
  rewrite !bool_decide_eq_false_2; [reflexivity| apply Hne; [reflexivity|discriminate]..].
Qed.

Lemma ends_number_sep c t : c = "," \/ c = "]" \/ c = "}" -> ends_number (String c t) = true.
Proof. by intros [->|[->| ->]]. Qed.

(** Printing then parsing [v], followed by any text that does not continue
    a number, with more fuel than [jsize v], gives back [v] and the text. *)
Definition parses_back (v : jsval) : Prop :=
  wf_jsval v = true -> forall fuel rest, jsize v < fuel -> ends_number rest = true ->
  parse_value fuel (stringify v ++ rest) = Some (v, rest).

Lemma parse_elems_join vs :
  Forall parses_back vs -> Forall (fun v => wf_jsval v = true) vs -> vs <> [] ->
  forall fuel rest, sum_list (map (fun x => S (S (jsize x))) vs) <= fuel ->
  parse_elems fuel (str_join "," (map stringify vs) ++ String "]" rest) = Some (vs, rest).
Proof.
  induction vs as [|v vs IH]; intros Hall Hwf Hne fuel rest Hsz; [done|].
  apply List.Forall_cons_iff in Hall as [Hv Hall]. apply List.Forall_cons_iff in Hwf as [Hw Hwf].
  destruct fuel as [|f]; [simpl in Hsz; lia|]. cbn [parse_elems map].
  destruct vs as [|v' vs].
  - rewrite str_join_one, Hv by (first [done | reflexivity | simpl in Hsz; lia]).
    rewrite skip_ws_nonws by reflexivity. reflexivity.
  - cbn [map]. rewrite str_join_cons2, !string_app_assoc, string_app_cons, string_app_nil_l.
    rewrite Hv by (first [done | reflexivity | simpl in Hsz; lia]).
    rewrite skip_ws_nonws by reflexivity. rewrite bool_decide_eq_true_2 by reflexivity.
    change (stringify v' :: map stringify vs) with (map stringify (v' :: vs)).
    rewrite IH by (done || (simpl in Hsz |- *; lia)). reflexivity.
Qed.

Lemma eat_same c s : eat c (String c s) = Some s.
Proof. unfold eat. by rewrite bool_decide_eq_true_2. Qed.

(** The text of one member, [<quoted key>:<value>]. *)
Definition member_text (kv : string * jsval) : string :=
  (quote_string kv.1 ++ ":" ++ stringify kv.2)%string.

Lemma member_text_app k v rest :
  (member_text (k, v) ++ rest)%string =
    String quote_c (escape_chars k ++ String quote_c (String ":" (stringify v ++ rest))).
Proof.
  unfold member_text. cbn [fst snd].
  by rewrite string_app_assoc, quote_string_app, string_app_assoc, string_app_cons, string_app_nil_l.
Qed.

Lemma parse_member_value f k v rest :
  parses_back v -> wf_jsval v = true -> jsize v < f -> ends_number rest = true ->
  parse_members (S f) (member_text (k, v) ++ rest) =
    match skip_ws rest with
    | String c r4 =>
        if bool_decide (c = ",") then
          match parse_members f r4 with Some (ms, r5) => Some ((k, v) :: ms, r5) | None => None end
        else if bool_decide (c = "}") then Some ([(k, v)], r4)
        else None
    | EmptyString => None
    end.
Proof.
  intros Hv Hw Hf Hr. rewrite member_text_app. cbn [parse_members].
  rewrite skip_ws_nonws, bool_decide_eq_true_2 by reflexivity.
  rewrite parse_escape_chars, skip_ws_nonws by reflexivity.
  rewrite eat_same, Hv by assumption. reflexivity.
Qed.

Lemma parse_members_join ps :
  Forall (fun kv => parses_back kv.2) ps -> Forall (fun kv => wf_jsval kv.2 = true) ps -> ps <> [] ->
  forall fuel rest, sum_list (map (fun kv => S (S (jsize kv.2))) ps) <= fuel ->
  parse_members fuel (str_join "," (map member_text ps) ++ String "}" rest) = Some (ps, rest).
Proof.
  induction ps as [|[k v] ps IH]; intros Hall Hwf Hne fuel rest Hsz; [done|].
  apply List.Forall_cons_iff in Hall as [Hv Hall]. apply List.Forall_cons_iff in Hwf as [Hw Hwf].
  cbn [fst snd] in Hv, Hw. destruct fuel as [|f]; [simpl in Hsz; lia|].
  destruct ps as [|kv' ps].
  - cbn [map]. rewrite str_join_one, parse_member_value by (first [done | reflexivity | simpl in Hsz; lia]).
    rewrite skip_ws_nonws by reflexivity. reflexivity.
  - cbn [map]. rewrite str_join_cons2, string_app_assoc, parse_member_value
      by (first [done | reflexivity | simpl in Hsz; lia]).
    rewrite string_app_assoc, string_app_cons, string_app_nil_l, skip_ws_nonws by reflexivity.
    rewrite bool_decide_eq_true_2 by reflexivity.
    change (member_text kv' :: map member_text ps) with (map member_text (kv' :: ps)).
    rewrite IH by (done || (simpl in Hsz |- *; lia)). reflexivity.
Qed.

(** The dispatch of [parse_value] on the first character of a string,
    an array and an object. *)
Lemma parse_value_quote f s :
  parse_value (S f) (String quote_c s) =
    match parse_chars s with Some (str, r) => Some (JStr str, r) | None => None end.
Proof. reflexivity. Qed.

Lemma parse_value_lbracket f s :
  parse_value (S f) (String "[" s) =
    match eat "]" (skip_ws s) with
    | Some r => Some (JArr [], r)
    | None => match parse_elems f s with Some (vs, r) => Some (JArr vs, r) | None => None end
    end.
Proof. reflexivity. Qed.

Lemma parse_value_lbrace f s :
  parse_value (S f) (String "{" s) =
    match eat "}" (skip_ws s) with
    | Some r => Some (JObj [], r)
    | None => match parse_members f s with
              | Some (ms, r) => Some (JObj (obj_of_members ms), r)
              | None => None
              end
    end.
Proof. reflexivity. Qed.

(** No closing bracket where a non-empty list starts. *)
Lemma eat_skip_other c0 c t : is_ws c = false -> c <> c0 -> eat c0 (skip_ws (String c t)) = None.
Proof. intros Hw Hc. rewrite skip_ws_nonws by exact Hw. unfold eat. by rewrite bool_decide_eq_false_2. Qed.

Lemma str_join_head sep s l rest c t :
  s = String c t -> (str_join sep (s :: l) ++ rest)%string = String c ((t ++ sep_each sep l) ++ rest).
Proof. intros ->. unfold str_join. by rewrite string_app_cons. Qed.

(** Members with distinct keys build the object in their order. *)
Lemma obj_define_fold acc ms :
  NoDup (acc.*1 ++ ms.*1) -> foldl (fun o kv => obj_define o kv.1 kv.2) acc ms = (acc ++ ms)%list.
Proof.
  revert acc. induction ms as [|[k v] ms IH]; intros acc Hnd; [by rewrite List.app_nil_r|].
  cbn [foldl fst snd]. unfold obj_define, has_own.
  rewrite bool_decide_eq_false_2.
  - rewrite IH, <- List.app_assoc; [done|]. by rewrite fmap_app, <- List.app_assoc.
  - intros Hk. apply NoDup_app in Hnd as (_ & Hd & _). apply (Hd k Hk). rewrite fmap_cons. by left.
Qed.

Lemma obj_of_members_NoDup ms : NoDup ms.*1 -> obj_of_members ms = ms.
Proof. intros Hnd. by apply obj_define_fold. Qed.

(** Parsing the printed text of a well-formed value gives the value back,
    with the text that follows. *)
Theorem parse_value_stringify v : parses_back v.
Proof.
  induction v as [| [] | n | s | vs IH | ps IH] using jsval_ind; intros Hwf [|f] rest Hf Hr; try lia.
  - reflexivity.
  - reflexivity.
  - reflexivity.
  - destruct (z_to_dec_head n) as (c & t & Hs & Hc). cbn [stringify].
    rewrite Hs, string_app_cons, parse_value_number, <- string_app_cons, <- Hs by exact Hc.
    by apply parse_number_z_to_dec.
  - cbn [stringify]. rewrite quote_string_app, parse_value_quote, parse_escape_chars. reflexivity.
  - apply wf_JArr in Hwf. cbn [stringify]. rewrite string_app_assoc, !string_app_cons, string_app_nil_l.
    rewrite string_app_assoc, string_app_cons, string_app_nil_l, parse_value_lbracket.
    destruct vs as [|v vs]; [reflexivity|].
    destruct (stringify_head v) as (c & t & Hs & Hws & Hb & _).
    cbn [map]. rewrite (str_join_head _ _ _ _ c t Hs), eat_skip_other by assumption.
    rewrite <- (str_join_head _ _ _ _ c t Hs).
    change (stringify v :: map stringify vs) with (map stringify (v :: vs)).
    rewrite parse_elems_join by (done || (cbn [jsize] in Hf; lia)). reflexivity.
  - apply wf_JObj in Hwf as [Hnd Hwf]. cbn [stringify].
    change (map (fun kv => quote_string kv.1 ++ ":" ++ stringify kv.2) ps)%string with (map member_text ps).
    rewrite string_app_assoc, !string_app_cons, string_app_nil_l.
    rewrite string_app_assoc, string_app_cons, string_app_nil_l, parse_value_lbrace.
    destruct ps as [|[k v] ps]; [reflexivity|].
    assert (Hm := member_text_app k v ""). rewrite string_app_nil_r in Hm.
    cbn [map]. rewrite (str_join_head _ _ _ _ quote_c _ Hm).
    rewrite eat_skip_other by (reflexivity || discriminate).
    rewrite <- (str_join_head _ _ _ _ quote_c _ Hm).
    change (member_text (k, v) :: map member_text ps) with (map member_text ((k, v) :: ps)).
    rewrite parse_members_join by (done || (cbn [jsize] in Hf; lia)).
    by rewrite obj_of_members_NoDup.
Qed.

(** ** Fuel: [length s + 1] is enough for a printed value *)

Lemma sum_list_map_le {A} (f g : A -> nat) l :
  Forall (fun x => f x <= g x) l -> sum_list (map f l) <= sum_list (map g l).
Proof. induction 1; simpl; lia. Qed.

Lemma sep_each_length l :
  String.length (sep_each "," l) = sum_list (map (fun s => S (String.length s)) l).
Proof.
  induction l as [|s l IH]; [done|]. cbn [sep_each map sum_list_with id].
  rewrite string_app_cons, string_app_nil_l. cbn [String.length]. rewrite string_app_length, IH. lia.
Qed.

Lemma str_join_length l :
  sum_list (map (fun s => S (String.length s)) l) <= S (String.length (str_join "," l)).
Proof.
  destruct l as [|s l]; [simpl; lia|]. unfold str_join.
  rewrite string_app_length, sep_each_length. simpl. lia.
Qed.

Lemma member_text_length k v : 3 + String.length (stringify v) <= String.length (member_text (k, v)).
Proof.
  rewrite <- (string_app_nil_r (member_text _)), member_text_app. cbn [String.length].
  rewrite string_app_length. cbn [String.length]. rewrite string_app_nil_r. lia.
Qed.

Lemma jsize_length v : jsize v < String.length (stringify v).
Proof.
  induction v as [| [] | n | s | vs IH | ps IH] using jsval_ind;
    try (destruct (stringify_head (JNum n)) as (c & t & Hs & _); cbn [jsize]; rewrite Hs);
    try (simpl; lia).
  - cbn [jsize stringify]. rewrite !string_app_length.
    cbn [String.length]. pose proof (str_join_length (map stringify vs)) as Hj.
    rewrite List.map_map in Hj. enough (sum_list (map (fun x => S (S (jsize x))) vs) <=
      sum_list (map (fun x => S (String.length (stringify x))) vs)) by lia.
    apply sum_list_map_le. eapply Forall_impl; [exact IH|]. simpl. lia.
  - cbn [jsize stringify].
    change (map (fun kv => quote_string kv.1 ++ ":" ++ stringify kv.2) ps)%string with (map member_text ps).
    rewrite !string_app_length.
    cbn [String.length]. pose proof (str_join_length (map member_text ps)) as Hj.
    rewrite List.map_map in Hj. enough (sum_list (map (fun kv => S (S (jsize kv.2))) ps) <=
      sum_list (map (fun kv => S (String.length (member_text kv))) ps)) by lia.
    apply sum_list_map_le. eapply Forall_impl; [exact IH|]. intros [k v] Hv.
    pose proof (member_text_length k v). simpl in *. lia.
Qed.

(** [JSON.parse(JSON.stringify(v))] is [v] for every well-formed value
    (integer numbers, objects without repeated keys). *)
Theorem parse_json_stringify v : wf_jsval v = true -> parse_json (stringify v) = Some v.
Proof.
  intros Hwf. unfold parse_json. rewrite <- (string_app_nil_r (stringify v)) at 2.
  rewrite parse_value_stringify; [reflexivity|done| |reflexivity].
  pose proof (jsize_length v). lia.
Qed.

(** ** Parsed values are well formed *)

Lemma obj_define_wf ps k v :
  wf_jsval (JObj ps) = true -> wf_jsval v = true -> wf_jsval (JObj (obj_define ps k v)) = true.
Proof.
  rewrite !wf_JObj. intros [Hnd Hall] Hv. unfold obj_define. destruct (has_own ps k) eqn:Ho.
  - split.
    + enough ((map (fun kv => if decide (kv.1 = k) then (k, v) else kv) ps).*1 = ps.*1) as -> by done.
      rewrite <- list_fmap_compose. apply list_fmap_ext. intros i [k' v'] _. simpl.
      case_decide; subst; done.
    + apply Forall_fmap. eapply Forall_impl; [exact Hall|]. intros [k' v'] ?. simpl.
      case_decide; done.
  - split.
    + rewrite fmap_app. apply NoDup_app. split; [done|]. split; [|apply NoDup_singleton].
      unfold has_own in Ho. apply bool_decide_eq_false in Ho. set_solver.
    + apply Forall_app. split; [done|]. by constructor.
Qed.

Lemma obj_of_members_wf ms :
  Forall (fun kv => wf_jsval kv.2 = true) ms -> wf_jsval (JObj (obj_of_members ms)) = true.
Proof.
  unfold obj_of_members. assert (H0 : wf_jsval (JObj []) = true) by reflexivity. revert H0.
  generalize (@nil (string * jsval)) as acc. intros acc Hacc Hms. revert acc Hacc.
  induction Hms as [|[k v] ms Hv _ IH]; intros acc Hacc; [done|].
  cbn [foldl]. apply IH. by apply obj_define_wf.
Qed.

Lemma parse_number_wf s v r : parse_number s = Some (v, r) -> wf_jsval v = true.
Proof.
  unfold parse_number, parse_uint, end_number.
  intros H. repeat case_match; simplify_eq; reflexivity.
Qed.

(** Every value [parse_value] returns is well formed: its objects have
    distinct keys. *)
Lemma parse_wf fuel :
  (forall s v r, parse_value fuel s = Some (v, r) -> wf_jsval v = true) /\
  (forall s vs r, parse_elems fuel s = Some (vs, r) -> Forall (fun v => wf_jsval v = true) vs) /\
  (forall s ms r, parse_members fuel s = Some (ms, r) -> Forall (fun kv => wf_jsval kv.2 = true) ms).
Proof.
  induction fuel as [|f (IHv & IHe & IHm)]; [split_and!; discriminate|]. split_and!.
  - intros s v r H. cbn [parse_value] in H. repeat case_match; simplify_eq;
      first [reflexivity | apply wf_JArr; by eapply IHe | apply obj_of_members_wf; by eapply IHm
            | by eapply parse_number_wf].
  - intros s vs r H. cbn [parse_elems] in H. repeat case_match; simplify_eq;
      (constructor; [by eapply IHv|]); first [constructor | by eapply IHe].
  - intros s ms r H. cbn [parse_members] in H. repeat case_match; simplify_eq;
      (constructor; [by eapply IHv|]); first [constructor | by eapply IHm].
Qed.

Theorem parse_json_wf s v : parse_json s = Some v -> wf_jsval v = true.
Proof.
  unfold parse_json. intros H. repeat case_match; simplify_eq. by eapply parse_wf.
Qed.

(** ** Fuel: [length s + 1] decides every text

    Every successful call consumes a character, and a call that consumes
    [k] characters needs at most [k] units of fuel; so with [length s + 1]
    the parser returns what it returns with any larger fuel. *)

Lemma skip_ws_length s : String.length (skip_ws s) <= String.length s.
Proof. induction s as [|c s IH]; simpl; [lia|]. destruct (is_ws c); simpl; lia. Qed.

Lemma strip_prefix_length w s r : strip_prefix w s = Some r -> String.length r <= String.length s.
Proof.
  revert s. induction w as [|a w IH]; intros [|b s] H; simpl in H.
  - injection H as <-. lia.
  - injection H as <-. simpl. lia.
  - discriminate.
  - destruct (bool_decide (a = b)); [apply IH in H; simpl; lia | discriminate].
Qed.

Lemma eat_length c s r : eat c s = Some r -> S (String.length r) = String.length s.
Proof. destruct s as [|c' s]; simpl; [discriminate|]. case_bool_decide; [intros [= <-]; done | discriminate]. Qed.

Lemma cons_char_Some c o t r : cons_char c o = Some (t, r) -> exists t', o = Some (t', r).
Proof. destruct o as [[t' r']|]; simpl; [intros [= _ <-]; eauto | discriminate]. Qed.

Lemma parse_chars_length s t r : parse_chars s = Some (t, r) -> String.length r < String.length s.
Proof.
  remember (String.length s) as n eqn:En. revert s t r En.
  induction n as [n IH] using lt_wf_ind. intros [|c s1] t r -> H; simpl in H; [discriminate|].
  destruct (bool_decide (c = quote_c)); [injection H as _ <-; simpl; lia|].
  destruct (bool_decide (c = bslash_c)).
  - destruct s1 as [|e s2]; [discriminate|]. destruct (bool_decide (e = "u"%char)).
    + destruct s2 as [|h1 [|h2 [|h3 [|h4 s3]]]]; try discriminate.
      destruct (hex4 h1 h2 h3 h4) as [k|]; [|discriminate]. destruct (k <? 256)%nat; [|discriminate].
      apply cons_char_Some in H as [t' H]. apply (IH (String.length s3)) in H; [simpl; lia|simpl; lia|done].
    + destruct (simple_escape e); [|discriminate].
      apply cons_char_Some in H as [t' H]. apply (IH (String.length s2)) in H; [simpl; lia|simpl; lia|done].
  - destruct (nat_of_ascii c <? 32)%nat; [discriminate|].
    apply cons_char_Some in H as [t' H]. apply (IH (String.length s1)) in H; [simpl; lia|simpl; lia|done].
Qed.

Lemma digits_acc_length acc s n r : digits_acc acc s = (n, r) -> String.length r <= String.length s.
Proof.
  revert acc. induction s as [|c s IH]; intros acc H; simpl in H.
  - injection H as _ <-. done.
  - destruct (is_digit c); [apply IH in H; simpl; lia | injection H as _ <-; done].
Qed.

Lemma end_number_rest neg n s v r : end_number neg n s = Some (v, r) -> r = s.
Proof. unfold end_number. intros H. repeat case_match; simplify_eq; done. Qed.

Lemma parse_uint_length neg s v r : parse_uint neg s = Some (v, r) -> String.length r < String.length s.
Proof.
  destruct s as [|c s]; simpl; [discriminate|].
  destruct (bool_decide (c = "0"%char)); [intros ->%end_number_rest; lia|].
  destruct (is_digit c); [|discriminate].
  destruct (digits_acc (digit_val c) s) as [n r'] eqn:E. intros ->%end_number_rest.
  apply digits_acc_length in E. lia.
Qed.

Lemma parse_number_length s v r : parse_number s = Some (v, r) -> String.length r < String.length s.
Proof.
  unfold parse_number. destruct s as [|c s]; [discriminate|]. destruct (bool_decide (c = "-"%char)).
  - intros ?%parse_uint_length. simpl. lia.
  - apply parse_uint_length.
Qed.

(** [F] decides [s] alike with any fuel at least the characters it consumes. *)
Definition fuel_adequate {A} (F : nat -> string -> option (A * string)) (n : nat) : Prop :=
  forall s x r, F n s = Some (x, r) ->
    String.length r < String.length s /\
    forall m, String.length s - String.length r <= m -> F m s = Some (x, r).

Lemma fuel_adequate_S {A} (F : nat -> string -> option (A * string)) f :
  (forall s x r m, F (S f) s = Some (x, r) ->
     String.length r < String.length s /\
     (String.length s - String.length r <= S m -> F (S m) s = Some (x, r))) ->
  fuel_adequate F (S f).
Proof.
  intros K s x r H. destruct (K s x r 0 H) as [Hlt _]. split; [done|].
  intros [|m] Hm; [lia|]. by apply (K s x r m H).
Qed.

(** Split the hypothesis [H] on its matches, then close a leaf: the
    recursive calls by the induction hypotheses, the lengths by the
    lemmas above. *)
Local Ltac fuel_split H :=
  repeat match type of H with context [match ?x with _ => _ end] => destruct x eqn:? end.

Local Ltac add_fact P pf :=
  lazymatch goal with
  | _ : P |- _ => fail
  | _ => let L := fresh "L" in assert (L : P) by (exact pf)
  end.

Local Ltac fuel_leaf :=
  repeat match goal with
  | E : ?F ?f ?t = Some _, IH : fuel_adequate ?F ?f |- _ =>
      let L := fresh "L" in destruct (IH _ _ _ E) as [L ?]; clear E
  | E : eat _ ?t = Some ?u |- _ => add_fact (S (String.length u) = String.length t) (eat_length _ _ _ E)
  | E : strip_prefix _ ?t = Some ?u |- _ =>
      add_fact (String.length u <= String.length t) (strip_prefix_length _ _ _ E)
  | E : parse_chars ?t = Some (_, ?u) |- _ =>
      add_fact (String.length u < String.length t) (parse_chars_length _ _ _ E)
  | E : parse_number ?t = Some (_, ?u) |- _ =>
      add_fact (String.length u < String.length t) (parse_number_length _ _ _ E)
  | E : skip_ws ?t = ?u |- _ =>
      add_fact (String.length u <= String.length t) (eq_rect _ (fun w => String.length w <= String.length t) (skip_ws_length t) _ E)
  | |- context [skip_ws ?t] => add_fact (String.length (skip_ws t) <= String.length t) (skip_ws_length t)
  | _ : context [skip_ws ?t] |- _ => add_fact (String.length (skip_ws t) <= String.length t) (skip_ws_length t)
  end;
  cbn [String.length] in *; split; [lia|]; intros ?;
  repeat match goal with
  | Hr : forall m, _ -> ?F m ?t = Some _ |- context [?F _ ?t] => rewrite Hr by lia; clear Hr
  | E : ?x = _ |- context [?x] => progress rewrite E
  end; first [reflexivity | assumption].

Lemma parse_value_adequate f :
  fuel_adequate parse_elems f -> fuel_adequate parse_members f -> fuel_adequate parse_value (S f).
Proof.
  intros IHe IHm. apply fuel_adequate_S. intros s v r m H. cbn [parse_value] in H |- *.
  fuel_split H; simplify_eq; fuel_leaf.
Qed.

Lemma parse_elems_adequate f :
  fuel_adequate parse_value f -> fuel_adequate parse_elems f -> fuel_adequate parse_elems (S f).
Proof.
  intros IHv IHe. apply fuel_adequate_S. intros s vs r m H. cbn [parse_elems] in H |- *.
  fuel_split H; simplify_eq; fuel_leaf.
Qed.

Lemma parse_members_adequate f :
  fuel_adequate parse_value f -> fuel_adequate parse_members f -> fuel_adequate parse_members (S f).
Proof.
  intros IHv IHm. apply fuel_adequate_S. intros s ms r m H. cbn [parse_members] in H |- *.
  fuel_split H; simplify_eq; fuel_leaf.
Qed.

Lemma parse_adequate n :
  fuel_adequate parse_value n /\ fuel_adequate parse_elems n /\ fuel_adequate parse_members n.
Proof.
  induction n as [|f (IHv & IHe & IHm)]; [split_and!; intros ???; discriminate|].
  split_and!; auto using parse_value_adequate, parse_elems_adequate, parse_members_adequate.
Qed.

(** The fuel [length s + 1] of [parse_json] is enough for every text:
    [parse_json s] accepts [v] exactly when [parse_value] with some fuel
    reads [v] followed by only whitespace. *)
Lemma parse_json_fuel s v :
  parse_json s = Some v <-> exists n r, parse_value n s = Some (v, r) /\ skip_ws r = EmptyString.
Proof.
  unfold parse_json. split.
  - intros H. destruct (parse_value _ s) as [[v' r]|] eqn:E; [|discriminate].
    destruct (skip_ws r) eqn:Er; [|discriminate]. injection H as <-. eauto.
  - intros (n & r & E & Er). destruct (proj1 (parse_adequate n) s v r E) as [Hlt Hm].
    rewrite Hm by lia. by rewrite Er.
Qed.

#[export] Instance json_text_codec : JsonCodec :=
  {| json_parse := parse_json; json_stringify := stringify |}.

(** The text codec satisfies the interface's laws. *)
#[export] Instance json_text_laws : JsonCodecLaws.
Proof. split; [reflexivity | exact parse_json_wf | exact parse_json_stringify]. Qed.

Example parse_array_text : parse_json " [1, -20 ,true,null] " =
  Some (JArr [JNum 1; JNum (-20); JBool true; JNull]).
Proof. reflexivity. Qed.

Example parse_leading_zero : parse_json "01" = None.
Proof. reflexivity. Qed.

Example parse_roundtrip_obj :
  let v := JObj [("a"%string, JNum 1); ("b"%string, JArr [JStr "x y"; JNull; JObj []])] in
  parse_json (stringify v) = Some v.
Proof. reflexivity. Qed.

Example parse_duplicate_key :
  parse_json ("{" ++ quote_string "a" ++ ":1," ++ quote_string "b" ++ ":2,"
                  ++ quote_string "a" ++ ":3}")%string = Some (JObj [("a"%string, JNum 3); ("b"%string, JNum 2)]).
Proof. reflexivity. Qed.
