(* ===== verification/Host.v ===== *)
(** * The n8n host as the node sees it

    The node runs inside n8n and reaches the outside world only through
    the host: [this.helpers.requestWithAuthentication] sends an HTTP
    request after the credential type has added its authentication, and
    errors are the host's [NodeOperationError] and [NodeApiError].  This
    file holds the request options ([IRequestOptions]), the credential
    type of [src/credentials/GotoHumanApi.credentials.ts] (an API key sent
    as the [x-api-key] header, checked by a GET of [/authCheck]), the
    errors the node throws with their messages, and the record of host
    services ([host]) the execution model is parameterised by. *)

From stdpp Require Import base list strings decidable sets.
From Stdlib Require Import ZArith String Ascii Lia.
From S2P Require Import Prelude Json.

Local Open Scope string_scope.

(** ** Request options *)

Record request := mk_request {
  req_method : string;
  req_uri : string;
  req_qs : jsobj;
  req_body : option jsval;
  req_json : bool;
  req_headers : list (string * string)
}.

Definition BASE_URL : string := "https://api.gotohuman.com".

(** ** The credential type [gotoHumanApi] *)

Record credentials := mk_credentials { apiKey : string }.

Definition credential_name : string := "gotoHumanApi".

(** [headers[k] = v] on the request's header object. *)
Fixpoint set_header (k v : string) (hs : list (string * string)) : list (string * string) :=
  match hs with
  | [] => [(k, v)]
  | (k', v') :: hs' => if decide (k = k') then (k, v) :: hs' else (k', v') :: set_header k v hs'
  end.

(** [authenticate]: the generic authentication adds the header
    [x-api-key: $credentials.apiKey] to every request. *)
Definition authenticate (c : credentials) (r : request) : request :=
  {| req_method := req_method r; req_uri := req_uri r; req_qs := req_qs r;
     req_body := req_body r; req_json := req_json r;
     req_headers := set_header "x-api-key" (apiKey c) (req_headers r) |}.

(** [test]: the request n8n sends to test a credential. *)
Definition credential_test_request : request :=
  {| req_method := "GET"; req_uri := BASE_URL ++ "/authCheck"; req_qs := [];
     req_body := None; req_json := false; req_headers := [] |}.

Fixpoint header (k : string) (hs : list (string * string)) : option string :=
  match hs with
  | [] => None
  | (k', v) :: hs' => if decide (k = k') then Some v else header k hs'
  end.

(** ** Errors *)

Inductive node_error :=
| OperationNotSupported (operation : string)
(** [NodeOperationError 'Not a valid JSON object'] on the metadata JSON. *)
| MetaParseError (text : string)
(** [NodeOperationError "Could not parse field '<id>' as JSON: <val>"]. *)
| FieldParseError (id : string) (text : string)
(** [NodeApiError] with its [httpCode] and [message]. *)
| ApiError (httpCode : string) (message : jsval)
(** An error thrown by the host's request helper (network, HTTP). *)
| HostError (message : string)
(** A [NodeOperationError] of the load-options methods. *)
| ConfigError (message : string)
(** The host's error of [getNodeParameter] for a parameter the node has
    no value of (not declared, or hidden by its display options). *)
| MissingParameter (name : string).

Definition error_message (e : node_error) : string :=
  match e with
  | OperationNotSupported op => "The operation " ++ op ++ " is not supported!"
  | MetaParseError _ => "Not a valid JSON object"
  | FieldParseError id val => "Could not parse field '" ++ id ++ "' as JSON: " ++ val
  | ApiError _ m => js_to_string m
  | HostError m => m
  | ConfigError m => m
  | MissingParameter _ => "Could not get parameter"
  end.

(** ** Host services *)

(** What one invocation of the node gets from the host: whether
    "continue on fail" is set, the clock ([Date.now()], in milliseconds),
    the stored credential, and the network: the response to the
    authenticated request sent while the node processes item [n], or the
    error the helper throws. *)
Record host := mk_host {
  continueOnFail : bool;
  now : Z;
  creds : credentials;
  network : nat -> request -> result node_error jsval
}.

(** [this.helpers.requestWithAuthentication.call(this, 'gotoHumanApi', options)]. *)
Definition requestWithAuthentication (h : host) (n : nat) (opts : request) :
    result node_error jsval :=
  network h n (authenticate (creds h) opts).

(** ** Lemmas *)

Lemma header_set_header_eq k v hs : header k (set_header k v hs) = Some v.
Proof.
  induction hs as [|[k' v'] hs IH]; simpl; repeat case_decide; simpl;
    repeat case_decide; congruence.
Qed.

Lemma header_set_header_ne k k' v hs : k' <> k -> header k' (set_header k v hs) = header k' hs.
Proof.
  intros Hne. induction hs as [|[k1 v1] hs IH]; simpl; repeat case_decide; simpl;
    repeat case_decide; subst; congruence.
Qed.

(** Every authenticated request carries the API key. *)
Lemma authenticate_api_key c r : header "x-api-key" (req_headers (authenticate c r)) = Some (apiKey c).
Proof. apply header_set_header_eq. Qed.

Lemma authenticate_keeps_request c r :
  req_method (authenticate c r) = req_method r /\ req_uri (authenticate c r) = req_uri r /\
  req_qs (authenticate c r) = req_qs r /\ req_body (authenticate c r) = req_body r.
Proof. done. Qed.

#[export] Hint Resolve authenticate_api_key : gth.
