(* ===== verification/FieldMapper.v ===== *)
(** * Field Mapper: the review template's fields, made ready to send

    [execute] of [src/nodes/GotoHuman/GotoHuman.node.ts] (lines 435-449)
    copies the resource mapper's value object and, for every field of the
    schema whose type is ["array"] or ["object"] and whose value is a
    string, replaces the value by [jsonParse] of the string, throwing
    "Could not parse field ..." on the first one that does not parse.
    The module [FieldMapper] models the resource-mapper value
    ([ResourceMapperValue]: a value object or [null], and the schema of
    [ResourceMapperField]s), the loop ([parse_schema]) and the whole step
    ([prepare_fields]), parameterised by the JSON codec. *)

From stdpp Require Import base list strings decidable sets.
From Stdlib Require Import ZArith String Ascii Lia.
From S2P Require Import Prelude Json JsonText Host.

Local Open Scope string_scope.

Module FieldMapper.

(** [ResourceMapperField]: its [id] and its optional [type]. *)
Record field_spec := mk_field_spec {
  fs_id : string;
  fs_type : option string
}.

(** [ResourceMapperValue]: [value] ([null] is [None]) and [schema]. *)
Record mapper_value := mk_mapper_value {
  rm_value : option jsobj;
  rm_schema : option (list field_spec)
}.

(** [field.type === 'array' || field.type === 'object']. *)
Definition is_structured (t : option string) : bool :=
  bool_decide (t = Some "array" \/ t = Some "object").

Section WithCodec.
Context `{JsonCodec}.

(** [for (const field of schemaList) { const val = fieldsParam.value[field.id];
    if (structured && typeof val === 'string') parsedFields[field.id] = jsonParse(val) }]. *)
Fixpoint parse_schema (value : jsobj) (schema : list field_spec) (parsed : jsobj) :
    result node_error jsobj :=
  match schema with
  | [] => Ok parsed
  | f :: rest =>
      match js_get value (fs_id f) with
      | Some (JStr val) =>
          if is_structured (fs_type f) then
            match json_parse val with
            | Some v => parse_schema value rest (js_set parsed (fs_id f) v)
            | None => Err (FieldParseError (fs_id f) val)
            end
          else parse_schema value rest parsed
      | _ => parse_schema value rest parsed
      end
  end.

(** [let parsedFields = { ...(fieldsParam.value || {}) };
    if (fieldsParam.value && schemaList) ...]. *)
Definition prepare_fields (fp : mapper_value) : result node_error jsobj :=
  let parsed := default [] (rm_value fp) in
  match rm_value fp, rm_schema fp with
  | Some value, Some schema => parse_schema value schema parsed
  | _, _ => Ok parsed
  end.

(** The value a field takes when the step succeeds: its parse when a
    structured field of the schema holds a string, else the value as is. *)
Definition mapped_value (value : jsobj) (schema : list field_spec) (k : string) : option jsval :=
  match js_get value k with
  | Some (JStr val) =>
      if existsb (fun f => bool_decide (fs_id f = k) && is_structured (fs_type f)) schema
      then json_parse val else Some (JStr val)
  | o => o
  end.

(** ** Lemmas on the loop *)

(** The loop only assigns keys the value object already has. *)
Lemma parse_schema_keys value schema parsed out :
  value.*1 = parsed.*1 -> parse_schema value schema parsed = Ok out -> out.*1 = value.*1.
Proof.
  revert parsed. induction schema as [|f rest IH]; intros parsed Hk; simpl.
  - congruence.
  - destruct (js_get value (fs_id f)) as [[|b|n|val|vs|ps]|] eqn:Hv; eauto.
    destruct (is_structured (fs_type f)); eauto.
    destruct (json_parse val) as [v|]; [|discriminate].
    apply IH. rewrite js_set_keys.
    assert (has_own parsed (fs_id f) = true) as ->; [|done].
    unfold has_own. rewrite <- Hk. apply has_own_js_get. eauto.
Qed.

(** One step of the loop that ends in an error: the error is the head
    field's, or the rest's from some accumulator. *)
Lemma parse_schema_cons_err value f rest parsed e :
  parse_schema value (f :: rest) parsed = Err e ->
  (exists p, parse_schema value rest p = Err e) \/
  (exists val, js_get value (fs_id f) = Some (JStr val) /\ is_structured (fs_type f) = true /\
               json_parse val = None /\ e = FieldParseError (fs_id f) val).
Proof.
  simpl. destruct (js_get value (fs_id f)) as [[|b|n|val|vs|ps]|]; eauto.
  destruct (is_structured (fs_type f)) eqn:Hs; eauto.
  destruct (json_parse val) eqn:Hp; eauto.
  intros [= <-]. right. eauto.
Qed.

(** An error names a structured field of the schema whose string does not
    parse. *)
Lemma parse_schema_err value schema parsed e :
  parse_schema value schema parsed = Err e ->
  exists f txt, f ∈ schema /\ is_structured (fs_type f) = true /\
    js_get value (fs_id f) = Some (JStr txt) /\ json_parse txt = None /\
    e = FieldParseError (fs_id f) txt.
Proof.
  revert parsed. induction schema as [|f rest IH]; intros parsed; [discriminate|].
  intros [[p Hr] | (txt & ? & ? & ? & ?)]%parse_schema_cons_err.
  - destruct (IH _ Hr) as (f' & txt & ? & ?). exists f', txt. split; [by right|done].
  - exists f, txt. split; [left|]; done.
Qed.

(** [struct_hit schema k]: a structured field of the schema has id [k]. *)
Definition struct_hit (schema : list field_spec) (k : string) : bool :=
  existsb (fun f => bool_decide (fs_id f = k) && is_structured (fs_type f)) schema.

(** What the loop over [schema] leaves at key [k], from [parsed]. *)
Definition loop_result (value : jsobj) (schema : list field_spec) (parsed : jsobj) (k : string) :
    option jsval :=
  match js_get value k with
  | Some (JStr val) => if struct_hit schema k then json_parse val else js_get parsed k
  | _ => js_get parsed k
  end.

(** A field the loop skips does not change what it leaves. *)
Lemma loop_result_skip value f rest parsed k :
  (forall val, js_get value (fs_id f) = Some (JStr val) -> is_structured (fs_type f) = false) ->
  loop_result value (f :: rest) parsed k = loop_result value rest parsed k.
Proof.
  intros Hskip. unfold loop_result, struct_hit. simpl.
  destruct (js_get value k) as [[|b|n|val|vs|ps]|] eqn:Hk; try done.
  case_bool_decide; simpl; [|done]. subst. by rewrite (Hskip val Hk).
Qed.

(** What a successful loop leaves at each key. *)
Lemma parse_schema_ok value schema parsed out :
  parsed.*1 = value.*1 -> parse_schema value schema parsed = Ok out ->
  forall k, js_get out k = loop_result value schema parsed k.
Proof.
  revert parsed. induction schema as [|f rest IH]; intros parsed Hk Hr k; simpl in Hr.
  - inv_res. unfold loop_result. by destruct (js_get value k) as [[]|].
  - destruct (js_get value (fs_id f)) as [[|b|n|val|vs|ps]|] eqn:Hv;
      try (rewrite loop_result_skip by congruence; by apply IH).
    destruct (is_structured (fs_type f)) eqn:Hs;
      [|rewrite loop_result_skip by congruence; by apply IH].
    destruct (json_parse val) as [v|] eqn:Hp; [|discriminate].
    assert (Hown : has_own parsed (fs_id f) = true).
    { unfold has_own. rewrite Hk. apply has_own_js_get. eauto. }
    rewrite (IH _ ltac:(rewrite js_set_keys, Hown; done) Hr).
    unfold loop_result, struct_hit. simpl.
    destruct (decide (k = fs_id f)) as [->|Hne].
    + rewrite Hv, bool_decide_eq_true_2, Hs by done. simpl.
      destruct (existsb _ rest); [done|]. rewrite Hp. apply js_set_get_eq. auto.
    + rewrite js_set_get_ne by done. rewrite (bool_decide_eq_false_2 (fs_id f = k)) by congruence.
      done.
Qed.

(** A failing field anywhere in the schema makes the loop fail. *)
Lemma parse_schema_fails value schema parsed f txt :
  f ∈ schema -> is_structured (fs_type f) = true ->
  js_get value (fs_id f) = Some (JStr txt) -> json_parse txt = None ->
  is_ok (parse_schema value schema parsed) = false.
Proof.
  intros Hin Hs Hv Hp. revert parsed. induction schema as [|g rest IH]; intros parsed;
    [set_solver|].
  apply elem_of_cons in Hin as [->|Hin]; simpl.
  - by rewrite Hv, Hs, Hp.
  - destruct (js_get value (fs_id g)) as [[|b|n|val|vs|ps]|]; auto.
    destruct (is_structured (fs_type g)); auto.
    destruct (json_parse val); auto.
Qed.

(** ** Properties *)

(** C11: when the step succeeds, the fields sent have exactly the
    keys of the mapped value object, and each key holds the parse of its
    text when a structured ("array"/"object") field of the schema has that
    id and the value is a string, and the value unchanged otherwise. *)
Theorem prepare_fields_ok fp value schema out :
  rm_value fp = Some value -> rm_schema fp = Some schema -> prepare_fields fp = Ok out ->
  out.*1 = value.*1 /\ forall k, js_get out k = mapped_value value schema k.
Proof.
  unfold prepare_fields. intros -> -> Hr. simpl in Hr. split.
  - exact (parse_schema_keys _ _ _ _ eq_refl Hr).
  - intros k. rewrite (parse_schema_ok _ _ _ _ eq_refl Hr k).
    unfold loop_result, mapped_value, struct_hit.
    by destruct (js_get value k) as [[]|].
Qed.

(** C12: the step fails exactly when a structured field of the schema
    holds a string that is not valid JSON. *)
Theorem prepare_fields_fails_iff fp value schema :
  rm_value fp = Some value -> rm_schema fp = Some schema ->
  is_ok (prepare_fields fp) = false <->
  exists f txt, f ∈ schema /\ is_structured (fs_type f) = true /\
    js_get value (fs_id f) = Some (JStr txt) /\ json_parse txt = None.
Proof.
  unfold prepare_fields. intros -> ->. simpl. split.
  - destruct (parse_schema value schema value) eqn:E; [discriminate|intros _].
    destruct (parse_schema_err _ _ _ _ E) as (f & txt & ? & ? & ? & ? & _). eauto 10.
  - intros (f & txt & ? & ? & ? & ?). eapply parse_schema_fails; eauto.
Qed.

(** C13: the error thrown names the offending field and its text:
    "Could not parse field '<id>' as JSON: <text>". *)
Theorem prepare_fields_error_names_field fp e :
  prepare_fields fp = Err e ->
  exists value schema f txt,
    rm_value fp = Some value /\ rm_schema fp = Some schema /\ f ∈ schema /\
    js_get value (fs_id f) = Some (JStr txt) /\ json_parse txt = None /\
    e = FieldParseError (fs_id f) txt /\
    error_message e = ("Could not parse field '" ++ fs_id f ++ "' as JSON: " ++ txt)%string.
Proof.
  unfold prepare_fields.
  destruct (rm_value fp) as [value|], (rm_schema fp) as [schema|]; try discriminate.
  intros E. destruct (parse_schema_err _ _ _ _ E) as (f & txt & ? & ? & ? & ? & ->).
  exists value, schema, f, txt. done.
Qed.

(** C14: the parsed value is not checked against the field's
    type: a field declared ["array"] whose text parses to a string, a
    number or [null] is sent as that value. *)
Theorem prepare_fields_no_type_check id txt v :
  json_parse txt = Some v ->
  prepare_fields (mk_mapper_value (Some [(id, JStr txt)]) (Some [mk_field_spec id (Some "array")]))
  = Ok [(id, v)].
Proof.
  intros Hp. unfold prepare_fields. simpl. rewrite decide_True by done. simpl.
  rewrite Hp. simpl. unfold js_set, has_own.
  rewrite bool_decide_eq_true_2 by set_solver. simpl. by rewrite decide_True.
Qed.

End WithCodec.

(** ** Witnesses, with the JSON text codec of [JsonText] *)

Lemma prepare_fields_ok_witness :
  let value := [("tags", JStr "[1,2]"); ("title", JStr "Q3"); ("extra", JNum 7)] in
  let schema := [mk_field_spec "tags" (Some "array"); mk_field_spec "title" (Some "string")] in
  let out := [("tags", JArr [JNum 1; JNum 2]); ("title", JStr "Q3"); ("extra", JNum 7)] in
  prepare_fields (mk_mapper_value (Some value) (Some schema)) = Ok out /\
  out.*1 = value.*1 /\ forall k, js_get out k = mapped_value value schema k.
Proof.
  intros value schema out. split; [vm_compute; reflexivity|].
  apply (prepare_fields_ok (mk_mapper_value (Some value) (Some schema)));
    [reflexivity | reflexivity | vm_compute; reflexivity].
Defined.

Lemma prepare_fields_fails_iff_witness :
  is_ok (prepare_fields (mk_mapper_value (Some [("tags", JStr "[1,")])
                                         (Some [mk_field_spec "tags" (Some "object")]))) = false.
Proof.
  apply (proj2 (prepare_fields_fails_iff (mk_mapper_value (Some [("tags", JStr "[1,")])
                                         (Some [mk_field_spec "tags" (Some "object")]))
                  [("tags", JStr "[1,")] [mk_field_spec "tags" (Some "object")] eq_refl eq_refl)).
  exists (mk_field_spec "tags" (Some "object")), "[1,". split; [left|]. vm_compute. auto.
Defined.

Definition demo_bad : mapper_value :=
  mk_mapper_value (Some [("tags", JStr "[1,")]) (Some [mk_field_spec "tags" (Some "object")]).

Lemma prepare_fields_error_names_field_witness :
  exists value schema f txt,
    rm_value demo_bad = Some value /\ rm_schema demo_bad = Some schema /\ f ∈ schema /\
    js_get value (fs_id f) = Some (JStr txt) /\ json_parse txt = None /\
    FieldParseError "tags" "[1," = FieldParseError (fs_id f) txt /\
    error_message (FieldParseError "tags" "[1,") =
      ("Could not parse field '" ++ fs_id f ++ "' as JSON: " ++ txt)%string.
Proof. apply prepare_fields_error_names_field. vm_compute. reflexivity. Defined.

Lemma prepare_fields_no_type_check_witness :
  prepare_fields (mk_mapper_value (Some [("tags", JStr (quote_string "abc"))])
                                  (Some [mk_field_spec "tags" (Some "array")]))
  = Ok [("tags", JStr "abc")].
Proof. apply prepare_fields_no_type_check. vm_compute. reflexivity. Defined.

End FieldMapper.
