(* ===== verification/RequestBuilder.v ===== *)
(** * Request Builder: the review request's body

    [execute] (lines 401-464 of [src/nodes/GotoHuman/GotoHuman.node.ts])
    reads the item's parameters, resolves the metadata (none, JSON text,
    or key/value pairs folded into an object), the assignees (all users,
    or the listed e-mails), the fields (through the Field Mapper), the
    optional "update for review id", and the webhook URL
    [<resumeUrl>/<nodeId>], and assembles the body it posts.  The module
    [RequestBuilder] models the parameters of one item ([item_params]),
    each resolution step, the body as a record ([review_request]) built by
    [build_request], and the JSON object it is sent as ([body_json]). *)

From stdpp Require Import base list strings decidable sets.
From Stdlib Require Import ZArith String Ascii Lia.
From S2P Require Import Prelude Json JsonText Host FieldMapper.

Local Open Scope string_scope.

Module RequestBuilder.
Import FieldMapper.

(** [const VERSION = 1]. *)
Definition VERSION : Z := 1.

(** One entry [{key, value}] of [metaKeyValues.metaArray]: the key as the
    property key [meta[pair.key]] uses ([String(key)]), the value as it
    is. *)
Record meta_pair := mk_meta_pair { mp_key : string; mp_value : jsval }.

(** The parameters [getNodeParameter(..., i)] gives for item [i], and the
    two expressions [$execution?.resumeUrl] and [$nodeId].  A fixed
    collection is [None] when its array ([metaArray], [values]) is absent;
    [p_assignTo] holds the [email] values of [assignTo.values]. *)
Record item_params := mk_item_params {
  p_resource : string;
  p_operation : string;
  p_reviewTemplateID : jsval;
  p_fields : mapper_value;
  p_metaSelect : string;
  p_metaJson : string;
  p_metaKeyValues : option (list meta_pair);
  p_assignToSelect : string;
  p_assignTo : option (list jsval);
  p_additionalFields : jsval;
  p_resumeUrl : string;
  p_nodeId : string
}.

(** The body: [formId] is [undefined] ([None]) when the resource locator
    has no [value]; the optional members are [None] when not assigned. *)
Record review_request := mk_review_request {
  rr_formId : option jsval;
  rr_fields : jsobj;
  rr_meta : option jsval;
  rr_assignTo : option (list jsval);
  rr_updateForReviewId : option jsval;
  rr_webhookUrl : string
}.

(** [meta = {}; for (const pair of metaArray) meta[pair.key] = pair.value;]. *)
Definition meta_of_pairs (pairs : list meta_pair) : jsobj :=
  foldl (fun m p => js_set m (mp_key p) (mp_value p)) [] pairs.

(** [if (assignToSelect === 'selectByEmail') { if (Array.isArray(values))
    assignTo = values.map(v => v.email) }]. *)
Definition resolve_assign (assignToSelect : string) (assignTo : option (list jsval)) :
    option (list jsval) :=
  if decide (assignToSelect = "selectByEmail") then assignTo else None.

(** [additionalFields && additionalFields.updateForReviewId]. *)
Definition update_for_review_id (additionalFields : jsval) : option jsval :=
  if truthy additionalFields then
    match prop additionalFields "updateForReviewId" with
    | Some v => if truthy v then Some v else None
    | None => None
    end
  else None.

(** [body.webhookUrl = `${resumeUrl}/${nodeId}`]. *)
Definition webhook_url (resumeUrl nodeId : string) : string := resumeUrl ++ "/" ++ nodeId.

(** [const body = { formId, fields, origin: 'n8n', originV: VERSION }] and
    the members assigned after it, as [JSON.stringify] sees the object. *)
Definition body_json (r : review_request) : jsval :=
  JObj (match rr_formId r with Some v => [("formId", v)] | None => [] end ++
        [("fields", JObj (rr_fields r)); ("origin", JStr "n8n"); ("originV", JNum VERSION)] ++
        match rr_meta r with Some m => [("meta", m)] | None => [] end ++
        match rr_assignTo r with Some l => [("assignTo", JArr l)] | None => [] end ++
        match rr_updateForReviewId r with Some u => [("updateForReviewId", u)] | None => [] end ++
        [("webhookUrl", JStr (rr_webhookUrl r))])%list.

Section WithCodec.
Context `{JsonCodec}.

(** [let meta = undefined; if (metaSelect === 'json') { if (metaJson) meta =
    jsonParse(metaJson) } else if (metaSelect === 'keyValue') ...]. *)
Definition resolve_meta (metaSelect metaJson : string) (metaKeyValues : option (list meta_pair)) :
    result node_error (option jsval) :=
  if decide (metaSelect = "json") then
    if truthy (JStr metaJson) then
      match json_parse metaJson with
      | Some v => Ok (Some v)
      | None => Err (MetaParseError metaJson)
      end
    else Ok None
  else if decide (metaSelect = "keyValue") then
    match metaKeyValues with
    | Some pairs => Ok (Some (JObj (meta_of_pairs pairs)))
    | None => Ok None
    end
  else Ok None.

(** Lines 404-464, in the code's order: metadata, assignees, fields,
    update id, webhook URL. *)
Definition build_request (it : item_params) : result node_error review_request :=
  let? meta := resolve_meta (p_metaSelect it) (p_metaJson it) (p_metaKeyValues it) in
  let assignTo := resolve_assign (p_assignToSelect it) (p_assignTo it) in
  let? fields := prepare_fields (p_fields it) in
  Ok {| rr_formId := prop (p_reviewTemplateID it) "value";
        rr_fields := fields;
        rr_meta := meta;
        rr_assignTo := assignTo;
        rr_updateForReviewId := update_for_review_id (p_additionalFields it);
        rr_webhookUrl := webhook_url (p_resumeUrl it) (p_nodeId it) |}.

(** ** Key/value metadata *)

(** The value of the last pair with key [k]. *)
Fixpoint last_value (pairs : list meta_pair) (k : string) : option jsval :=
  match pairs with
  | [] => None
  | p :: rest =>
      match last_value rest k with
      | Some v => Some v
      | None => if decide (mp_key p = k) then Some (mp_value p) else None
      end
  end.

Lemma fold_pairs_get pairs m k :
  k <> "__proto__" ->
  js_get (foldl (fun m p => js_set m (mp_key p) (mp_value p)) m pairs) k =
  match last_value pairs k with Some v => Some v | None => js_get m k end.
Proof.
  intros Hk. revert m. induction pairs as [|p rest IH]; intros m; simpl; [done|].
  rewrite IH. destruct (last_value rest k); [done|].
  case_decide as E.
  - subst. apply js_set_get_eq. auto.
  - apply js_set_get_ne. congruence.
Qed.

Lemma fold_pairs_proto pairs m :
  has_own m "__proto__" = false ->
  has_own (foldl (fun m p => js_set m (mp_key p) (mp_value p)) m pairs) "__proto__" = false.
Proof.
  revert m. induction pairs as [|p rest IH]; intros m Hm; simpl; [done|].
  apply IH. unfold has_own in *. rewrite js_set_keys.
  destruct (has_own m (mp_key p)) eqn:Ho; [done|].
  apply bool_decide_eq_false. apply bool_decide_eq_false in Hm.
  destruct (decide (mp_key p = "__proto__")); set_solver.
Qed.

End WithCodec.

(** ** Properties *)

(** C19: key/value metadata holds, at each key, the value of the last
    pair with that key (later duplicates overwrite earlier ones), except
    the key "__proto__", which the assignment [meta[pair.key] = ...]
    silently drops. *)
Theorem meta_of_pairs_last_wins pairs k :
  js_get (meta_of_pairs pairs) k =
  if decide (k = "__proto__") then None else last_value pairs k.
Proof.
  unfold meta_of_pairs. case_decide as Hk.
  - subst. apply js_get_None. pose proof (fold_pairs_proto pairs [] eq_refl) as Hp.
    unfold has_own in Hp. by apply bool_decide_eq_false in Hp.
  - rewrite fold_pairs_get by done. by destruct (last_value pairs k).
Qed.

(** The members of the body object, read back. *)
Lemma body_json_members r :
  let b := body_json r in
  prop b "formId" = rr_formId r /\ prop b "fields" = Some (JObj (rr_fields r)) /\
  prop b "origin" = Some (JStr "n8n") /\ prop b "originV" = Some (JNum VERSION) /\
  prop b "meta" = rr_meta r /\ prop b "assignTo" = JArr <$> rr_assignTo r /\
  prop b "updateForReviewId" = rr_updateForReviewId r /\
  prop b "webhookUrl" = Some (JStr (rr_webhookUrl r)).
Proof.
  destruct r as [[f|] fs [m|] [l|] [u|] url]; repeat split; reflexivity.
Qed.

(** A built request's webhook URL is [<resumeUrl>/<nodeId>]. *)
Lemma build_request_webhook `{JsonCodec} it r :
  build_request it = Ok r -> rr_webhookUrl r = webhook_url (p_resumeUrl it) (p_nodeId it).
Proof. unfold build_request. intros Hb. by inv_res. Qed.

Section MetaProperties.
Context `{JsonCodec}.

(** C17: metadata resolution fails only in JSON mode, on a
    non-empty text that does not parse, with [MetaParseError]. *)
Theorem resolve_meta_error sel txt kv e :
  resolve_meta sel txt kv = Err e ->
  sel = "json" /\ txt <> "" /\ json_parse txt = None /\ e = MetaParseError txt.
Proof.
  unfold resolve_meta. case_decide; [|case_decide; [destruct kv|]; discriminate].
  simpl. destruct (String.eqb_spec txt ""); simpl; [discriminate|].
  destruct (json_parse txt); [discriminate|]. intros [= <-]. done.
Qed.

(** C18: in JSON mode the metadata is whatever JSON value the
    text denotes, object or not: the value [v] written as text comes back
    as [v] (the code does not check that it is an object). *)
Theorem resolve_meta_json `{!JsonCodecLaws} v kv :
  wf_jsval v = true -> resolve_meta "json" (json_stringify v) kv = Ok (Some v).
Proof.
  intros Hwf. unfold resolve_meta. rewrite decide_True by done.
  rewrite json_parse_stringify by done. simpl.
  destruct (String.eqb_spec (json_stringify v) "") as [E|]; [|done].
  pose proof (json_parse_stringify v Hwf) as Hp. rewrite E, json_parse_empty in Hp. discriminate.
Qed.

(** C16: building fails with the metadata error when the
    metadata is invalid, whatever the fields; otherwise with the Field
    Mapper's error. *)
Theorem build_request_error it e :
  build_request it = Err e <->
  resolve_meta (p_metaSelect it) (p_metaJson it) (p_metaKeyValues it) = Err e \/
  (is_ok (resolve_meta (p_metaSelect it) (p_metaJson it) (p_metaKeyValues it)) = true /\
   prepare_fields (p_fields it) = Err e).
Proof.
  unfold build_request.
  destruct (resolve_meta _ _ _) as [m|e']; simpl.
  - destruct (prepare_fields (p_fields it)); simpl; split; intros; try intuition congruence.
  - split; [intros [= ->]; by left | intros [[= ->]|[Hok _]]; [done | discriminate]].
Qed.

(** C15: the body posted carries the mapped fields, the origin
    ["n8n"] with version 1, the template id, the webhook URL
    [<resumeUrl>/<nodeId>], the resolved metadata, [assignTo] exactly when
    "Only Selected Users" lists e-mails, and [updateForReviewId] exactly
    when a truthy id is given. *)
Theorem build_request_body it r :
  build_request it = Ok r ->
  let b := body_json r in
  (exists fields, prepare_fields (p_fields it) = Ok fields /\ prop b "fields" = Some (JObj fields)) /\
  prop b "origin" = Some (JStr "n8n") /\ prop b "originV" = Some (JNum 1) /\
  prop b "formId" = prop (p_reviewTemplateID it) "value" /\
  prop b "webhookUrl" = Some (JStr (p_resumeUrl it ++ "/" ++ p_nodeId it)) /\
  resolve_meta (p_metaSelect it) (p_metaJson it) (p_metaKeyValues it) = Ok (prop b "meta") /\
  prop b "assignTo" = (if decide (p_assignToSelect it = "selectByEmail")
                       then JArr <$> p_assignTo it else None) /\
  prop b "updateForReviewId" = update_for_review_id (p_additionalFields it).
Proof.
  unfold build_request. intros Hb. inv_res.
  destruct (body_json_members (mk_review_request (prop (p_reviewTemplateID it) "value") a0 a
    (resolve_assign (p_assignToSelect it) (p_assignTo it))
    (update_for_review_id (p_additionalFields it)) (webhook_url (p_resumeUrl it) (p_nodeId it))))
    as (-> & -> & -> & -> & -> & -> & -> & ->).
  simpl. unfold resolve_assign. repeat split; eauto.
  by destruct (decide (p_assignToSelect it = "selectByEmail")).
Qed.

End MetaProperties.

(** ** Witnesses, with the JSON text codec of [JsonText] *)

Definition demo_item : item_params := {|
  p_resource := "reviewRequest"; p_operation := "sendAndWait";
  p_reviewTemplateID := JObj [("mode", JStr "list"); ("value", JStr "FjbxGtNfPIuDdRm55eqK")];
  p_fields := mk_mapper_value (Some [("tags", JStr "[1,2]"); ("title", JStr "Q3")])
                (Some [mk_field_spec "tags" (Some "array"); mk_field_spec "title" (Some "string")]);
  p_metaSelect := "keyValue"; p_metaJson := "";
  p_metaKeyValues := Some [mk_meta_pair "a" (JStr "1"); mk_meta_pair "b" (JStr "x"); mk_meta_pair "a" (JStr "2")];
  p_assignToSelect := "selectByEmail"; p_assignTo := Some [JStr "x@y.com"];
  p_additionalFields := JObj [("updateForReviewId", JStr "rev-1")];
  p_resumeUrl := "https://n8n.example/webhook-waiting/42"; p_nodeId := "node-7" |}.

Lemma resolve_meta_error_witness :
  resolve_meta "json" "{a:}" None = Err (MetaParseError "{a:}") /\
  "json" = "json" /\ "{a:}" <> "" /\ json_parse "{a:}" = None /\
  MetaParseError "{a:}" = MetaParseError "{a:}".
Proof.
  split; [vm_compute; reflexivity|]. apply (resolve_meta_error "json" "{a:}" None). vm_compute.
  reflexivity.
Defined.

Lemma build_request_body_witness :
  exists r, build_request demo_item = Ok r /\
  let b := body_json r in
  (exists fields, prepare_fields (p_fields demo_item) = Ok fields /\
                  prop b "fields" = Some (JObj fields)) /\
  prop b "origin" = Some (JStr "n8n") /\ prop b "originV" = Some (JNum 1) /\
  prop b "formId" = prop (p_reviewTemplateID demo_item) "value" /\
  prop b "webhookUrl" = Some (JStr (p_resumeUrl demo_item ++ "/" ++ p_nodeId demo_item)) /\
  resolve_meta (p_metaSelect demo_item) (p_metaJson demo_item) (p_metaKeyValues demo_item) =
    Ok (prop b "meta") /\
  prop b "assignTo" = (if decide (p_assignToSelect demo_item = "selectByEmail")
                       then JArr <$> p_assignTo demo_item else None) /\
  prop b "updateForReviewId" = update_for_review_id (p_additionalFields demo_item).
Proof.
  eexists. split; [vm_compute; reflexivity|]. apply build_request_body. vm_compute. reflexivity.
Defined.

(** An array is accepted as metadata. *)
Lemma resolve_meta_json_witness :
  let v := JArr [JNum 1; JStr "x"] in
  wf_jsval v = true /\ resolve_meta "json" (json_stringify v) None = Ok (Some v).
Proof. intros v. split; [reflexivity|]. apply resolve_meta_json. reflexivity. Defined.

End RequestBuilder.
