(* ===== verification/Submission.v ===== *)
(** * Submission Client: posting the review request and reading the answer

    Lines 465-486 of [src/nodes/GotoHuman/GotoHuman.node.ts]: the body is
    posted to [BASE_URL/requestReview] through the host's authenticated
    request helper; the answer's [statusCode] (200 when absent or falsy)
    is classified by the first character of its text ([String(statusCode)
    .startsWith('4') || ... '5')]), a failure becoming a [NodeApiError]
    whose message is the answer's [body] or, without one, the answer as
    JSON text; a positive number [timeoutInMillis] in the answer replaces
    the wait.  The module [Submission] models the request options, the
    classification ([classify_response]), the timeout read
    ([response_timeout]) and one submission ([submit]). *)

From stdpp Require Import base list strings decidable sets.
From Stdlib Require Import ZArith String Ascii Lia.
From S2P Require Import Prelude Json JsonText Host.

Local Open Scope string_scope.

Module Submission.

(** [{ method: 'POST', uri: `${BASE_URL}/requestReview`, body, json: true }]. *)
Definition review_request_options (body : jsval) : request :=
  {| req_method := "POST"; req_uri := BASE_URL ++ "/requestReview"; req_qs := [];
     req_body := Some body; req_json := true; req_headers := [] |}.

(** [responseData?.statusCode || 200]. *)
Definition status_code (resp : jsval) : jsval := js_or (prop resp "statusCode") (JNum 200).

(** [String(statusCode).startsWith('4') || String(statusCode).startsWith('5')]. *)
Definition is_error_status (code : jsval) : bool :=
  let s := js_to_string code in starts_with_char "4" s || starts_with_char "5" s.

(** [responseData && typeof responseData.timeoutInMillis === 'number' &&
    responseData.timeoutInMillis > 0]: the new wait. *)
Definition response_timeout (resp : jsval) : option Z :=
  if truthy resp then
    match prop resp "timeoutInMillis" with
    | Some (JNum n) => if (0 <? n)%Z then Some n else None
    | _ => None
    end
  else None.

Lemma starts_with_head c s :
  starts_with_char c s = match head_char s with Some d => bool_decide (c = d) | None => false end.
Proof. by destruct s. Qed.

(** [String(n)] of a non-positive integer starts with ["-"] or is ["0"]. *)
Lemma is_error_status_nonpos n : (n <= 0)%Z -> is_error_status (JNum n) = false.
Proof.
  intros Hn. destruct (Z.eq_dec n 0) as [->|Hne]; [reflexivity|].
  unfold is_error_status. cbn [js_to_string]. unfold z_to_dec.
  rewrite (proj2 (Z.ltb_lt n 0)) by lia. reflexivity.
Qed.

(** The leading digit of a positive [n] with [10^k <= n < 10^(k+1)] is
    [4] or [5] exactly when [4 * 10^k <= n < 6 * 10^k]. *)
Lemma lead_4_5 n k :
  (0 <= k)%Z -> (10 ^ k <= n < 10 ^ (k + 1))%Z ->
  (n / 10 ^ k = 4 \/ n / 10 ^ k = 5)%Z <-> (4 * 10 ^ k <= n < 6 * 10 ^ k)%Z.
Proof.
  intros Hk Hb. assert (Hp : (0 < 10 ^ k)%Z) by (apply Z.pow_pos_nonneg; lia).
  rewrite Z.pow_add_r, Z.pow_1_r in Hb by lia.
  pose proof (Z.div_mod n (10 ^ k) ltac:(lia)). pose proof (Z.mod_pos_bound n (10 ^ k) Hp).
  split; [intros [E|E]; rewrite E in *; nia|].
  intros Hr. assert (4 <= n / 10 ^ k < 6)%Z by nia. lia.
Qed.

(** The exponent of the leading digit is unique. *)
Lemma lead_exponent_unique n k k' :
  (0 <= k)%Z -> (0 <= k')%Z -> (10 ^ k <= n < 10 ^ (k + 1))%Z -> (4 * 10 ^ k' <= n < 6 * 10 ^ k')%Z ->
  k' = k.
Proof.
  intros Hk Hk' Hb Hr. destruct (Z.lt_trichotomy k' k) as [Hlt|[->|Hgt]]; [exfalso| |exfalso]; [|done|].
  - assert (10 ^ (k' + 1) <= 10 ^ k)%Z by (apply Z.pow_le_mono_r; lia).
    rewrite Z.pow_add_r, Z.pow_1_r in * by lia. lia.
  - assert (10 ^ (k + 1) <= 10 ^ k')%Z by (apply Z.pow_le_mono_r; lia). lia.
Qed.

Section WithCodec.
Context `{JsonCodec}.

(** [message: responseData.body ? responseData.body : JSON.stringify(responseData)]. *)
Definition api_error_message (resp : jsval) : jsval :=
  match prop resp "body" with
  | Some b => if truthy b then b else JStr (json_stringify resp)
  | None => JStr (json_stringify resp)
  end.

Definition classify_response (resp : jsval) : result node_error jsval :=
  let code := status_code resp in
  if is_error_status code then Err (ApiError (js_to_string code) (api_error_message resp))
  else Ok resp.

(** The [try] block: send, then classify; the [catch] rethrows. *)
Definition submit (h : host) (n : nat) (body : jsval) : result node_error jsval :=
  let? resp := requestWithAuthentication h n (review_request_options body) in
  classify_response resp.

End WithCodec.

(** ** Lemmas *)

Lemma status_code_num resp n :
  prop resp "statusCode" = Some (JNum n) -> n <> 0%Z -> status_code resp = JNum n.
Proof.
  intros E Hn. unfold status_code, js_or. rewrite E. simpl.
  by destruct (Z.eqb_spec n 0).
Qed.

Lemma error_status_4xx_5xx n : (400 <= n < 600)%Z -> is_error_status (JNum n) = true.
Proof.
  apply (zrange_forallb (fun n => is_error_status (JNum n)) 400 200). vm_compute. reflexivity.
Qed.

Lemma error_status_1xx_3xx n : (100 <= n < 400)%Z -> is_error_status (JNum n) = false.
Proof.
  intros Hn. apply negb_true_iff.
  apply (zrange_forallb (fun n => negb (is_error_status (JNum n))) 100 300); [|lia].
  vm_compute. reflexivity.
Qed.

(** ** Properties *)

Section Properties.
Context `{JsonCodec}.

(** C8: an answer whose [statusCode] is a number from 400 to 599 is
    a failure: an [ApiError] with that code as text and, as message, the
    answer's [body] or the answer as JSON text. *)
Theorem classify_4xx_5xx resp n :
  prop resp "statusCode" = Some (JNum n) -> (400 <= n < 600)%Z ->
  classify_response resp = Err (ApiError (z_to_dec n) (api_error_message resp)).
Proof.
  intros E Hn. unfold classify_response. rewrite (status_code_num resp n E) by lia.
  by rewrite error_status_4xx_5xx.
Qed.

(** C9: an answer whose [statusCode] is a number from 100 to 399 is
    a success, returned as it is. *)
Theorem classify_1xx_3xx resp n :
  prop resp "statusCode" = Some (JNum n) -> (100 <= n < 400)%Z -> classify_response resp = Ok resp.
Proof.
  intros E Hn. unfold classify_response. rewrite (status_code_num resp n E) by lia.
  by rewrite error_status_1xx_3xx.
Qed.

(** C10: an answer without a truthy [statusCode] (absent, [null],
    [0], [""], [false]) counts as 200, a success. *)
Theorem classify_no_status resp :
  otruthy (prop resp "statusCode") = false -> classify_response resp = Ok resp.
Proof.
  intros Hf. unfold classify_response, status_code, js_or.
  destruct (prop resp "statusCode") as [v|]; simpl in *; [by rewrite Hf|done].
Qed.

End Properties.

(** C27: the textual status test is a range test on the leading
    digit: a number fails exactly when it lies in [[4 * 10^k, 6 * 10^k)]
    for some [k >= 0] (400-599, but also 4-5, 40-59, 4000-5999, ...), and
    no zero or negative number fails. *)
Theorem error_status_range n :
  is_error_status (JNum n) = true <-> exists k, (0 <= k)%Z /\ (4 * 10 ^ k <= n < 6 * 10 ^ k)%Z.
Proof.
  destruct (Z.le_gt_cases n 0) as [Hn|Hn].
  - rewrite is_error_status_nonpos by done. split; [discriminate|].
    intros (k & Hk & Hr). assert (0 < 10 ^ k)%Z by (apply Z.pow_pos_nonneg; lia). lia.
  - destruct (z_to_dec_lead n Hn) as (k & Hk & Hb & Hh).
    unfold is_error_status. cbn [js_to_string]. rewrite !starts_with_head, Hh.
    assert (Hd : (0 <= n / 10 ^ k < 10)%Z).
    { rewrite Z.pow_add_r, Z.pow_1_r in Hb by lia. split; [apply Z.div_pos; lia|].
      apply Z.div_lt_upper_bound; lia. }
    rewrite orb_true_iff, !bool_decide_eq_true.
    change "4"%char with (digit_char 4). change "5"%char with (digit_char 5).
    split.
    + intros Hc. exists k. split; [done|]. apply lead_4_5; [done|done|].
      destruct Hc as [Hc|Hc]; apply digit_char_inj in Hc; lia.
    + intros (k' & Hk' & Hr). pose proof (lead_exponent_unique n k k' Hk Hk' Hb Hr) as ->.
      apply (lead_4_5 n k Hk Hb) in Hr as [E|E]; rewrite E; [left|right]; reflexivity.
Qed.

(** ** Witnesses *)

Definition demo_not_found : jsval :=
  JObj [("statusCode", JNum 404); ("body", JStr "Review template not found")].

Lemma classify_4xx_5xx_witness :
  classify_response demo_not_found = Err (ApiError "404" (JStr "Review template not found")).
Proof. apply (classify_4xx_5xx demo_not_found 404); [reflexivity | lia]. Defined.

Lemma classify_1xx_3xx_witness :
  classify_response (JObj [("statusCode", JNum 201)]) = Ok (JObj [("statusCode", JNum 201)]).
Proof. apply (classify_1xx_3xx _ 201); [reflexivity | lia]. Defined.

Lemma classify_no_status_witness :
  classify_response (JObj [("reviewId", JStr "r1")]) = Ok (JObj [("reviewId", JStr "r1")]).
Proof. apply classify_no_status. reflexivity. Defined.

End Submission.
