(* ===== verification/Execute.v ===== *)
(** * The node's [execute]: one invocation over the input items

    [execute] (lines 394-503 of [src/nodes/GotoHuman/GotoHuman.node.ts])
    starts with a 14-day wait, then for each input item in order: checks
    that the resource and operation are the supported ones, builds the
    review request (Request Builder, Field Mapper), posts it and
    classifies the answer (Submission), replaces the wait by the answer's
    positive [timeoutInMillis], and pushes the answer to [returnData].  An
    item's error is pushed as [{ error: message }] under "continue on
    fail", and otherwise aborts the invocation.  After the loop the
    execution is put to wait until [now + waitMillis] and the node returns
    [[this.getInputData()]].  The module [Execute] models the loop state
    ([exec_state]: [waitMillis], [returnData] and the requests sent), one
    item ([process_item]), the loop ([execute_items]) and the invocation
    ([execute]), whose result records the requests sent and whether the
    execution was suspended (with its deadline and output) or threw. *)

From stdpp Require Import base list strings decidable sets.
From Stdlib Require Import ZArith String Ascii Lia.
From S2P Require Import Prelude Json JsonText Host FieldMapper RequestBuilder Submission.

Local Open Scope string_scope.

Module Execute.
Import FieldMapper RequestBuilder Submission.

(** An input item: its JSON, and the parameters evaluated for it. *)
Record input_item := mk_input_item {
  ii_json : jsval;
  ii_params : item_params
}.

(** An entry of [returnData]: [{ json: responseData }], or
    [{ json: { error: err.message }, error: err }]. *)
Inductive out_item :=
| OutJson (v : jsval)
| OutError (message : string) (e : node_error).

Record exec_state := mk_exec_state {
  es_waitMillis : Z;
  es_returnData : list out_item;
  es_sent : list request
}.

(** [14 * 24 * 60 * 60 * 1000]. *)
Definition DEFAULT_WAIT_MILLIS : Z := 14 * 24 * 60 * 60 * 1000.

(** How the invocation ends: [putExecutionToWait(waitTill)] then
    [return [this.getInputData()]], or an error thrown out of [execute]. *)
Inductive outcome :=
| Suspended (waitTill : Z) (output : list (list jsval))
| Thrown (e : node_error).

Record exec_result := mk_exec_result {
  er_sent : list request;
  er_returnData : list out_item;
  er_outcome : outcome
}.

Section WithCodec.
Context `{JsonCodec}.

(** The [try] block for item [i]: the request it sends, if it gets that
    far, and its answer or error. *)
Definition process_item (h : host) (i : nat) (it : item_params) :
    option request * result node_error jsval :=
  if decide (p_resource it = "reviewRequest" /\ p_operation it = "sendAndWait") then
    match build_request it with
    | Err e => (None, Err e)
    | Ok r =>
        (Some (authenticate (creds h) (review_request_options (body_json r))),
         submit h i (body_json r))
    end
  else (None, Err (OperationNotSupported (p_operation it))).

(** [for (let i = 0; i < items.length; i++) { try { ... } catch (err) {
    if (this.continueOnFail()) { returnData.push(...); continue; } throw err; } }]. *)
Fixpoint execute_items (h : host) (i : nat) (items : list input_item) (st : exec_state) :
    exec_state * option node_error :=
  match items with
  | [] => (st, None)
  | ii :: rest =>
      let (sent, r) := process_item h i (ii_params ii) in
      let sent' := (es_sent st ++ option_list sent)%list in
      match r with
      | Ok resp =>
          execute_items h (S i) rest
            {| es_waitMillis := default (es_waitMillis st) (response_timeout resp);
               es_returnData := (es_returnData st ++ [OutJson resp])%list;
               es_sent := sent' |}
      | Err e =>
          if continueOnFail h then
            execute_items h (S i) rest
              {| es_waitMillis := es_waitMillis st;
                 es_returnData := (es_returnData st ++ [OutError (error_message e) e])%list;
                 es_sent := sent' |}
          else ({| es_waitMillis := es_waitMillis st; es_returnData := es_returnData st;
                   es_sent := sent' |}, Some e)
      end
  end.

Definition execute (h : host) (items : list input_item) : exec_result :=
  let (st, err) := execute_items h 0 items (mk_exec_state DEFAULT_WAIT_MILLIS [] []) in
  {| er_sent := es_sent st;
     er_returnData := es_returnData st;
     er_outcome := match err with
                   | Some e => Thrown e
                   | None => Suspended (now h + es_waitMillis st) [map ii_json items]
                   end |}.

(** ** The loop as a map over the items *)

(** Each item's [try] block, run independently of the others: nothing but
    the wait flows from one iteration to the next. *)
Fixpoint item_results (h : host) (i : nat) (items : list input_item) :
    list (option request * result node_error jsval) :=
  match items with
  | [] => []
  | ii :: rest => process_item h i (ii_params ii) :: item_results h (S i) rest
  end.

Definition to_out (r : result node_error jsval) : out_item :=
  match r with Ok v => OutJson v | Err e => OutError (error_message e) e end.

(** The timeout of the last answer that has one. *)
Fixpoint last_timeout (rs : list (result node_error jsval)) : option Z :=
  match rs with
  | [] => None
  | r :: rest =>
      match last_timeout rest with
      | Some t => Some t
      | None => match r with Ok v => response_timeout v | Err _ => None end
      end
  end.

Definition sent_of (R : list (option request * result node_error jsval)) : list request :=
  List.concat (map (fun x => option_list x.1) R).

Definition all_ok (R : list (option request * result node_error jsval)) : bool :=
  forallb (fun x => is_ok x.2) R.

(** The loop when no item aborts it: every item is processed, the wait is
    the last timeout given, [returnData] gets one entry per item. *)
Lemma execute_items_complete h i items st :
  (continueOnFail h = true \/ all_ok (item_results h i items) = true) ->
  execute_items h i items st =
  ({| es_waitMillis := default (es_waitMillis st) (last_timeout (map snd (item_results h i items)));
      es_returnData := (es_returnData st ++ map (fun x => to_out x.2) (item_results h i items))%list;
      es_sent := (es_sent st ++ sent_of (item_results h i items))%list |}, None).
Proof.
  revert i st. induction items as [|ii rest IH]; intros i [w rd sent] Hc; simpl.
  - by rewrite !List.app_nil_r.
  - destruct (process_item h i (ii_params ii)) as [s r] eqn:Ep. simpl in *.
    rewrite Ep in Hc. simpl in Hc. unfold sent_of in *. simpl. destruct r as [resp|e].
    + rewrite IH by (destruct Hc; [left|right; apply andb_true_iff in H0 as []]; done).
      simpl. rewrite <- !List.app_assoc. f_equal. f_equal.
      destruct (last_timeout _); [done|]. by destruct (response_timeout resp).
    + destruct Hc as [Hc|Hc]; [|discriminate]. rewrite Hc, IH by auto.
      f_equal. f_equal; try by destruct (last_timeout _).
      all: simpl; by rewrite <- List.app_assoc.
Qed.

(** The loop when item [k] is the first to fail and nothing continues on
    failure: the items before it are processed, its request (if any) is
    sent, and its error is returned. *)
Lemma execute_items_abort h i items st pre s e post :
  continueOnFail h = false -> item_results h i items = (pre ++ (s, Err e) :: post)%list ->
  all_ok pre = true ->
  execute_items h i items st =
  ({| es_waitMillis := default (es_waitMillis st) (last_timeout (map snd pre));
      es_returnData := (es_returnData st ++ map (fun x => to_out x.2) pre)%list;
      es_sent := (es_sent st ++ sent_of pre ++ option_list s)%list |}, Some e).
Proof.
  intros Hc. revert i st pre. induction items as [|ii rest IH]; intros i [w rd sent] pre HR Hok.
  - destruct pre; discriminate.
  - simpl in HR |- *. destruct (process_item h i (ii_params ii)) as [s' r] eqn:Ep.
    destruct pre as [|x pre]; simpl in HR; injection HR as Hx HR; subst.
    + rewrite Hc. simpl. by rewrite !List.app_nil_r.
    + simpl in Hok. apply andb_true_iff in Hok as [Hx Hok]. destruct r as [resp|e']; [|discriminate].
      rewrite (IH _ _ _ HR Hok). simpl. unfold sent_of. simpl. rewrite <- !List.app_assoc.
      f_equal. f_equal. destruct (last_timeout _); [done|]. by destruct (response_timeout resp).
Qed.

(** A list of results that is not all successes has a first failure. *)
Lemma first_failure (R : list (option request * result node_error jsval)) :
  all_ok R = false -> exists pre s e post, R = (pre ++ (s, Err e) :: post)%list /\ all_ok pre = true.
Proof.
  induction R as [|[s [v|e]] R IH]; simpl; [discriminate| |].
  - intros HR. destruct (IH HR) as (pre & s' & e & post & -> & Hok).
    exists ((s, Ok v) :: pre), s', e, post. done.
  - intros _. exists [], s, e, R. done.
Qed.

Lemma sent_of_app R1 R2 : sent_of (R1 ++ R2) = (sent_of R1 ++ sent_of R2)%list.
Proof. unfold sent_of. by rewrite map_app, concat_app. Qed.

(** What item [i] sends: at most one request, the authenticated POST of
    the body built from its parameters. *)
Lemma process_item_sent h i it r res :
  process_item h i it = (Some r, res) ->
  exists rr, build_request it = Ok rr /\
             r = authenticate (creds h) (review_request_options (body_json rr)).
Proof.
  unfold process_item. case_decide; [|discriminate].
  destruct (build_request it) as [rr|e]; [|discriminate]. intros [= <- _]. eauto.
Qed.

Lemma sent_of_item_results h i items r :
  r ∈ sent_of (item_results h i items) ->
  exists ii rr, ii ∈ items /\ build_request (ii_params ii) = Ok rr /\
                r = authenticate (creds h) (review_request_options (body_json rr)).
Proof.
  revert i. induction items as [|ii rest IH]; intros i; simpl; [set_solver|].
  unfold sent_of. simpl. destruct (process_item h i (ii_params ii)) as [[s|] res] eqn:Ep; simpl.
  - intros [->|Hin]%elem_of_cons.
    + destruct (process_item_sent _ _ _ _ _ Ep) as (rr & ? & ->). exists ii, rr. set_solver.
    + destruct (IH (S i) Hin) as (ii' & rr & ? & ?). exists ii', rr. set_solver.
  - intros Hin. destruct (IH (S i) Hin) as (ii' & rr & ? & ?). exists ii', rr. set_solver.
Qed.

Lemma length_sent_of h i items : List.length (sent_of (item_results h i items)) <= List.length items.
Proof.
  revert i. induction items as [|ii rest IH]; intros i; simpl; [lia|].
  unfold sent_of in *. simpl. rewrite length_app. specialize (IH (S i)).
  destruct (process_item h i (ii_params ii)) as [[s|] res]; simpl; lia.
Qed.

Lemma item_results_length h i items : List.length (item_results h i items) = List.length items.
Proof. revert i. induction items as [|ii rest IH]; intros i; simpl; [done|]. by rewrite IH. Qed.

(** The [k]-th result is item [k]'s [try] block, run with index [i + k]. *)
Lemma item_results_lookup h i items k x :
  item_results h i items !! k = Some x ->
  exists ii, items !! k = Some ii /\ x = process_item h (i + k) (ii_params ii).
Proof.
  revert i k. induction items as [|ii rest IH]; intros i [|k]; simpl; try discriminate.
  - intros [= <-]. exists ii. by rewrite Nat.add_0_r.
  - intros Hk. destruct (IH (S i) k Hk) as (ii' & ? & ->). exists ii'. by rewrite Nat.add_succ_r.
Qed.

(** What [execute] sends is what the first [n] items send, in order. *)
Lemma execute_sent_take h items :
  exists n, er_sent (execute h items) = sent_of (take n (item_results h 0 items)).
Proof.
  unfold execute. destruct (all_ok (item_results h 0 items)) eqn:Hok.
  - rewrite execute_items_complete by auto. exists (List.length (item_results h 0 items)).
    by rewrite take_ge.
  - destruct (continueOnFail h) eqn:Hc.
    + rewrite execute_items_complete by auto. exists (List.length (item_results h 0 items)).
      by rewrite take_ge.
    + destruct (first_failure _ Hok) as (pre & s & e & post & HR & Hpre).
      rewrite (execute_items_abort _ _ _ _ _ _ _ _ Hc HR Hpre), HR. exists (List.length pre + 1).
      rewrite take_app_add' by done. cbn. rewrite sent_of_app. unfold sent_of at 3. simpl.
      by rewrite List.app_nil_r.
Qed.

(** What [execute] sends is a prefix of what the items would send. *)
Lemma execute_sent_prefix h items :
  exists suf, sent_of (item_results h 0 items) = (er_sent (execute h items) ++ suf)%list.
Proof.
  unfold execute. destruct (all_ok (item_results h 0 items)) eqn:Hok.
  - rewrite execute_items_complete by auto. exists []. by rewrite List.app_nil_r.
  - destruct (continueOnFail h) eqn:Hc.
    + rewrite execute_items_complete by auto. exists []. by rewrite List.app_nil_r.
    + destruct (first_failure _ Hok) as (pre & s & e & post & HR & Hpre).
      rewrite (execute_items_abort _ _ _ _ _ _ _ _ Hc HR Hpre), HR, sent_of_app. simpl.
      unfold sent_of at 2. simpl. exists (sent_of post). by rewrite <- !List.app_assoc.
Qed.

(** Each request [execute] sends is the authenticated review request of
    the body built from one of the items. *)
Lemma execute_sent_shape h items r :
  r ∈ er_sent (execute h items) ->
  exists ii rr, ii ∈ items /\ build_request (ii_params ii) = Ok rr /\
    r = authenticate (creds h) (review_request_options (body_json rr)).
Proof.
  intros Hr. destruct (execute_sent_prefix h items) as [suf Hsuf].
  apply (sent_of_item_results h 0). rewrite Hsuf. set_solver.
Qed.

(** A suspended invocation waits until [now] plus the last timeout an
    answer gave, or 14 days: only the complete loop suspends. *)
Lemma execute_suspended h items w out :
  er_outcome (execute h items) = Suspended w out ->
  w = (now h + default DEFAULT_WAIT_MILLIS (last_timeout (map snd (item_results h 0 items))))%Z.
Proof.
  unfold execute. destruct (all_ok (item_results h 0 items)) eqn:Hok.
  - rewrite execute_items_complete by auto. simpl. congruence.
  - destruct (continueOnFail h) eqn:Hc.
    + rewrite execute_items_complete by auto. simpl. congruence.
    + destruct (first_failure _ Hok) as (pre & s & e & post & HR & Hpre).
      by rewrite (execute_items_abort _ _ _ _ _ _ _ _ Hc HR Hpre).
Qed.

(** The last timeout is the positive timeout of one of the answers. *)
Lemma last_timeout_of (R : list (option request * result node_error jsval)) t :
  last_timeout (map snd R) = Some t ->
  exists s v, (s, Ok v) ∈ R /\ response_timeout v = Some t /\ (0 < t)%Z.
Proof.
  induction R as [|[s r] R IH]; simpl; [discriminate|].
  destruct (last_timeout (map snd R)) as [t'|] eqn:El.
  - intros [= <-]. destruct (IH eq_refl) as (s' & v & ? & ? & ?). exists s', v. set_solver.
  - destruct r as [v|e]; [|discriminate]. intros Ht. exists s, v.
    split; [set_solver|]. split; [done|].
    unfold response_timeout in Ht. destruct (truthy v); [|discriminate].
    destruct (prop v "timeoutInMillis") as [[]|]; try discriminate.
    destruct (Z.ltb_spec 0 n); congruence.
Qed.

(** An item that is processed and whose answer has no [statusCode]
    gets that answer. *)
Lemma process_item_answer h i it resp :
  (forall n r, network h n r = Ok resp) -> prop resp "statusCode" = None ->
  p_resource it = "reviewRequest" -> p_operation it = "sendAndWait" ->
  is_ok (build_request it) = true -> (process_item h i it).2 = Ok resp.
Proof.
  intros Hn Hs Hr Ho Hb. unfold process_item. rewrite decide_True by done.
  destruct (build_request it) as [rr|e]; [|discriminate]. cbn.
  unfold submit, requestWithAuthentication. rewrite Hn. cbn.
  unfold classify_response, status_code, js_or. by rewrite Hs.
Qed.

(** When every item gets the same answer, the last timeout is that
    answer's. *)
Lemma last_timeout_const (R : list (option request * result node_error jsval)) resp :
  R <> [] -> Forall (fun x => x.2 = Ok resp) R -> last_timeout (map snd R) = response_timeout resp.
Proof.
  intros HR Hall. induction Hall as [|x R Hx Hall IH]; [by destruct HR|]. cbn. rewrite Hx.
  destruct R as [|y R']; [reflexivity|]. rewrite IH by done. by destruct (response_timeout resp).
Qed.

(** A suspended invocation's deadline is strictly after [now]: the wait
    is 14 days or a positive timeout. *)
Lemma execute_deadline_after h items w out :
  er_outcome (execute h items) = Suspended w out -> (now h < w)%Z.
Proof.
  intros Hs. apply execute_suspended in Hs as ->.
  destruct (last_timeout _) as [t|] eqn:Hl; simpl.
  - destruct (last_timeout_of _ _ Hl) as (_ & _ & _ & _ & Ht). lia.
  - unfold DEFAULT_WAIT_MILLIS. lia.
Qed.

End WithCodec.

(** ** Properties *)

Section Properties.
Context `{JsonCodec}.

(** C3: when "continue on fail" is set, or every item
    succeeds, [execute] processes every item, sends each item's request,
    records one [returnData] entry per item, and suspends the execution
    until [now] plus the last timeout an answer gave, or 14 days; it
    outputs its input items. *)
Theorem execute_complete h items :
  let R := item_results h 0 items in
  (continueOnFail h = true \/ all_ok R = true) ->
  execute h items =
  {| er_sent := sent_of R;
     er_returnData := map (fun x => to_out x.2) R;
     er_outcome := Suspended (now h + default DEFAULT_WAIT_MILLIS (last_timeout (map snd R)))
                             [map ii_json items] |}.
Proof.
  intros R Hc. unfold execute. by rewrite execute_items_complete.
Qed.

(** C4: without "continue on fail", the first failing item ends
    the invocation with its error and no wait is scheduled; the requests of
    the items before it, and its own if it got that far, have been sent. *)
Theorem execute_abort h items pre s e post :
  continueOnFail h = false -> item_results h 0 items = (pre ++ (s, Err e) :: post)%list ->
  all_ok pre = true ->
  execute h items =
  {| er_sent := (sent_of pre ++ option_list s)%list;
     er_returnData := map (fun x => to_out x.2) pre;
     er_outcome := Thrown e |}.
Proof.
  intros Hc HR Hok. unfold execute. by rewrite (execute_items_abort _ _ _ _ _ _ _ _ Hc HR Hok).
Qed.

(** C6: when the execution is suspended, the node's output is
    its input items: the answers collected in [returnData], and the errors
    recorded under "continue on fail", are never output. *)
Theorem execute_output_is_input h items w out :
  er_outcome (execute h items) = Suspended w out -> out = [map ii_json items].
Proof.
  unfold execute. destruct (execute_items h 0 items _) as [st [e|]]; simpl; congruence.
Qed.

(** C5: the wait is not reset per item: an item whose answer
    has no timeout keeps the timeout of an earlier item, so with two items
    answering [1000] and nothing, the execution waits 1000 ms, not 14
    days. *)
Theorem execute_timeout_not_reset h items s1 s2 r1 r2 t :
  item_results h 0 items = [(s1, Ok r1); (s2, Ok r2)] ->
  response_timeout r1 = Some t -> response_timeout r2 = None ->
  er_outcome (execute h items) = Suspended (now h + t) [map ii_json items].
Proof.
  intros HR H1 H2. unfold execute. rewrite execute_items_complete by (rewrite HR; auto).
  simpl. rewrite HR. simpl. by rewrite H2, H1.
Qed.

(** C7: item [k] sends at most one request, and it is the
    authenticated POST to [BASE_URL/requestReview] of the body built from
    item [k]'s own parameters, carrying the API key and item [k]'s webhook
    URL [<resumeUrl>/<nodeId>]; the requests sent are those of the first
    items, in item order. *)
Theorem execute_sent_requests h items :
  exists os : list (option request),
    List.length os <= List.length items /\
    er_sent (execute h items) = List.concat (map option_list os) /\
    forall k r, os !! k = Some (Some r) ->
      exists ii rr, items !! k = Some ii /\ build_request (ii_params ii) = Ok rr /\
        req_method r = "POST" /\ req_uri r = (BASE_URL ++ "/requestReview")%string /\
        header "x-api-key" (req_headers r) = Some (apiKey (creds h)) /\
        req_body r = Some (body_json rr) /\
        prop (body_json rr) "webhookUrl" =
          Some (JStr (p_resumeUrl (ii_params ii) ++ "/" ++ p_nodeId (ii_params ii))).
Proof.
  destruct (execute_sent_take h items) as [n Hn].
  exists (take n (fst <$> item_results h 0 items)). split_and!.
  - rewrite length_take, length_fmap, item_results_length. lia.
  - rewrite Hn. unfold sent_of. by rewrite <- fmap_take, <- list_fmap_compose.
  - intros k r Hk. rewrite lookup_take_Some, list_lookup_fmap in Hk. destruct Hk as [Hk _].
    destruct (item_results h 0 items !! k) as [[s res]|] eqn:Hx; [|discriminate].
    injection Hk as ->. destruct (item_results_lookup _ _ _ _ _ Hx) as (ii & Hii & Hp).
    destruct (process_item_sent h _ _ r res (eq_sym Hp)) as (rr & Hb & ->).
    exists ii, rr. split_and!; [done|done|done|done|apply authenticate_api_key|done|].
    destruct (body_json_members rr) as (_ & _ & _ & _ & _ & _ & _ & ->).
    by rewrite (build_request_webhook _ _ Hb).
Qed.

(** C28: the deadline [new Date(now + waitMillis)] is a valid
    [Date] when the clock is not before 1970, 14 days after it is within
    the [Date] range, and so is [now] plus each timeout an answer gives:
    the node itself never bounds [timeoutInMillis]. *)
Theorem deadline_valid h items w out :
  er_outcome (execute h items) = Suspended w out ->
  (0 <= now h)%Z -> (now h + DEFAULT_WAIT_MILLIS <= MAX_TIME)%Z ->
  (forall s v t, (s, Ok v) ∈ item_results h 0 items -> response_timeout v = Some t ->
     (now h + t <= MAX_TIME)%Z) ->
  time_clip w = Some w.
Proof.
  intros Hs Hnow Hdef Hans. apply execute_suspended in Hs as ->. unfold time_clip.
  destruct (last_timeout _) as [t|] eqn:Hl; simpl.
  - destruct (last_timeout_of _ _ Hl) as (s & v & Hin & Hv & Ht).
    specialize (Hans s v t Hin Hv). rewrite Z.abs_eq by lia. by rewrite (proj2 (Z.leb_le _ _)).
  - unfold DEFAULT_WAIT_MILLIS in *. rewrite Z.abs_eq by lia. by rewrite (proj2 (Z.leb_le _ _)).
Qed.

(** C29: the answer's timeout is not bounded: whatever the clock,
    when every item is sent and answered with a positive
    [timeoutInMillis] [t], the execution waits until [now + t], and when
    that is past the [Date] range the deadline handed to
    [putExecutionToWait] is an Invalid Date. *)
Theorem deadline_invalid_large_timeout h items t :
  (forall n r, network h n r = Ok (JObj [("timeoutInMillis", JNum t)])) ->
  Forall (fun ii => p_resource (ii_params ii) = "reviewRequest" /\
                    p_operation (ii_params ii) = "sendAndWait" /\
                    is_ok (build_request (ii_params ii)) = true) items ->
  items <> [] -> (0 < t)%Z ->
  er_outcome (execute h items) = Suspended (now h + t) [map ii_json items] /\
  ((MAX_TIME < now h + t)%Z -> time_clip (now h + t) = None).
Proof.
  intros Hn Hall Hne Ht. set (resp := JObj [("timeoutInMillis", JNum t)]).
  assert (HR : Forall (fun x => x.2 = Ok resp) (item_results h 0 items)).
  { clear Hne. generalize 0. induction Hall as [|ii rest (Hr & Ho & Hb) _ IH]; intros i; cbn [item_results];
      [constructor|]. constructor; [|apply IH].
    apply process_item_answer; [exact Hn|reflexivity|done..]. }
  split.
  - unfold execute. rewrite execute_items_complete.
    + cbn. rewrite (last_timeout_const _ resp); [|by destruct items|done]. subst resp. unfold response_timeout. cbn. rewrite decide_True by done.
      by rewrite (proj2 (Z.ltb_lt 0 t)).
    + right. unfold all_ok. apply forallb_forall. intros x Hx%list_elem_of_In.
      rewrite Forall_forall in HR. by rewrite (HR x Hx).
  - intros Hb. unfold time_clip. rewrite (proj2 (Z.leb_gt _ _)); [done|]. lia.
Qed.

End Properties.

(** ** Witnesses, with the JSON text codec of [JsonText] *)

Definition demo_answer (t : option Z) : jsval :=
  JObj ([("reviewId", JStr "r-1")] ++
        match t with Some t => [("timeoutInMillis", JNum t)] | None => [] end)%list.

Definition demo_host (cont : bool) (answers : nat -> result node_error jsval) : host :=
  mk_host cont 1700000000000%Z (mk_credentials "key-123") (fun n _ => answers n).

Definition demo_input (it : item_params) : input_item := mk_input_item (JObj [("row", JNum 1)]) it.

Definition unsupported_item : item_params :=
  {| p_resource := p_resource demo_item; p_operation := "delete";
     p_reviewTemplateID := p_reviewTemplateID demo_item; p_fields := p_fields demo_item;
     p_metaSelect := "no"; p_metaJson := ""; p_metaKeyValues := None;
     p_assignToSelect := "all"; p_assignTo := None; p_additionalFields := JObj [];
     p_resumeUrl := p_resumeUrl demo_item; p_nodeId := p_nodeId demo_item |}.

Lemma execute_complete_witness :
  let h := demo_host true (fun _ => Ok (demo_answer (Some 3600000%Z))) in
  let items := [demo_input demo_item] in
  let R := item_results h 0 items in
  (continueOnFail h = true \/ all_ok R = true) /\
  execute h items =
  {| er_sent := sent_of R;
     er_returnData := map (fun x => to_out x.2) R;
     er_outcome := Suspended (now h + default DEFAULT_WAIT_MILLIS (last_timeout (map snd R)))
                             [map ii_json items] |} /\
  er_outcome (execute h items) = Suspended (1700000000000 + 3600000)%Z [[JObj [("row", JNum 1)]]].
Proof.
  intros h items R. split; [by left|]. split.
  - apply execute_complete. by left.
  - vm_compute. reflexivity.
Defined.

Lemma execute_abort_witness :
  let h := demo_host false (fun _ => Ok (demo_answer None)) in
  let items := [demo_input demo_item; demo_input unsupported_item] in
  let pre := [process_item h 0 demo_item] in
  item_results h 0 items = (pre ++ [(None, Err (OperationNotSupported "delete"))])%list /\
  execute h items =
  {| er_sent := (sent_of pre ++ option_list None)%list;
     er_returnData := map (fun x => to_out x.2) pre;
     er_outcome := Thrown (OperationNotSupported "delete") |}.
Proof.
  intros h items pre. split; [reflexivity|].
  apply (execute_abort h items pre None _ []); [reflexivity | reflexivity | vm_compute; reflexivity].
Defined.

Lemma execute_output_is_input_witness :
  let h := demo_host true (fun _ => Ok (demo_answer None)) in
  er_outcome (execute h [demo_input demo_item]) =
    Suspended (1700000000000 + DEFAULT_WAIT_MILLIS)%Z [[JObj [("row", JNum 1)]]] /\
  [[JObj [("row", JNum 1)]]] = [map ii_json [demo_input demo_item]].
Proof.
  intros h. split; [vm_compute; reflexivity|].
  apply (execute_output_is_input h _ (1700000000000 + DEFAULT_WAIT_MILLIS)%Z).
  vm_compute. reflexivity.
Defined.

Lemma execute_timeout_not_reset_witness :
  let h := demo_host false (fun n => Ok (demo_answer (if decide (n = 0) then Some 1000%Z else None))) in
  let items := [demo_input demo_item; demo_input demo_item] in
  er_outcome (execute h items) = Suspended (now h + 1000) [map ii_json items].
Proof.
  intros h items.
  eapply (execute_timeout_not_reset h items _ _ (demo_answer (Some 1000%Z)) (demo_answer None));
    [cbv; reflexivity | reflexivity | reflexivity].
Defined.

Lemma deadline_valid_witness :
  let h := demo_host false (fun _ => Ok (demo_answer (Some 3600000%Z))) in
  let items := [demo_input demo_item] in
  er_outcome (execute h items) = Suspended (1700000000000 + 3600000)%Z [map ii_json items] /\
  time_clip (1700000000000 + 3600000)%Z = Some (1700000000000 + 3600000)%Z.
Proof.
  intros h items. split; [vm_compute; reflexivity|].
  apply (deadline_valid h items _ [map ii_json items]).
  - vm_compute. reflexivity.
  - unfold h, demo_host. simpl. lia.
  - unfold h, demo_host, DEFAULT_WAIT_MILLIS, MAX_TIME. simpl. lia.
  - intros s v t Hin Hv. vm_compute in Hin. apply list_elem_of_singleton in Hin. injection Hin as _ ->.
    vm_compute in Hv. injection Hv as <-. unfold h, demo_host, MAX_TIME. simpl. lia.
Defined.

(** An answer of [8.64e15] ms for the demo item, at the demo clock. *)
Lemma deadline_invalid_large_timeout_witness :
  let h := demo_host false (fun _ => Ok (JObj [("timeoutInMillis", JNum MAX_TIME)])) in
  let items := [demo_input demo_item] in
  er_outcome (execute h items) = Suspended (now h + MAX_TIME) [map ii_json items] /\
  time_clip (now h + MAX_TIME) = None.
Proof.
  intros h items.
  destruct (deadline_invalid_large_timeout h items MAX_TIME) as [H1 H2].
  - reflexivity.
  - repeat constructor; vm_compute; reflexivity.
  - discriminate.
  - vm_compute. reflexivity.
  - split; [exact H1|]. apply H2. vm_compute. reflexivity.
Defined.

End Execute.
