(* ===== verification/Webhook.v ===== *)
(** * Callback Receiver: the webhook that resumes the execution

    The node declares one webhook ([description.webhooks], lines 26-36 of
    [src/nodes/GotoHuman/GotoHuman.node.ts]): a POST on the path
    [$nodeId], answered on receipt, with [restartWebhook: true] so that it
    resumes the waiting execution.  Its handler ([webhook], lines 505-510)
    returns [[this.helpers.returnJsonArray(bodyData)]].  The module
    [Webhook] models the declaration's path and the handler; the host
    helper [returnJsonArray] (n8n-workflow) is modelled after the library:
    an array body gives one item per element, any other body one item, and
    a value whose [json] member is truthy is taken as an item already. *)

From stdpp Require Import base list strings decidable sets.
From Stdlib Require Import ZArith String Ascii Lia.
From S2P Require Import Prelude Json.

Local Open Scope string_scope.

Module Webhook.

(** The declared webhook: method, response mode and path expression
    ([={{ $nodeId }}]) evaluated for the node. *)
Record webhook_decl := mk_webhook_decl {
  wh_method : string;
  wh_responseMode : string;
  wh_path : string;
  wh_restartWebhook : bool
}.

Definition webhook_description (nodeId : string) : webhook_decl :=
  {| wh_method := "POST"; wh_responseMode := "onReceived"; wh_path := nodeId;
     wh_restartWebhook := true |}.

(** The JSON of the item [returnJsonArray] makes of one value. *)
Definition item_json (d : jsval) : jsval :=
  match prop d "json" with
  | Some j => if truthy j then j else d
  | None => d
  end.

Definition returnJsonArray (d : jsval) : list jsval :=
  match d with
  | JArr ds => map item_json ds
  | _ => [item_json d]
  end.

(** [return { workflowData: [this.helpers.returnJsonArray(bodyData)] }]. *)
Definition webhook (bodyData : jsval) : list (list jsval) := [returnJsonArray bodyData].

(** C20: a callback body that is an object without a truthy
    [json] member (the decision the review service posts) becomes the
    resumed execution's single output item, unchanged. *)
Theorem webhook_verbatim ps :
  otruthy (js_get ps "json") = false -> webhook (JObj ps) = [[JObj ps]].
Proof.
  intros Hj. unfold webhook, returnJsonArray, item_json, prop.
  destruct (js_get ps "json") as [j|]; simpl in *; [by rewrite Hj|done].
Qed.

(** An element of an array body without a truthy [json] member is its
    own item. *)
Lemma item_json_plain v : otruthy (prop v "json") = false -> item_json v = v.
Proof. unfold item_json. destruct (prop v "json") as [j|]; simpl; [intros ->|]; done. Qed.

(** C21: the body is not always delivered as it is: an array
    body is split into one output item per element, and an object body
    with a truthy [json] member is replaced by that member. *)
Theorem webhook_reshapes vs ps j :
  (Forall (fun v => otruthy (prop v "json") = false) vs -> webhook (JArr vs) = [vs]) /\
  (js_get ps "json" = Some j -> truthy j = true -> webhook (JObj ps) = [[j]]).
Proof.
  split.
  - intros Hall. unfold webhook, returnJsonArray. f_equal.
    induction Hall as [|v vs Hv _ IH]; [done|]. cbn [map]. by rewrite item_json_plain, IH.
  - intros Hj Ht. unfold webhook, returnJsonArray, item_json, prop. by rewrite Hj, Ht.
Qed.

Lemma webhook_verbatim_witness :
  webhook (JObj [("decision", JStr "approved")]) = [[JObj [("decision", JStr "approved")]]].
Proof. apply webhook_verbatim. reflexivity. Defined.

Lemma webhook_reshapes_witness :
  webhook (JArr [JObj [("a", JNum 1)]; JObj [("a", JNum 2)]]) =
    [[JObj [("a", JNum 1)]; JObj [("a", JNum 2)]]] /\
  webhook (JObj [("json", JObj [("decision", JStr "approved")]); ("x", JNum 1)]) =
    [[JObj [("decision", JStr "approved")]]].
Proof.
  split.
  - apply (webhook_reshapes _ [] JNull). repeat constructor.
  - apply (webhook_reshapes [] _ _); reflexivity.
Defined.

End Webhook.
