(* ===== verification/LoadOptions.v ===== *)
(** * Load-options methods: the template list and the field list

    The editor calls two methods of the node ([methods], lines 316-392 of
    [src/nodes/GotoHuman/GotoHuman.node.ts]).  [searchReviewTemplates]
    fetches [/fetchN8nForms] (an error of the request is thrown out of the
    method), fails when the answer is [undefined], and
    returns the forms whose label contains the search filter, ignoring
    case ([label.toLowerCase().includes(filter.toLowerCase())]), all of
    them when the filter is empty.  [getMappingFields] returns no field
    when no template is chosen, fetches [/fetchN8nFields?formId=<id>]
    otherwise, and fails when the answer has no [fields].  The module
    [LoadOptions] models both, with the string operations they use. *)

From stdpp Require Import base list strings decidable sets.
From Stdlib Require Import ZArith String Ascii Lia.
From S2P Require Import Prelude Json Host.

Local Open Scope string_scope.

Module LoadOptions.

(** ** Strings *)

(** [toLowerCase] on an 8-bit code unit: the capitals [A-Z] and the
    Latin-1 capitals [U+00C0-U+00DE] but the sign [U+00D7] have their
    small letter [32] code units above; no other code unit below [256]
    changes. *)
Definition lower_char (c : ascii) : ascii :=
  let n := nat_of_ascii c in
  if ((65 <=? n)%nat && (n <=? 90)%nat) || ((192 <=? n)%nat && (n <=? 222)%nat && negb (n =? 215)%nat)
  then ascii_of_nat (n + 32) else c.

Fixpoint to_lower (s : string) : string :=
  match s with
  | EmptyString => EmptyString
  | String c s' => String (lower_char c) (to_lower s')
  end.

Fixpoint str_prefix (p s : string) : bool :=
  match p, s with
  | EmptyString, _ => true
  | String a p', String b s' => bool_decide (a = b) && str_prefix p' s'
  | String _ _, EmptyString => false
  end.

(** [s.includes(sub)]: [sub] starts at some position of [s]. *)
Fixpoint str_includes (s sub : string) : bool :=
  str_prefix sub s || match s with String _ s' => str_includes s' sub | EmptyString => false end.

(** ** [searchReviewTemplates] *)

(** An entry [{ value, label }] of the answer's [forms]. *)
Record form := mk_form { f_value : string; f_label : string }.

(** The answer of [/fetchN8nForms]: [undefined] is [None]; its [forms] may
    be missing. *)
Definition forms_response := option (option (list form)).

Definition templates_url : string := BASE_URL ++ "/fetchN8nForms".

(** [{ method: 'GET', uri: `${BASE_URL}/fetchN8nForms`, json: true }]. *)
Definition templates_request : request :=
  {| req_method := "GET"; req_uri := templates_url; req_qs := []; req_body := None;
     req_json := true; req_headers := [] |}.

Definition matches_filter (filter : option string) (t : form) : bool :=
  match filter with
  | None => true
  | Some flt => negb (truthy (JStr flt)) || str_includes (to_lower (f_label t)) (to_lower flt)
  end.

(** [await requestWithAuthentication(..., options)] (whose error is thrown
    out of the method), the [undefined] check, then [{ results:
    (reviewTemplates?.forms || []).filter(...).map(t => ({ name: t.label,
    value: t.value })) }]: pairs [(name, value)].  [fetch] is the
    authenticated request helper with the answer decoded. *)
Definition searchReviewTemplates (fetch : request -> result node_error forms_response)
    (filter : option string) : result node_error (list (string * string)) :=
  let? resp := fetch templates_request in
  match resp with
  | None => Err (ConfigError "No review templates found. Please create one first in our web app.")
  | Some forms =>
      Ok (map (fun t => (f_label t, f_value t)) (List.filter (matches_filter filter) (default [] forms)))
  end.

(** ** [getMappingFields] *)

Definition fields_request (formId : option jsval) : request :=
  {| req_method := "GET"; req_uri := BASE_URL ++ "/fetchN8nFields";
     req_qs := match formId with Some v => [("formId", v)] | None => [] end;
     req_body := None; req_json := true; req_headers := [] |}.

(** [getNodeParameter('reviewTemplateID', 0)], then the request (sent as
    request 0 of the host) and the answer's [fields]: the request sent, if
    any, and the [fields] returned. *)
Definition getMappingFields (h : host) (reviewTemplateObj : jsval) :
    option request * result node_error jsval :=
  if negb (truthy reviewTemplateObj) then (None, Ok (JArr []))
  else
    let opts := fields_request (prop reviewTemplateObj "value") in
    (Some (authenticate (creds h) opts),
     let? resp := requestWithAuthentication h 0 opts in
     match prop resp "fields" with
     | Some fs => Ok fs
     | None =>
         Err (ConfigError "No fields found for review template. Please add some fields in our web editor first.")
     end).

(** ** Lemmas *)

Lemma str_prefix_spec p s : str_prefix p s = true <-> exists r, s = p ++ r.
Proof.
  revert s. induction p as [|a p IH]; intros s.
  - split; [eauto | done].
  - destruct s as [|b s]; simpl.
    + split; [discriminate|]. intros [r Hr]. rewrite string_app_cons in Hr. discriminate.
    + rewrite andb_true_iff, bool_decide_eq_true, IH. split.
      * intros [-> [r ->]]. exists r. by rewrite string_app_cons.
      * intros [r Hr]. rewrite string_app_cons in Hr. injection Hr as -> ->. eauto.
Qed.

(** [str_includes], the character-by-character search, is
    [String.prototype.includes]: [sub] occurs in [s] at some position. *)
Theorem str_includes_spec s sub :
  str_includes s sub = true <-> exists pre post, s = pre ++ sub ++ post.
Proof.
  induction s as [|c s IH]; simpl; rewrite orb_true_iff, str_prefix_spec.
  - split.
    + intros [[r Hr]|]; [|discriminate]. exists "", r. done.
    + intros (pre & post & Hs). left. exists post. destruct pre; [done|].
      rewrite string_app_cons in Hs. discriminate.
  - rewrite IH. split.
    + intros [[r Hr]|(pre & post & ->)].
      * exists "", r. done.
      * exists (String c pre), post. by rewrite string_app_cons.
    + intros ([|c' pre] & post & Hs).
      * left. eauto.
      * rewrite string_app_cons in Hs. injection Hs as -> ->. right. eauto.
Qed.

(** C22: the search sends the GET of [/fetchN8nForms] and
    returns, as [(name, value)], exactly the forms of the answer whose
    label contains the filter ignoring case, every form when the filter is
    empty or absent; it fails with the request's own error, or when the
    answer is [undefined]. *)
Theorem search_templates_spec fetch filter :
  match searchReviewTemplates fetch filter with
  | Err e => fetch templates_request = Err e \/
      (fetch templates_request = Ok None /\
       e = ConfigError "No review templates found. Please create one first in our web app.")
  | Ok res => exists forms, fetch templates_request = Ok (Some forms) /\
      forall name value, (name, value) ∈ res <->
        exists t, t ∈ default [] forms /\ name = f_label t /\ value = f_value t /\
          (filter = None \/ filter = Some "" \/
           exists flt pre post, filter = Some flt /\ to_lower (f_label t) = pre ++ to_lower flt ++ post)
  end.
Proof.
  unfold searchReviewTemplates.
  destruct (fetch templates_request) as [[forms|]|e] eqn:Ef; simpl; [|by right|by left].
  exists forms. split; [done|].
  intros name value. rewrite list_elem_of_fmap. setoid_rewrite list_elem_of_In.
  setoid_rewrite filter_In. split.
  - intros ([v l] & [= -> ->] & Hin & Hm). exists (mk_form v l). repeat split; [done..|].
    unfold matches_filter, truthy in Hm. destruct filter as [flt|]; [|auto].
    destruct (String.eqb_spec flt ""); simpl in Hm; [subst; auto|].
    apply str_includes_spec in Hm as (pre & post & Hs). right; right. eauto.
  - intros (t & Hin & -> & -> & Hf). exists t. repeat split; [done|]. unfold matches_filter.
    destruct Hf as [->|[->|(flt & pre & post & -> & Hs)]]; [done|done|].
    apply orb_true_iff. right. apply str_includes_spec. eauto.
Qed.

(** C23: with no template chosen no request is sent and there is
    no field; otherwise one authenticated GET of [/fetchN8nFields] with the
    template id as [formId] is sent, and an answer without [fields] is an
    error. *)
Theorem getMappingFields_spec h obj :
  match getMappingFields h obj with
  | (None, res) => truthy obj = false /\ res = Ok (JArr [])
  | (Some r, res) =>
      truthy obj = true /\ req_method r = "GET" /\ req_uri r = BASE_URL ++ "/fetchN8nFields" /\
      js_get (req_qs r) "formId" = prop obj "value" /\
      header "x-api-key" (req_headers r) = Some (apiKey (creds h)) /\
      (forall resp, requestWithAuthentication h 0 (fields_request (prop obj "value")) = Ok resp ->
         prop resp "fields" = None -> is_ok res = false)
  end.
Proof.
  unfold getMappingFields. destruct (truthy obj) eqn:Ht; simpl; [|done].
  split; [done|]. split; [done|]. split; [done|]. split; [by destruct (prop obj "value")|].
  split; [done|].
  intros resp Hr Hf. by rewrite Hr; simpl; rewrite Hf.
Qed.

(** [toLowerCase] maps the Latin-1 capital [U+00C9] to [U+00E9]:
    "\xc9cole" becomes "\xe9cole". *)
Example to_lower_latin1 : to_lower (String (ascii_of_nat 201) "cole") = String (ascii_of_nat 233) "cole".
Proof. reflexivity. Qed.

End LoadOptions.
