(* ===== verification/NodeDescription.v ===== *)
(** * The node description: parameters, defaults and display conditions

    [description] (lines 6-314 of [src/nodes/GotoHuman/GotoHuman.node.ts])
    declares the node: its name, version, credential and webhook, and its
    ten parameters ([properties]) with their types, defaults, option
    values and display conditions ([displayOptions.show] / [hide]).  The
    declarations decide what [getNodeParameter(name, i)] gives [execute]:
    the value the user set, or the declared default, and nothing for a
    parameter its display conditions hide.  The module [NodeDescription]
    holds the declarations as data, n8n's reading of them ([shown],
    [get_param]), and the reads [execute] makes at lines 401-434 with the
    code's own guards ([read_item_params]), giving the [item_params] the
    Request Builder works on.

    Display semantics (n8n's [displayParameter]): a parameter is shown
    when, for each [show] condition, the named parameter's value is one of
    the listed values, and for no [hide] condition it is; a resource
    locator value ([__rl: true]) is compared by its [value].  Parameter
    values of options and JSON parameters are strings, as the editor
    stores them. *)

From stdpp Require Import base list strings decidable sets.
From Stdlib Require Import ZArith String Ascii Lia.
From S2P Require Import Prelude Json JsonText Host FieldMapper RequestBuilder.

Local Open Scope string_scope.

Module NodeDescription.
Import FieldMapper RequestBuilder.

(** ** Declarations *)

Inductive param_type :=
| POptions | PResourceLocator | PResourceMapper | PJson | PFixedCollection | PCollection.

(** A display condition [name: [values]]. *)
Definition condition : Type := string * list jsval.

(** One entry of [properties].  [pd_options] lists the values of an
    options parameter, the modes of a resource locator, and the entries of
    a (fixed) collection; [pd_values] the fields of a fixed collection's
    entries; [pd_method] the load-options method the editor calls. *)
Record param_decl := mk_param_decl {
  pd_name : string;
  pd_type : param_type;
  pd_default : jsval;
  pd_required : bool;
  pd_options : list string;
  pd_values : list string;
  pd_method : option string;
  pd_show : list condition;
  pd_hide : list condition
}.

Definition for_review : list condition :=
  [("resource", [JStr "reviewRequest"]); ("operation", [JStr "sendAndWait"])].

Definition no_template : list condition := [("reviewTemplateID", [JStr ""])].

Definition resource_param : param_decl :=
  mk_param_decl "resource" POptions (JStr "reviewRequest") true ["reviewRequest"] [] None [] [].

Definition operation_param : param_decl :=
  mk_param_decl "operation" POptions (JStr "sendAndWait") false ["sendAndWait"] [] None
    [("resource", [JStr "reviewRequest"])] [].

Definition reviewTemplateID_param : param_decl :=
  mk_param_decl "reviewTemplateID" PResourceLocator (JObj [("mode", JStr "list"); ("value", JStr "")])
    false ["list"; "id"] [] (Some "searchReviewTemplates") for_review [].

Definition fields_param : param_decl :=
  mk_param_decl "fields" PResourceMapper (JObj [("mappingMode", JStr "defineBelow"); ("value", JNull)])
    true [] [] (Some "getMappingFields") for_review no_template.

Definition metaSelect_param : param_decl :=
  mk_param_decl "metaSelect" POptions (JStr "no") true ["no"; "json"; "keyValue"] [] None
    for_review no_template.

Definition metaJson_param : param_decl :=
  mk_param_decl "metaJson" PJson (JStr "") false [] [] None
    (for_review ++ [("metaSelect", [JStr "json"])]) no_template.

Definition metaKeyValues_param : param_decl :=
  mk_param_decl "metaKeyValues" PFixedCollection (JObj []) false ["metaArray"] ["key"; "value"] None
    (for_review ++ [("metaSelect", [JStr "keyValue"])]) no_template.

Definition assignToSelect_param : param_decl :=
  mk_param_decl "assignToSelect" POptions (JStr "all") true ["all"; "selectByEmail"] [] None
    for_review no_template.

Definition assignTo_param : param_decl :=
  mk_param_decl "assignTo" PFixedCollection (JArr []) false ["values"] ["email"] None
    (for_review ++ [("assignToSelect", [JStr "selectByEmail"])]) no_template.

Definition additionalFields_param : param_decl :=
  mk_param_decl "additionalFields" PCollection (JObj []) false ["updateForReviewId"] [] None
    for_review no_template.

Definition properties : list param_decl :=
  [resource_param; operation_param; reviewTemplateID_param; fields_param; metaSelect_param;
   metaJson_param; metaKeyValues_param; assignToSelect_param; assignTo_param; additionalFields_param].

(** The rest of [description]: name, version, credentials (name and
    [required]), the webhook's name and path expression. *)
Record node_description := mk_node_description {
  nd_name : string;
  nd_version : Z;
  nd_credentials : list (string * bool);
  nd_webhooks : list (string * string);
  nd_properties : list param_decl
}.

Definition description : node_description :=
  mk_node_description "gotoHuman" VERSION [("gotoHumanApi", true)] [("default", "={{ $nodeId }}")]
    properties.

(** The load-options methods of [methods] (lines 316-392). *)
Definition node_methods : list string := ["searchReviewTemplates"; "getMappingFields"].

(** ** n8n's reading of the declarations *)

(** The values the user set, by parameter name. *)
Definition param_values : Type := list (string * jsval).

Definition lookup_decl (name : string) : option param_decl :=
  List.find (fun pd => String.eqb (pd_name pd) name) properties.

(** The value of a declared parameter: the one set, else the default. *)
Definition current (vals : param_values) (name : string) : option jsval :=
  match lookup_decl name with
  | Some pd => Some (default (pd_default pd) (js_get vals name))
  | None => None
  end.

(** A resource locator is compared by its [value]. *)
Definition display_value (v : jsval) : jsval :=
  match prop v "__rl" with
  | Some rl => if truthy rl then default JNull (prop v "value") else v
  | None => v
  end.

Definition cond_holds (vals : param_values) (c : condition) : bool :=
  match current vals c.1 with
  | Some v => existsb (fun w => bool_decide (display_value v = w)) c.2
  | None => false
  end.

Definition shown (vals : param_values) (pd : param_decl) : bool :=
  forallb (cond_holds vals) (pd_show pd) && negb (existsb (cond_holds vals) (pd_hide pd)).

(** [getNodeParameter(name, i)]: the current value of a shown parameter;
    the host throws for a hidden or undeclared one. *)
Definition get_param (vals : param_values) (name : string) : result node_error jsval :=
  match lookup_decl name with
  | Some pd => if shown vals pd then Ok (default (pd_default pd) (js_get vals name))
               else Err (MissingParameter name)
  | None => Err (MissingParameter name)
  end.

(** ** The reads of [execute] *)

(** [fieldsParam.value] and [fieldsParam.schema] of the resource mapper
    value: the value when it is an object, the schema's [id] as the
    property key [value[field.id]] uses ([String(id)], ["undefined"] when
    absent) and its [type]. *)
Definition field_of (f : jsval) : field_spec :=
  mk_field_spec (match prop f "id" with Some v => js_to_string v | None => "undefined" end)
                (match prop f "type" with Some (JStr t) => Some t | _ => None end).

Definition mapper_of (v : jsval) : mapper_value :=
  mk_mapper_value (match prop v "value" with Some (JObj o) => Some o | _ => None end)
                  (match prop v "schema" with Some (JArr fs) => Some (map field_of fs) | _ => None end).

(** [if (metaKeyValues && Array.isArray(metaKeyValues.metaArray))], with
    each entry's [key], converted to a property key by [meta[pair.key]]
    ([String(key)]), and its [value] as it is.  An entry lacking [key] or
    [value] has the declared default [''] (lines 205 and 213), which the
    host fills in. *)
Definition pairs_of (v : jsval) : option (list meta_pair) :=
  if truthy v then
    match prop v "metaArray" with
    | Some (JArr xs) =>
        Some (map (fun x => mk_meta_pair (js_to_string (default (JStr "") (prop x "key")))
                                         (default (JStr "") (prop x "value"))) xs)
    | _ => None
    end
  else None.

(** [if (assignToParam && Array.isArray(assignToParam.values))
    assignTo = assignToParam.values.map((v: any) => v.email)]: each
    [email] as it is, the declared default [''] (line 275) when the host
    gives none. *)
Definition emails_of (v : jsval) : option (list jsval) :=
  if truthy v then
    match prop v "values" with
    | Some (JArr xs) => Some (map (fun x => default (JStr "") (prop x "email")) xs)
    | _ => None
    end
  else None.

(** The parameters of item [i] read in the code's order, each read only
    under the code's guard; the supported-operation test comes after the
    first two reads, as in the code.  Outside that branch no other
    parameter is read: the remaining fields are the declared defaults. *)
Definition read_item_params (vals : param_values) (resumeUrl nodeId : string) :
    result node_error item_params :=
  let? resource := get_param vals "resource" in
  let? operation := get_param vals "operation" in
  let base := fun tmpl fields metaSelect metaJson metaKV assignToSelect assignTo additional =>
    {| p_resource := js_to_string resource; p_operation := js_to_string operation;
       p_reviewTemplateID := tmpl; p_fields := mapper_of fields;
       p_metaSelect := metaSelect; p_metaJson := metaJson; p_metaKeyValues := metaKV;
       p_assignToSelect := assignToSelect; p_assignTo := assignTo;
       p_additionalFields := additional; p_resumeUrl := resumeUrl; p_nodeId := nodeId |} in
  if decide (js_to_string resource = "reviewRequest" /\ js_to_string operation = "sendAndWait") then
    let? tmpl := get_param vals "reviewTemplateID" in
    let? fields := get_param vals "fields" in
    let? metaSelect := get_param vals "metaSelect" in
    let? metaJson :=
      if decide (js_to_string metaSelect = "json") then get_param vals "metaJson" else Ok (JStr "") in
    let? metaKV :=
      if decide (js_to_string metaSelect = "json") then Ok None
      else if decide (js_to_string metaSelect = "keyValue") then
        res_map pairs_of (get_param vals "metaKeyValues")
      else Ok None in
    let? assignToSelect := get_param vals "assignToSelect" in
    let? assignTo :=
      if decide (js_to_string assignToSelect = "selectByEmail") then
        res_map emails_of (get_param vals "assignTo")
      else Ok None in
    let? additional := get_param vals "additionalFields" in
    Ok (base tmpl fields (js_to_string metaSelect) (js_to_string metaJson) metaKV
             (js_to_string assignToSelect) assignTo additional)
  else
    Ok (base (pd_default reviewTemplateID_param) (pd_default fields_param) "no" "" None "all" None
             (pd_default additionalFields_param)).

(** The value a parameter has: the one set, else its default. *)
Definition value_of (vals : param_values) (pd : param_decl) : jsval :=
  default (pd_default pd) (js_get vals (pd_name pd)).

(** Option parameters hold one of their declared values, as the editor
    ensures. *)
Definition options_ok (vals : param_values) (pd : param_decl) : bool :=
  match pd_type pd with
  | POptions => bool_decide (value_of vals pd ∈ (JStr <$> pd_options pd))
  | _ => true
  end.

Definition well_typed (vals : param_values) : bool := forallb (options_ok vals) properties.

(** ** Lemmas: the reads, parameter by parameter *)

(** The parameter is shown for the review operation. *)
Definition review_shown (vals : param_values) : bool :=
  bool_decide (display_value (value_of vals resource_param) = JStr "reviewRequest") &&
  bool_decide (display_value (value_of vals operation_param) = JStr "sendAndWait").

(** The template is empty, which hides all but the first three. *)
Definition template_hidden (vals : param_values) : bool :=
  bool_decide (display_value (value_of vals reviewTemplateID_param) = JStr "").

Definition is_value (vals : param_values) (pd : param_decl) (a : string) : bool :=
  bool_decide (display_value (value_of vals pd) = JStr a).

Ltac get_param_tac :=
  intros; unfold get_param, shown, cond_holds, current, review_shown, template_hidden, is_value;
  cbn -[display_value default js_get];
  rewrite ?orb_false_r, ?andb_true_r, ?andb_assoc; reflexivity.

Lemma get_resource vals : get_param vals "resource" = Ok (value_of vals resource_param).
Proof. get_param_tac. Qed.

Lemma get_operation vals :
  get_param vals "operation" =
    if is_value vals resource_param "reviewRequest" then Ok (value_of vals operation_param)
    else Err (MissingParameter "operation").
Proof. get_param_tac. Qed.

Lemma get_reviewTemplateID vals :
  get_param vals "reviewTemplateID" =
    if review_shown vals then Ok (value_of vals reviewTemplateID_param)
    else Err (MissingParameter "reviewTemplateID").
Proof. get_param_tac. Qed.

Lemma get_fields vals :
  get_param vals "fields" =
    if review_shown vals && negb (template_hidden vals) then Ok (value_of vals fields_param)
    else Err (MissingParameter "fields").
Proof. get_param_tac. Qed.

Lemma get_metaSelect vals :
  get_param vals "metaSelect" =
    if review_shown vals && negb (template_hidden vals) then Ok (value_of vals metaSelect_param)
    else Err (MissingParameter "metaSelect").
Proof. get_param_tac. Qed.

Lemma get_metaJson vals :
  get_param vals "metaJson" =
    if review_shown vals && is_value vals metaSelect_param "json" && negb (template_hidden vals)
    then Ok (value_of vals metaJson_param) else Err (MissingParameter "metaJson").
Proof. get_param_tac. Qed.

Lemma get_metaKeyValues vals :
  get_param vals "metaKeyValues" =
    if review_shown vals && is_value vals metaSelect_param "keyValue" && negb (template_hidden vals)
    then Ok (value_of vals metaKeyValues_param) else Err (MissingParameter "metaKeyValues").
Proof. get_param_tac. Qed.

Lemma get_assignToSelect vals :
  get_param vals "assignToSelect" =
    if review_shown vals && negb (template_hidden vals) then Ok (value_of vals assignToSelect_param)
    else Err (MissingParameter "assignToSelect").
Proof. get_param_tac. Qed.

Lemma get_assignTo vals :
  get_param vals "assignTo" =
    if review_shown vals && is_value vals assignToSelect_param "selectByEmail" && negb (template_hidden vals)
    then Ok (value_of vals assignTo_param) else Err (MissingParameter "assignTo").
Proof. get_param_tac. Qed.

Lemma get_additionalFields vals :
  get_param vals "additionalFields" =
    if review_shown vals && negb (template_hidden vals) then Ok (value_of vals additionalFields_param)
    else Err (MissingParameter "additionalFields").
Proof. get_param_tac. Qed.

(** What well-typedness says of the four options parameters. *)
Lemma well_typed_values vals :
  well_typed vals = true ->
  value_of vals resource_param = JStr "reviewRequest" /\
  value_of vals operation_param = JStr "sendAndWait" /\
  value_of vals metaSelect_param ∈ [JStr "no"; JStr "json"; JStr "keyValue"] /\
  value_of vals assignToSelect_param ∈ [JStr "all"; JStr "selectByEmail"].
Proof.
  unfold well_typed. cbn -[value_of]. rewrite !andb_true_iff, !bool_decide_eq_true.
  intros (Hr & Ho & Hm & Ha & _). cbn in Hr, Ho, Hm, Ha.
  apply list_elem_of_singleton in Hr, Ho. done.
Qed.

(** ** Properties *)

(** The parameters of an item when the template is chosen. *)
Definition chosen_params (vals : param_values) (resumeUrl nodeId : string) : item_params :=
  let metaSelect := value_of vals metaSelect_param in
  let assignToSelect := value_of vals assignToSelect_param in
  {| p_resource := "reviewRequest"; p_operation := "sendAndWait";
     p_reviewTemplateID := value_of vals reviewTemplateID_param;
     p_fields := mapper_of (value_of vals fields_param);
     p_metaSelect := js_to_string metaSelect;
     p_metaJson := if decide (metaSelect = JStr "json") then js_to_string (value_of vals metaJson_param) else "";
     p_metaKeyValues :=
       if decide (metaSelect = JStr "keyValue") then pairs_of (value_of vals metaKeyValues_param) else None;
     p_assignToSelect := js_to_string assignToSelect;
     p_assignTo :=
       if decide (assignToSelect = JStr "selectByEmail") then emails_of (value_of vals assignTo_param) else None;
     p_additionalFields := value_of vals additionalFields_param;
     p_resumeUrl := resumeUrl; p_nodeId := nodeId |}.

(** C24: with option values the editor allows and a template
    chosen, every parameter [execute] reads is shown, so the reads
    succeed; a parameter is read only under its own mode (the JSON text
    in JSON mode, the pairs in key/value mode, the users when selecting by
    email), and a mode's parameter is taken as set or defaulted. *)
Theorem read_item_params_ok vals resumeUrl nodeId :
  well_typed vals = true -> template_hidden vals = false ->
  read_item_params vals resumeUrl nodeId = Ok (chosen_params vals resumeUrl nodeId).
Proof.
  intros Hwt Ht. destruct (well_typed_values vals Hwt) as (Hr & Ho & Hm & Ha).
  assert (Hrs : review_shown vals = true) by (unfold review_shown; by rewrite Hr, Ho).
  unfold read_item_params. rewrite get_resource, get_operation.
  unfold is_value. rewrite Hr. cbn -[get_param value_of chosen_params]. rewrite Ho.
  cbn -[get_param value_of chosen_params].
  rewrite get_reviewTemplateID, get_fields, get_metaSelect, get_assignToSelect, get_additionalFields,
    get_metaJson, get_metaKeyValues, get_assignTo, Hrs, Ht.
  unfold chosen_params, is_value.
  apply elem_of_cons in Hm as [Hm|[Hm|Hm%list_elem_of_singleton]%elem_of_cons];
  apply elem_of_cons in Ha as [Ha|Ha%list_elem_of_singleton]; rewrite Hm, Ha; reflexivity.
Qed.

(** C25: with the template emptied the display conditions hide
    [fields] and the rest, but [execute] reads [fields] all the same, so
    the item fails with the host's missing-parameter error before any
    request is built. *)
Theorem read_item_params_no_template vals resumeUrl nodeId :
  well_typed vals = true -> template_hidden vals = true ->
  read_item_params vals resumeUrl nodeId = Err (MissingParameter "fields").
Proof.
  intros Hwt Ht. destruct (well_typed_values vals Hwt) as (Hr & Ho & _ & _).
  assert (Hrs : review_shown vals = true) by (unfold review_shown; by rewrite Hr, Ho).
  unfold read_item_params. rewrite get_resource, get_operation.
  unfold is_value. rewrite Hr. cbn -[get_param value_of]. rewrite Ho.
  cbn -[get_param value_of]. rewrite get_reviewTemplateID, get_fields, Hrs, Ht. reflexivity.
Qed.

(** The parameters as saved when only a template [t] was picked. *)
Definition template_only (t : string) : param_values :=
  [("reviewTemplateID", JObj [("__rl", JBool true); ("mode", JStr "list"); ("value", JStr t)])].

Section WithCodec.
Context `{JsonCodec}.

(** C26: the declared defaults make a valid review request:
    with only a template picked, the item's parameters read, and the
    request built from them has that template, no field, no metadata, no
    assignee, no update id, and the webhook URL. *)
Theorem defaults_build_request t resumeUrl nodeId :
  t <> "" ->
  exists it, read_item_params (template_only t) resumeUrl nodeId = Ok it /\
    build_request it =
      Ok {| rr_formId := Some (JStr t); rr_fields := []; rr_meta := None; rr_assignTo := None;
            rr_updateForReviewId := None; rr_webhookUrl := webhook_url resumeUrl nodeId |}.
Proof.
  intros Ht. eexists. split.
  - unfold read_item_params. rewrite get_resource, get_operation. cbn -[get_param].
    rewrite get_reviewTemplateID, get_fields, get_metaSelect, get_assignToSelect, get_additionalFields.
    unfold review_shown, template_hidden. cbn -[value_of].
    rewrite (bool_decide_eq_false_2 (JStr t = JStr "")) by congruence. reflexivity.
  - reflexivity.
Qed.

End WithCodec.

Lemma read_item_params_no_template_witness :
  let vals := template_only "" in
  well_typed vals = true /\ template_hidden vals = true /\
  read_item_params vals "https://n8n.example/webhook-waiting/42" "node-7" = Err (MissingParameter "fields").
Proof.
  intros vals. assert (H1 : well_typed vals = true) by reflexivity.
  assert (H2 : template_hidden vals = true) by reflexivity.
  split; [exact H1|]. split; [exact H2|]. exact (read_item_params_no_template vals _ _ H1 H2).
Defined.

Lemma read_item_params_ok_witness :
  let vals := [("reviewTemplateID", JObj [("__rl", JBool true); ("mode", JStr "list"); ("value", JStr "FjbxGtNfPIuDdRm55eqK")]);
               ("metaSelect", JStr "keyValue");
               ("metaKeyValues", JObj [("metaArray", JArr [JObj [("key", JStr "a"); ("value", JStr "1")]])])] in
  well_typed vals = true /\ template_hidden vals = false /\
  read_item_params vals "https://n8n.example/webhook-waiting/42" "node-7" =
    Ok (chosen_params vals "https://n8n.example/webhook-waiting/42" "node-7") /\
  p_metaKeyValues (chosen_params vals "https://n8n.example/webhook-waiting/42" "node-7") =
    Some [mk_meta_pair "a" (JStr "1")].
Proof.
  intros vals. assert (H1 : well_typed vals = true) by reflexivity.
  assert (H2 : template_hidden vals = false) by reflexivity.
  split; [exact H1|]. split; [exact H2|]. split; [exact (read_item_params_ok vals _ _ H1 H2)|].
  reflexivity.
Defined.

Lemma defaults_build_request_witness :
  "FjbxGtNfPIuDdRm55eqK" <> "" /\
  exists it, read_item_params (template_only "FjbxGtNfPIuDdRm55eqK") "https://n8n.example/webhook-waiting/42" "node-7" = Ok it /\
    build_request it =
      Ok {| rr_formId := Some (JStr "FjbxGtNfPIuDdRm55eqK"); rr_fields := []; rr_meta := None; rr_assignTo := None;
            rr_updateForReviewId := None;
            rr_webhookUrl := webhook_url "https://n8n.example/webhook-waiting/42" "node-7" |}.
Proof.
  assert (Ht : "FjbxGtNfPIuDdRm55eqK" <> "") by discriminate.
  split; [exact Ht|]. exact (defaults_build_request _ _ _ Ht).
Defined.

End NodeDescription.
