(* ===== verification/Protocol.v ===== *)
(** * The request / suspend / resume protocol

    An execution of a workflow reaches the node, which sends one review
    request per item and parks the execution ([putExecutionToWait], line
    499 of [src/nodes/GotoHuman/GotoHuman.node.ts]).  The execution is
    resumed either by a POST on its waiting-webhook URL, which the host
    routes to the node's webhook ([description.webhooks], lines 26-36:
    path [$nodeId], [restartWebhook]) whose handler ([webhook], lines
    505-510) gives the resumed output, or by the host's clock reaching the
    deadline, in which case the node's own output stands.  The only
    correlation between the request and the callback is the URL
    [<resumeUrl>/<nodeId>] the node puts in the body (lines 456-459).

    The host side is the two-phase contract the node relies on: parking
    an execution until a deadline, and resuming it once, on the first of
    the callback and the deadline.  The module [Protocol] models a host
    with several executions of the node as a labelled transition system:
    a state is the list of executions (indexed by execution id) and a
    ghost log of the resumptions; an event runs an execution's node
    ([EvRun], which calls [Execute.execute]), delivers a callback
    ([EvCallback], which calls [Webhook.webhook]), or fires a deadline
    ([EvTimeout]).  [step_fn] is the executable transition function and
    [step] the step relation; [reachable] is their reflexive-transitive
    closure from an initial state. *)

From stdpp Require Import base list strings decidable sets.
From Stdlib Require Import ZArith String Ascii Lia.
From S2P Require Import Prelude Json JsonText Host FieldMapper RequestBuilder Submission Execute Webhook.

Local Open Scope string_scope.

Module Protocol.
Import RequestBuilder Execute Webhook.

(** Where an execution stands, as far as this node is concerned. *)
Inductive status :=
(** Not run yet: the host services of the invocation. *)
| Ready (h : host)
(** Parked by [putExecutionToWait(waitTill)], with the node's output. *)
| Waiting (waitTill : Z) (output : list (list jsval))
(** [execute] threw. *)
| Failed (e : node_error)
(** Resumed, with the node's output in the resumed execution. *)
| Resumed (output : list (list jsval)).

(** One execution: its [$execution.resumeUrl], the node's [$nodeId], its
    input items, the requests it sent, its status. *)
Record execution := mk_execution {
  ex_resumeUrl : string;
  ex_nodeId : string;
  ex_items : list input_item;
  ex_sent : list request;
  ex_status : status
}.

Record sys := mk_sys {
  sys_execs : list execution;
  (** The ids of the executions resumed so far, in order (ghost state). *)
  sys_resumed : list nat
}.

Inductive event :=
| EvRun (x : nat)
| EvCallback (url : string) (body : jsval)
| EvTimeout (x : nat) (clock : Z).

(** The URL the host serves for the node's webhook while the execution
    waits: the resume URL, then the declared path. *)
Definition waiting_url (e : execution) : string :=
  ex_resumeUrl e ++ "/" ++ wh_path (webhook_description (ex_nodeId e)).

Definition is_waiting (e : execution) : bool :=
  match ex_status e with Waiting _ _ => true | _ => false end.

Definition is_resumed (e : execution) : bool :=
  match ex_status e with Resumed _ => true | _ => false end.

Definition is_final (e : execution) : bool :=
  match ex_status e with Failed _ | Resumed _ => true | _ => false end.

Definition with_status (e : execution) (st : status) (sent : list request) : execution :=
  {| ex_resumeUrl := ex_resumeUrl e; ex_nodeId := ex_nodeId e; ex_items := ex_items e;
     ex_sent := sent; ex_status := st |}.

(** The host's lookup of a waiting webhook: the waiting execution whose
    URL is the one posted to. *)
Definition route (es : list execution) (url : string) : option (nat * execution) :=
  list_find (fun e => bool_decide (waiting_url e = url) && is_waiting e = true) es.

Section WithCodec.
Context `{JsonCodec}.

(** Running the node: [execute], then [putExecutionToWait] or the throw. *)
Definition run_node (e : execution) (h : host) : execution :=
  let r := execute h (ex_items e) in
  with_status e (match er_outcome r with
                 | Suspended w out => Waiting w out
                 | Thrown err => Failed err
                 end) (ex_sent e ++ er_sent r)%list.

(** The transition function: [None] where the host ignores the event. *)
Definition step_fn (s : sys) (ev : event) : option sys :=
  match ev with
  | EvRun x =>
      match sys_execs s !! x with
      | Some e =>
          match ex_status e with
          | Ready h => Some {| sys_execs := <[x := run_node e h]> (sys_execs s);
                                     sys_resumed := sys_resumed s |}
          | _ => None
          end
      | None => None
      end
  | EvCallback url body =>
      match route (sys_execs s) url with
      | Some (x, e) =>
          Some {| sys_execs := <[x := with_status e (Resumed (webhook body)) (ex_sent e)]> (sys_execs s);
                  sys_resumed := sys_resumed s ++ [x] |}
      | None => None
      end
  | EvTimeout x clock =>
      match sys_execs s !! x with
      | Some e =>
          match ex_status e with
          | Waiting w out =>
              if decide (w <= clock)%Z then
                Some {| sys_execs := <[x := with_status e (Resumed out) (ex_sent e)]> (sys_execs s);
                        sys_resumed := sys_resumed s ++ [x] |}
              else None
          | _ => None
          end
      | None => None
      end
  end.

(** The same transitions as a relation, one rule per kind of event. *)
Inductive step : sys -> event -> sys -> Prop :=
| step_run s x e h :
    sys_execs s !! x = Some e -> ex_status e = Ready h ->
    step s (EvRun x) (mk_sys (<[x := run_node e h]> (sys_execs s)) (sys_resumed s))
| step_callback s url body x e :
    route (sys_execs s) url = Some (x, e) ->
    step s (EvCallback url body)
      (mk_sys (<[x := with_status e (Resumed (webhook body)) (ex_sent e)]> (sys_execs s))
              (sys_resumed s ++ [x]))
| step_timeout s x clock e w out :
    sys_execs s !! x = Some e -> ex_status e = Waiting w out -> (w <= clock)%Z ->
    step s (EvTimeout x clock)
      (mk_sys (<[x := with_status e (Resumed out) (ex_sent e)]> (sys_execs s))
              (sys_resumed s ++ [x])).

Inductive reachable (s0 : sys) : sys -> Prop :=
| reach_init : reachable s0 s0
| reach_step s ev s' : reachable s0 s -> step s ev s' -> reachable s0 s'.

(** The runs of the host with their events, in order. *)
Inductive run (s0 : sys) : list event -> sys -> Prop :=
| run_nil : run s0 [] s0
| run_snoc evs s ev s' : run s0 evs s -> step s ev s' -> run s0 (evs ++ [ev]) s'.

(** An initial state: nothing run, nothing resumed; each execution's
    items evaluate [$execution.resumeUrl] and [$nodeId] to its own, and
    distinct executions have distinct waiting URLs. *)
Definition item_of (e : execution) (ii : input_item) : Prop :=
  p_resumeUrl (ii_params ii) = ex_resumeUrl e /\ p_nodeId (ii_params ii) = ex_nodeId e.

Definition initial (s : sys) : Prop :=
  sys_resumed s = [] /\ NoDup (waiting_url <$> sys_execs s) /\
  Forall (fun e => (exists h, ex_status e = Ready h) /\ ex_sent e = [] /\
                   Forall (item_of e) (ex_items e)) (sys_execs s).

(** What every request an execution has sent looks like: a POST of a body
    whose [webhookUrl] is [<resumeUrl>/<nodeId>] for the execution. *)
Definition sent_ok (e : execution) (r : request) : Prop :=
  req_method r = "POST" /\ req_uri r = BASE_URL ++ "/requestReview" /\
  exists b, req_body r = Some b /\
    prop b "webhookUrl" = Some (JStr (ex_resumeUrl e ++ "/" ++ ex_nodeId e)).

(** The invariant of one execution. *)
Definition exec_inv (e : execution) : Prop :=
  Forall (item_of e) (ex_items e) /\ Forall (sent_ok e) (ex_sent e) /\
  (forall w out, ex_status e = Waiting w out -> out = [map ii_json (ex_items e)]).

(** The invariant of the host: waiting URLs identify executions, the log
    holds each resumed execution once, every execution is well formed. *)
Definition inv (s : sys) : Prop :=
  NoDup (waiting_url <$> sys_execs s) /\ NoDup (sys_resumed s) /\
  (forall x, x ∈ sys_resumed s <-> exists e, sys_execs s !! x = Some e /\ is_resumed e = true) /\
  Forall exec_inv (sys_execs s).

End WithCodec.

(** ** Lemmas *)

Lemma urls_insert (es : list execution) x e e' :
  es !! x = Some e -> waiting_url e' = waiting_url e ->
  waiting_url <$> <[x := e']> es = waiting_url <$> es.
Proof. intros Hx Hu. rewrite list_fmap_insert, Hu. by apply list_insert_id, list_lookup_fmap_Some_2. Qed.

Lemma route_Some (es : list execution) url x e :
  route es url = Some (x, e) -> es !! x = Some e /\ waiting_url e = url /\ is_waiting e = true.
Proof.
  unfold route. intros (Hx & Hp & _)%list_find_Some.
  apply andb_true_iff in Hp as [Hu Hw]. apply bool_decide_eq_true in Hu. done.
Qed.

(** Distinct executions have distinct waiting URLs. *)
Lemma url_unique (es : list execution) x y e e' :
  NoDup (waiting_url <$> es) -> es !! x = Some e -> es !! y = Some e' ->
  waiting_url e' = waiting_url e -> y = x.
Proof.
  intros Hnd Hx Hy Hu. eapply NoDup_lookup; [exact Hnd| |].
  - by rewrite list_lookup_fmap, Hy.
  - by rewrite list_lookup_fmap, Hx, Hu.
Qed.

(** With distinct waiting URLs, a waiting execution's URL routes to it. *)
Lemma route_waiting (es : list execution) x e :
  NoDup (waiting_url <$> es) -> es !! x = Some e -> is_waiting e = true ->
  route es (waiting_url e) = Some (x, e).
Proof.
  intros Hnd Hx Hw. unfold route. apply list_find_Some. split; [done|].
  split; [by rewrite bool_decide_eq_true_2|]. intros j y Hy Hj Hp.
  apply andb_true_iff in Hp as [Hu _]. apply bool_decide_eq_true in Hu.
  assert (j = x) by (eapply url_unique; eauto). lia.
Qed.

Section Invariant.
Context `{JsonCodec}.

(** The transition function and the step relation agree. *)
Lemma step_fn_spec s ev s' : step s ev s' <-> step_fn s ev = Some s'.
Proof.
  split.
  - destruct 1 as [s x e h Hx Hs|s url body x e Hr|s x clock e w out Hx Hs Hw]; simpl.
    + by rewrite Hx, Hs.
    + by rewrite Hr.
    + by rewrite Hx, Hs, decide_True.
  - destruct ev as [x|url body|x clock]; simpl; repeat case_match; intros; simplify_eq;
      econstructor; eauto.
Qed.

Lemma exec_inv_with_status e st sent :
  exec_inv e -> Forall (sent_ok e) sent ->
  (forall w out, st = Waiting w out -> out = [map ii_json (ex_items e)]) ->
  exec_inv (with_status e st sent).
Proof. intros (Hi & _ & _) Hs Hw. split; [exact Hi|]. split; [exact Hs|]. exact Hw. Qed.

(** The log stays the set of resumed executions when execution [x] is
    replaced, and [x] is logged iff its new status is [Resumed]. *)
Lemma log_insert (es : list execution) log x e e' :
  es !! x = Some e -> is_resumed e = false ->
  (forall y, y ∈ log <-> exists e, es !! y = Some e /\ is_resumed e = true) ->
  forall y, y ∈ (if is_resumed e' then log ++ [x] else log)%list <->
            exists e'', <[x := e']> es !! y = Some e'' /\ is_resumed e'' = true.
Proof.
  intros Hx He Hlog y. destruct (decide (y = x)) as [->|Hne].
  - rewrite list_lookup_insert_eq by (eapply lookup_lt_Some; eauto).
    assert (x ∉ log) by (rewrite Hlog; intros (e0 & He0 & Hr); congruence).
    destruct (is_resumed e') eqn:Er.
    + split; [intros _; exists e'; split; [reflexivity|exact Er]|intros _; set_solver].
    + split; [done|]. intros (e'' & [= <-] & Hr). congruence.
  - rewrite list_lookup_insert_ne by congruence. rewrite <- Hlog. destruct (is_resumed e'); set_solver.
Qed.

(** Running the node keeps the execution well formed: each request it
    sends carries the execution's waiting URL. *)
Lemma run_node_inv e h : exec_inv e -> exec_inv (run_node e h).
Proof.
  intros He. pose proof He as (Hi & Hs & _). apply exec_inv_with_status; [done| |].
  - apply Forall_app. split; [done|]. apply Forall_forall. intros r Hr.
    destruct (execute_sent_shape h (ex_items e) r Hr) as (ii & rr & Hii & Hb & ->).
    split; [done|]. split; [done|]. exists (body_json rr). split; [done|].
    destruct (body_json_members rr) as (_ & _ & _ & _ & _ & _ & _ & ->).
    rewrite (build_request_webhook _ _ Hb).
    rewrite Forall_forall in Hi. destruct (Hi ii Hii) as [-> ->]. reflexivity.
  - unfold execute. destruct (execute_items _ _ _ _) as [st [err|]]; simpl; congruence.
Qed.

Lemma inv_initial s : initial s -> inv s.
Proof.
  intros (Hlog & Hnd & Hall). split; [done|]. rewrite Hlog. split; [constructor|]. split.
  - intros x. split; [set_solver|]. intros (e & Hx & Hr).
    apply (Forall_lookup_1 _ _ _ _ Hall) in Hx as ([h Hh] & _). unfold is_resumed in Hr.
    by rewrite Hh in Hr.
  - eapply Forall_impl; [exact Hall|]. intros e ([h Hh] & Hs & Hi).
    split; [done|]. split; [rewrite Hs; constructor|]. by rewrite Hh.
Qed.

Lemma step_inv s ev s' : inv s -> step s ev s' -> inv s'.
Proof.
  intros (Hnd & Hlnd & Hlog & Hall).
  destruct 1 as [s x e h Hx Hs|s url body x e Hr|s x clock e w out Hx Hs Hw]; unfold inv; cbn [sys_execs sys_resumed].
  - assert (He : is_resumed e = false) by (unfold is_resumed; by rewrite Hs).
    split; [by rewrite (urls_insert _ _ e)|]. split; [done|]. split.
    + pose proof (log_insert _ _ _ _ (run_node e h) Hx He Hlog) as L.
      assert (Hr : is_resumed (run_node e h) = false) by (unfold is_resumed, run_node; cbn;
        by destruct (er_outcome _)).
      by rewrite Hr in L.
    + apply Forall_insert; [done|]. apply run_node_inv. by eapply Forall_lookup_1.
  - apply route_Some in Hr as (Hx & _ & Hwt).
    assert (He : is_resumed e = false) by (unfold is_resumed, is_waiting in *; by destruct (ex_status e)).
    split; [by rewrite (urls_insert _ _ e)|].
    split; [apply NoDup_app; split; [done|]; split; [|apply NoDup_singleton]|]; [|split].
    + intros y Hy ->%list_elem_of_singleton. apply Hlog in Hy as (e' & He' & Hr'). congruence.
    + exact (log_insert _ _ _ _ (with_status e (Resumed _) (ex_sent e)) Hx He Hlog).
    + apply Forall_insert; [done|]. pose proof (Forall_lookup_1 _ _ _ _ Hall Hx) as Hi.
      apply exec_inv_with_status; [done|apply Hi|discriminate].
  - assert (He : is_resumed e = false) by (unfold is_resumed; by rewrite Hs).
    split; [by rewrite (urls_insert _ _ e)|].
    split; [apply NoDup_app; split; [done|]; split; [|apply NoDup_singleton]|]; [|split].
    + intros y Hy ->%list_elem_of_singleton. apply Hlog in Hy as (e' & He' & Hr'). congruence.
    + exact (log_insert _ _ _ _ (with_status e (Resumed _) (ex_sent e)) Hx He Hlog).
    + apply Forall_insert; [done|]. pose proof (Forall_lookup_1 _ _ _ _ Hall Hx) as Hi.
      apply exec_inv_with_status; [done|apply Hi|discriminate].
Qed.

Lemma reachable_inv s0 s : initial s0 -> reachable s0 s -> inv s.
Proof. intros Hi. induction 1; [by apply inv_initial | by eapply step_inv]. Qed.

End Invariant.

Lemma run_reachable `{JsonCodec} s0 evs s : run s0 evs s -> reachable s0 s.
Proof. induction 1; econstructor; eauto. Qed.

(** Replacing execution [y] leaves the others as they were. *)
Lemma lookup_other (es : list execution) x y e e' :
  <[y := e']> es !! x = Some e -> x <> y -> es !! x = Some e.
Proof. intros Hx Hne. by rewrite list_lookup_insert_ne in Hx by congruence. Qed.

(** Replacing execution [x]: what it is now. *)
Lemma lookup_same (es : list execution) x e e' : <[x := e']> es !! x = Some e -> e = e'.
Proof. intros Hx. apply list_lookup_insert_Some in Hx as [(_ & -> & _)|[? _]]; done. Qed.

(** ** Properties of the protocol *)

Section Properties.
Context `{JsonCodec}.


Lemma reachable_trans s1 s2 s3 : reachable s1 s2 -> reachable s2 s3 -> reachable s1 s3.
Proof. intros H12. induction 1; [done|]. econstructor; eauto. Qed.

Lemma reachable_one s ev s' : step_fn s ev = Some s' -> reachable s s'.
Proof. intros Hs. eapply reach_step; [constructor|]. by apply step_fn_spec. Qed.

(** C1: correlation: every review request an execution sent
    carries a [webhookUrl] at which a callback, while the execution
    waits, resumes that execution, and only it (every other execution is
    left as it was), with the callback body as the node's output
    ([webhook]). *)
Theorem callback_resumes_sender s0 s x e r :
  initial s0 -> reachable s0 s -> sys_execs s !! x = Some e -> is_waiting e = true -> r ∈ ex_sent e ->
  exists b url, req_body r = Some b /\ prop b "webhookUrl" = Some (JStr url) /\
    forall body, step_fn s (EvCallback url body) =
      Some (mk_sys (<[x := with_status e (Resumed (webhook body)) (ex_sent e)]> (sys_execs s))
                   (sys_resumed s ++ [x])).
Proof.
  intros Hi Hr Hx Hw Hin. destruct (reachable_inv _ _ Hi Hr) as (Hnd & _ & _ & Hall).
  destruct (Forall_lookup_1 _ _ _ _ Hall Hx) as (_ & Hs & _).
  rewrite Forall_forall in Hs. destruct (Hs r Hin) as (_ & _ & b & Hb & Hu).
  exists b, (waiting_url e). split; [done|]. split.
  { rewrite Hu. unfold waiting_url, webhook_description. reflexivity. }
  intros body. cbn. by rewrite (route_waiting _ x e).
Qed.

(** C2: a waiting execution is resumed by its deadline, not
    before, and then with the node's own output, its input items: no
    "timed out" payload is made up. *)
Theorem timeout_resumes_with_input s0 s x e w out :
  initial s0 -> reachable s0 s -> sys_execs s !! x = Some e -> ex_status e = Waiting w out ->
  (forall clock, (clock < w)%Z -> step_fn s (EvTimeout x clock) = None) /\
  (forall clock, (w <= clock)%Z -> step_fn s (EvTimeout x clock) =
     Some (mk_sys (<[x := with_status e (Resumed [map ii_json (ex_items e)]) (ex_sent e)]> (sys_execs s))
                  (sys_resumed s ++ [x]))).
Proof.
  intros Hi Hr Hx Hs. destruct (reachable_inv _ _ Hi Hr) as (_ & _ & _ & Hall).
  destruct (Forall_lookup_1 _ _ _ _ Hall Hx) as (_ & _ & Hout).
  rewrite <- (Hout w out Hs). split; intros clock Hc; cbn; rewrite Hx, Hs.
  - by rewrite decide_False by lia.
  - by rewrite decide_True by lia.
Qed.

(** C31: where a resumed execution's output comes from: it is
    its own input items (the deadline passed and the node's output stood),
    or the webhook's output for a body that was posted, during the run, to
    the execution's waiting URL; no output is made up by the host. *)
Theorem resumed_output_origin s0 evs s x e out :
  initial s0 -> run s0 evs s -> sys_execs s !! x = Some e -> ex_status e = Resumed out ->
  out = [map ii_json (ex_items e)] \/
  exists body, EvCallback (waiting_url e) body ∈ evs /\ out = webhook body.
Proof.
  intros Hi Hr. revert x e out. induction Hr as [|evs s ev s' Hr IH Hst]; intros x e out Hx Hs.
  - destruct Hi as (_ & _ & Hall). destruct (Forall_lookup_1 _ _ _ _ Hall Hx) as ([h Hh] & _).
    congruence.
  - assert (Hold : forall e0, sys_execs s !! x = Some e0 -> e0 = e ->
      out = [map ii_json (ex_items e)] \/
      exists body, EvCallback (waiting_url e) body ∈ (evs ++ [ev])%list /\ out = webhook body).
    { intros e0 H0 ->. destruct (IH _ _ _ H0 Hs) as [?|(b & ? & ?)]; [by left|right; exists b; set_solver]. }
    destruct Hst as [s y e0 h Hy Hs0|s url body y e0 Hro|s y clock e0 w out0 Hy Hs0 Hw];
      cbn [sys_execs] in Hx; (destruct (decide (x = y)) as [->|Hne];
      [apply lookup_same in Hx as ->|by apply (Hold e); [apply (lookup_other _ _ y _ _ Hx Hne)|]]).
    + unfold run_node in Hs. cbn in Hs. by destruct (er_outcome _).
    + apply route_Some in Hro as (_ & Hu & _). cbn in Hs. injection Hs as <-.
      right. exists body. split; [|done]. rewrite <- Hu. set_solver.
    + destruct (reachable_inv _ _ Hi (run_reachable _ _ _ Hr)) as (_ & _ & _ & Hall).
      destruct (Forall_lookup_1 _ _ _ _ Hall Hy) as (_ & _ & Hout).
      cbn in Hs. injection Hs as <-. left. exact (Hout w out0 Hs0).
Qed.

End Properties.

(** ** Witnesses: one execution of the demo item, with the JSON text codec *)

Definition demo_exec : execution :=
  mk_execution "https://n8n.example/webhook-waiting/42" "node-7" [demo_input demo_item] []
    (Ready (demo_host false (fun _ => Ok (demo_answer (Some 60000%Z))))).

Definition demo_sys : sys := mk_sys [demo_exec] [].

(** After the node ran: parked, one request sent. *)
Definition demo_run : sys := default demo_sys (step_fn demo_sys (EvRun 0)).
Definition demo_waiting : execution := default demo_exec (sys_execs demo_run !! 0).
Definition demo_request : request := default credential_test_request (head (ex_sent demo_waiting)).

(** After the reviewer's answer came back. *)
Definition demo_body : jsval := JObj [("decision", JStr "approved")].
Definition demo_done : sys :=
  default demo_run (step_fn demo_run (EvCallback (waiting_url demo_waiting) demo_body)).

Definition demo_final : execution := default demo_exec (sys_execs demo_done !! 0).

Lemma demo_initial : initial demo_sys.
Proof.
  split; [reflexivity|]. split; [apply NoDup_singleton|].
  repeat constructor. by eexists.
Qed.

Lemma demo_reach_run : reachable demo_sys demo_run.
Proof. apply (reachable_one _ (EvRun 0)). vm_compute. reflexivity. Qed.

Lemma demo_reach_done : reachable demo_sys demo_done.
Proof.
  eapply reachable_trans; [exact demo_reach_run|].
  apply (reachable_one _ (EvCallback (waiting_url demo_waiting) demo_body)). vm_compute. reflexivity.
Qed.

Lemma callback_resumes_sender_witness :
  sys_execs demo_run !! 0 = Some demo_waiting /\ is_waiting demo_waiting = true /\
  demo_request ∈ ex_sent demo_waiting /\
  exists b url, req_body demo_request = Some b /\ prop b "webhookUrl" = Some (JStr url) /\
    forall body, step_fn demo_run (EvCallback url body) =
      Some (mk_sys (<[0 := with_status demo_waiting (Resumed (webhook body)) (ex_sent demo_waiting)]>
                      (sys_execs demo_run)) (sys_resumed demo_run ++ [0])).
Proof.
  assert (H1 : sys_execs demo_run !! 0 = Some demo_waiting) by (vm_compute; reflexivity).
  assert (H2 : is_waiting demo_waiting = true) by (vm_compute; reflexivity).
  assert (H3 : demo_request ∈ ex_sent demo_waiting) by (apply list_elem_of_In; vm_compute; left; reflexivity).
  split; [exact H1|]. split; [exact H2|]. split; [exact H3|].
  exact (callback_resumes_sender demo_sys demo_run 0 demo_waiting demo_request
           demo_initial demo_reach_run H1 H2 H3).
Defined.

Lemma timeout_resumes_with_input_witness :
  ex_status demo_waiting = Waiting (1700000000000 + 60000) [[JObj [("row", JNum 1)]]] /\
  step_fn demo_run (EvTimeout 0 1700000060000) =
    Some (mk_sys (<[0 := with_status demo_waiting (Resumed [map ii_json (ex_items demo_waiting)])
                           (ex_sent demo_waiting)]> (sys_execs demo_run)) (sys_resumed demo_run ++ [0])).
Proof.
  assert (H1 : sys_execs demo_run !! 0 = Some demo_waiting) by (vm_compute; reflexivity).
  assert (H2 : ex_status demo_waiting = Waiting (1700000000000 + 60000) [[JObj [("row", JNum 1)]]])
    by (vm_compute; reflexivity).
  split; [exact H2|].
  apply (proj2 (timeout_resumes_with_input demo_sys demo_run 0 demo_waiting _ _
                  demo_initial demo_reach_run H1 H2)). lia.
Defined.

Lemma resumed_output_origin_witness :
  let evs := [EvRun 0; EvCallback (waiting_url demo_waiting) demo_body] in
  run demo_sys evs demo_done /\ sys_execs demo_done !! 0 = Some demo_final /\
  ex_status demo_final = Resumed (webhook demo_body) /\
  (webhook demo_body = [map ii_json (ex_items demo_final)] \/
   exists body, EvCallback (waiting_url demo_final) body ∈ evs /\ webhook demo_body = webhook body).
Proof.
  intros evs. assert (R : run demo_sys evs demo_done).
  { apply (run_snoc _ [EvRun 0] demo_run); [apply (run_snoc _ [] demo_sys); [constructor|]|];
      apply step_fn_spec; vm_compute; reflexivity. }
  assert (H1 : sys_execs demo_done !! 0 = Some demo_final) by (vm_compute; reflexivity).
  assert (H2 : ex_status demo_final = Resumed (webhook demo_body)) by (vm_compute; reflexivity).
  split; [exact R|]. split; [exact H1|]. split; [exact H2|].
  exact (resumed_output_origin demo_sys evs demo_done 0 demo_final _ demo_initial R H1 H2).
Defined.

End Protocol.
