(* ===== verification/ProtocolSpec.v ===== *)
(** * The Suspend Controller's contract, and the protocol refining it

    The specification describes a suspended execution abstractly: it is
    created when the node submits (parked until a deadline after the
    submission time, or failed), and it is destroyed, once, by the
    callback, whose body becomes the execution's output, or by the
    host-level timeout at the deadline, which synthesizes no payload, so
    the node's own output (its input items) stands.  No URL appears: the
    contract speaks of executions by id.

    The module [ProtocolSpec] states this contract as a transition system
    on abstract executions ([aexec]: the input items and an [astatus]),
    maps a state of the host of [Protocol.v] to it ([abs_sys]), and proves
    that every step of the host is a step of the contract ([sim_run],
    [sim_callback], [sim_timeout]),
    so that every run of the host is a run of the contract
    ([protocol_refines]). *)

From stdpp Require Import base list strings decidable sets.
From Stdlib Require Import ZArith String Ascii Lia.
From S2P Require Import Prelude Json JsonText Host FieldMapper RequestBuilder Submission Execute Webhook Protocol.

Local Open Scope string_scope.

Module ProtocolSpec.
Import Execute Webhook Protocol.

(** ** The contract *)

(** An execution as the specification sees it. *)
Inductive astatus :=
(** Not submitted yet; the clock at submission time. *)
| APending (now : Z)
(** Parked until [deadline]. *)
| AParked (deadline : Z)
| AFailed
(** Resumed with [output]. *)
| ADone (output : list (list jsval)).

Record aexec := mk_aexec {
  a_input : list jsval;
  a_status : astatus
}.

Inductive aevent :=
| ASubmit (x : nat)
| ACallback (x : nat) (body : jsval)
| ATimeout (x : nat) (clock : Z).

(** Submission parks the execution until a time after the submission,
    or fails it; the callback resumes a parked execution with the
    callback's output; the deadline resumes it with its own input. *)
Inductive astep : list aexec -> aevent -> list aexec -> Prop :=
| astep_park es x a now d :
    es !! x = Some a -> a_status a = APending now -> (now < d)%Z ->
    astep es (ASubmit x) (<[x := mk_aexec (a_input a) (AParked d)]> es)
| astep_fail es x a now :
    es !! x = Some a -> a_status a = APending now ->
    astep es (ASubmit x) (<[x := mk_aexec (a_input a) AFailed]> es)
| astep_callback es x a d body :
    es !! x = Some a -> a_status a = AParked d ->
    astep es (ACallback x body) (<[x := mk_aexec (a_input a) (ADone (webhook body))]> es)
| astep_timeout es x a d clock :
    es !! x = Some a -> a_status a = AParked d -> (d <= clock)%Z ->
    astep es (ATimeout x clock) (<[x := mk_aexec (a_input a) (ADone [a_input a])]> es).

Inductive areachable (a0 : list aexec) : list aexec -> Prop :=
| areach_init : areachable a0 a0
| areach_step a ev a' : areachable a0 a -> astep a ev a' -> areachable a0 a'.

(** ** The abstraction of a host state *)

Definition abs_status (st : status) : astatus :=
  match st with
  | Ready h => APending (now h)
  | Waiting w _ => AParked w
  | Failed _ => AFailed
  | Resumed out => ADone out
  end.

Definition abs_exec (e : execution) : aexec :=
  mk_aexec (map ii_json (ex_items e)) (abs_status (ex_status e)).

Definition abs_sys (s : sys) : list aexec := abs_exec <$> sys_execs s.

(** ** The simulation, one lemma per rule of [step] *)

Lemma abs_insert s x e r :
  abs_sys (mk_sys (<[x := e]> (sys_execs s)) r) = <[x := abs_exec e]> (abs_sys s).
Proof. apply list_fmap_insert. Qed.

Lemma abs_lookup s x e : sys_execs s !! x = Some e -> abs_sys s !! x = Some (abs_exec e).
Proof. intros Hx. unfold abs_sys. by rewrite list_lookup_fmap, Hx. Qed.

Section Simulation.
Context `{JsonCodec}.

Lemma sim_run s x e h :
  sys_execs s !! x = Some e -> ex_status e = Ready h ->
  astep (abs_sys s) (ASubmit x) (abs_sys (mk_sys (<[x := run_node e h]> (sys_execs s)) (sys_resumed s))).
Proof.
  intros Hx Hs. rewrite abs_insert.
  pose proof (abs_lookup _ _ _ Hx) as Ha.
  unfold run_node, abs_exec. cbn [ex_items ex_status with_status].
  destruct (er_outcome (execute h (ex_items e))) as [w out|err] eqn:Ho; cbn [abs_status].
  - apply (astep_park _ _ (abs_exec e) (now h)); [exact Ha|cbn; by rewrite Hs|].
    by eapply execute_deadline_after.
  - apply (astep_fail _ _ (abs_exec e) (now h)); [exact Ha|cbn; by rewrite Hs].
Qed.

Lemma sim_callback s url body x e :
  route (sys_execs s) url = Some (x, e) ->
  astep (abs_sys s) (ACallback x body)
    (abs_sys (mk_sys (<[x := with_status e (Resumed (webhook body)) (ex_sent e)]> (sys_execs s))
                 (sys_resumed s ++ [x]))).
Proof.
  intros (Hx & _ & Hw)%route_Some. rewrite abs_insert.
  unfold is_waiting in Hw. destruct (ex_status e) as [|w out| |] eqn:Hs; try discriminate.
  apply (astep_callback _ _ (abs_exec e) w); [by apply abs_lookup|cbn; by rewrite Hs].
Qed.

Lemma sim_timeout s x clock e w out :
  inv s -> sys_execs s !! x = Some e -> ex_status e = Waiting w out -> (w <= clock)%Z ->
  astep (abs_sys s) (ATimeout x clock)
    (abs_sys (mk_sys (<[x := with_status e (Resumed out) (ex_sent e)]> (sys_execs s))
                 (sys_resumed s ++ [x]))).
Proof.
  intros (_ & _ & _ & Hall) Hx Hs Hw. destruct (Forall_lookup_1 _ _ _ _ Hall Hx) as (_ & _ & Hout).
  rewrite abs_insert, (Hout w out Hs).
  apply (astep_timeout _ _ (abs_exec e) w); [by apply abs_lookup|cbn; by rewrite Hs|done].
Qed.

End Simulation.

(** ** Refinement *)

Section Refinement.
Context `{JsonCodec}.

(** C30: the host refines the Suspend Controller's contract:
    every run of the host from an initial state maps, execution by
    execution, to a run of the contract; each step of the host is a
    submission that parks an execution until a later time or fails it,
    a callback that resumes a parked execution with the callback's
    output, or a deadline that resumes it, not before its time, with its
    input items. *)
Theorem protocol_refines s0 s : initial s0 -> reachable s0 s -> areachable (abs_sys s0) (abs_sys s).
Proof.
  intros Hi Hr. induction Hr as [|s ev s' Hr IH Hst]; [constructor|].
  pose proof (reachable_inv _ _ Hi Hr) as Hinv.
  destruct Hst as [s x e h Hx Hs|s url body x e Hro|s x clock e w out Hx Hs Hw];
    (eapply areach_step; [exact IH|]).
  - by apply (sim_run s x e h).
  - by apply (sim_callback s url body x e).
  - by apply (sim_timeout s x clock e w out).
Qed.

End Refinement.

(** ** Witnesses, on the demo run of [Protocol] *)

Lemma protocol_refines_witness : areachable (abs_sys demo_sys) (abs_sys demo_done).
Proof. exact (protocol_refines demo_sys demo_done demo_initial demo_reach_done). Defined.

End ProtocolSpec.
